(** * python-database-mastery: the repository layer over the four-table schema

    The notebooks declare a schema (users, orders, products,
    orderproductss) with SQLAlchemy's declarative mapping and wrap a
    session in a [Repo] class whose methods build one SQL statement each,
    execute it and commit.  This development embeds

    - the table-name derivation of [TableNameMixin] (per notebook),
    - the declared schema: column types, nullability, primary keys and
      the [ondelete] policy of every foreign key,
    - the statements the [Repo] methods build, as functions on a database
      state, with the referential actions the schema asks for,
    - the session discipline: [execute] works on the open transaction,
      [commit] makes it durable, leaving the [with] block rolls back
      whatever was not committed,

    and proves the properties of the repository layer on top of it. *)

From Stdlib Require Import ZArith List String Ascii Bool Lia Permutation Sorted.
Import ListNotations.
Local Open Scope string_scope.
Local Open Scope list_scope.
Local Open Scope Z_scope.

(* ===================================================================== *)
(** ** Table names: [TableNameMixin.__tablename__] *)
(* ===================================================================== *)

Module Naming.

(** [str.lower] on the ASCII range (class names of the notebooks are
    ASCII identifiers). *)
Definition lower_ascii (c : ascii) : ascii :=
  let n := nat_of_ascii c in
  if (Nat.leb 65 n && Nat.leb n 90)%bool then ascii_of_nat (n + 32) else c.

Fixpoint lower (s : string) : string :=
  match s with
  | EmptyString => EmptyString
  | String c r => String (lower_ascii c) (lower r)
  end.

(** The notebooks that define a [TableNameMixin]. *)
Inductive notebook : Type :=
| working_with_databases_02
| alembic_for_database_management_03
| quering_with_sqlalchemy_orm_04
| modifying_data_with_orm_05
| migrating_to_asynchronous_mode_06.

(** [return cls.__name__.lower() + "s"] everywhere, except in the
    alembic notebook, whose mixin reads [return cls.__name__.lower()]. *)
Definition __tablename__ (nb : notebook) (cls__name__ : string) : string :=
  match nb with
  | alembic_for_database_management_03 => lower cls__name__
  | _ => (lower cls__name__ ++ "s")%string
  end.

(** The classes that inherit from the mixin in each notebook. *)
Definition mapped_classes (nb : notebook) : list string :=
  match nb with
  | working_with_databases_02 => ["Orders"; "Products"; "OrderProducts"]
  | alembic_for_database_management_03 =>
      ["Users"; "Orders"; "Products"; "OrderProducts"]
  | _ => ["User"; "Order"; "Product"; "OrderProducts"]
  end.

End Naming.

(* ===================================================================== *)
(** ** Errors and the state-and-exception monad *)
(* ===================================================================== *)

(** The database errors the driver surfaces (SQLAlchemy wraps the first
    three as [IntegrityError], the last two as [DataError]). *)
Inductive DBAPIError : Type :=
| UniqueViolation
| ForeignKeyViolation
| NotNullViolation
| StringDataRightTruncation
| NumericValueOutOfRange.

Inductive result (A : Type) : Type :=
| Ok (a : A)
| Raise (e : DBAPIError).
Arguments Ok {A} a.
Arguments Raise {A} e.

Definition result_bind {A B} (r : result A) (k : A -> result B) : result B :=
  match r with
  | Ok a => k a
  | Raise e => Raise e
  end.

(** A computation over a state [S] that may raise; the state reached when
    the exception is raised is kept (it is what a rollback then discards). *)
Definition SE (S A : Type) : Type := S -> S * result A.

Definition ret {S A} (a : A) : SE S A := fun s => (s, Ok a).

Definition bind {S A B} (m : SE S A) (k : A -> SE S B) : SE S B :=
  fun s =>
    match m s with
    | (s', Ok a) => k a s'
    | (s', Raise e) => (s', Raise e)
    end.

Declare Scope se_scope.
Delimit Scope se_scope with se.
Notation "x <- m ;; k" := (bind m (fun x => k))
  (at level 100, m at next level, right associativity) : se_scope.
Notation "m ;;; k" := (bind m (fun _ => k))
  (at level 100, right associativity) : se_scope.

(* ===================================================================== *)
(** ** Rows of the mapped classes *)
(* ===================================================================== *)

(** Timestamps are readings of the server clock ([func.now()]). *)
Definition timestamp : Type := Z.

Module User.
Record t : Type := Build
  { telegram_id : Z;                 (* BIGINT, primary key *)
    full_name : string;              (* String(255) *)
    user_name : option string;       (* Optional, String(255) *)
    language_code : string;          (* String(255) / VARCHAR(10) *)
    referrer_id : option Z;          (* Optional, BIGINT, FK users *)
    created_at : timestamp;
    updated_at : timestamp }.
End User.

Module Order.
Record t : Type := Build
  { order_id : Z;                    (* INTEGER, primary key, serial *)
    user_id : Z;                     (* BIGINT, FK users *)
    created_at : timestamp;
    updated_at : timestamp }.
End Order.

Module Product.
Record t : Type := Build
  { product_id : Z;                  (* INTEGER, primary key, serial *)
    title : string;                  (* String(255) *)
    description : option string;     (* Optional, VARCHAR(3000) *)
    price : Z;                       (* DECIMAL(16, 4), in 1/10000 units *)
    created_at : timestamp;
    updated_at : timestamp }.
End Product.

Module OrderProducts.
Record t : Type := Build
  { order_id : Z;                    (* INTEGER, FK orders, primary key *)
    product_id : Z;                  (* INTEGER, FK products, primary key *)
    quantity : Z }.                  (* INTEGER *)
End OrderProducts.

(* ===================================================================== *)
(** ** The declared schema *)
(* ===================================================================== *)

(** [ForeignKey(..., ondelete=...)]. *)
Inductive ondelete : Type := CASCADE | SET_NULL | RESTRICT.

Record Schema : Type :=
  { users_referrer_id_fk : ondelete;
    orders_user_id_fk : ondelete;
    orderproductss_order_id_fk : ondelete;
    orderproductss_product_id_fk : ondelete;
    language_code_length : nat }.

(** [user_fk]: [ForeignKey("users.telegram_id", ondelete="CASCADE")]. *)
Definition user_fk : ondelete := CASCADE.

(** Notebook 04, first declaration: [referrer_id: Mapped[Optional[user_fk]]],
    [language_code: Mapped[str_255]]. *)
Definition schema_04 : Schema :=
  {| users_referrer_id_fk := user_fk;
     orders_user_id_fk := user_fk;
     orderproductss_order_id_fk := CASCADE;
     orderproductss_product_id_fk := RESTRICT;
     language_code_length := 255 |}.

(** Notebook 04, redeclared with relationships: [language_code] becomes
    [VARCHAR(10)]; [referrer_id] is still [Mapped[Optional[user_fk]]]. *)
Definition schema_04_relationships : Schema :=
  {| users_referrer_id_fk := user_fk;
     orders_user_id_fk := user_fk;
     orderproductss_order_id_fk := CASCADE;
     orderproductss_product_id_fk := RESTRICT;
     language_code_length := 10 |}.

(** Notebooks 05 and 06: [referrer_id] is declared with its own
    [mapped_column(BIGINT, ForeignKey('users.telegram_id',
    ondelete='SET NULL'))] "so the referrals won't be deleted"; this
    explicit declaration is the policy taken here.  [Order.user_id] is a
    plain [user_fk]. *)
Definition schema_05 : Schema :=
  {| users_referrer_id_fk := SET_NULL;
     orders_user_id_fk := user_fk;
     orderproductss_order_id_fk := CASCADE;
     orderproductss_product_id_fk := RESTRICT;
     language_code_length := 10 |}.

(* ===================================================================== *)
(** ** Database state *)
(* ===================================================================== *)

(** Four tables, rows in heap order, and the two serial sequences. *)
Record DB : Type :=
  { users : list User.t;
    orders : list Order.t;
    products : list Product.t;
    orderproductss : list OrderProducts.t;
    orders_order_id_seq : Z;
    products_product_id_seq : Z }.

Definition set_users (us : list User.t) (db : DB) : DB :=
  {| users := us; orders := orders db; products := products db;
     orderproductss := orderproductss db;
     orders_order_id_seq := orders_order_id_seq db;
     products_product_id_seq := products_product_id_seq db |}.

Definition set_orders (os : list Order.t) (db : DB) : DB :=
  {| users := users db; orders := os; products := products db;
     orderproductss := orderproductss db;
     orders_order_id_seq := orders_order_id_seq db;
     products_product_id_seq := products_product_id_seq db |}.

Definition set_products (ps : list Product.t) (db : DB) : DB :=
  {| users := users db; orders := orders db; products := ps;
     orderproductss := orderproductss db;
     orders_order_id_seq := orders_order_id_seq db;
     products_product_id_seq := products_product_id_seq db |}.

Definition set_orderproductss (ops : list OrderProducts.t) (db : DB) : DB :=
  {| users := users db; orders := orders db; products := products db;
     orderproductss := ops;
     orders_order_id_seq := orders_order_id_seq db;
     products_product_id_seq := products_product_id_seq db |}.

Definition set_orders_order_id_seq (n : Z) (db : DB) : DB :=
  {| users := users db; orders := orders db; products := products db;
     orderproductss := orderproductss db;
     orders_order_id_seq := n;
     products_product_id_seq := products_product_id_seq db |}.

Definition set_products_product_id_seq (n : Z) (db : DB) : DB :=
  {| users := users db; orders := orders db; products := products db;
     orderproductss := orderproductss db;
     orders_order_id_seq := orders_order_id_seq db;
     products_product_id_seq := n |}.

(** The rows of two states agree (the sequences may differ: [nextval] is
    never rolled back). *)
Definition same_rows (a b : DB) : Prop :=
  users a = users b /\ orders a = orders b /\
  products a = products b /\ orderproductss a = orderproductss b.

Definition empty_db : DB :=
  {| users := []; orders := []; products := []; orderproductss := [];
     orders_order_id_seq := 0; products_product_id_seq := 0 |}.

(* ===================================================================== *)
(** ** Column types *)
(* ===================================================================== *)

Notation "'try' x := r 'in' k" := (result_bind r (fun x => k))
  (at level 10, x pattern, r at level 100, k at level 200, only parsing).

(** BIGINT: a signed 64-bit integer. *)
Definition BIGINT (z : Z) : result Z :=
  if ((- 2 ^ 63 <=? z) && (z <? 2 ^ 63))%bool then Ok z
  else Raise NumericValueOutOfRange.

(** INTEGER: a signed 32-bit integer. *)
Definition INTEGER (z : Z) : result Z :=
  if ((- 2 ^ 31 <=? z) && (z <? 2 ^ 31))%bool then Ok z
  else Raise NumericValueOutOfRange.

(** DECIMAL(precision=16, scale=4): at most twelve digits before the
    point; the value is held in units of 1/10000. *)
Definition DECIMAL_16_4 (z : Z) : result Z :=
  if (Z.abs z <? 10 ^ 16) then Ok z else Raise NumericValueOutOfRange.

Definition all_spaces (s : string) : bool :=
  forallb (Ascii.eqb " "%char) (list_ascii_of_string s).

(** String(n) / VARCHAR(n): a longer value is an error, unless the excess
    is spaces only, which are cut off. *)
Definition VARCHAR (n : nat) (s : string) : result string :=
  if Nat.leb (String.length s) n then Ok s
  else if all_spaces (substring n (String.length s - n) s)
       then Ok (substring 0 n s)
       else Raise StringDataRightTruncation.

(** [str_255 = Annotated[str, mapped_column(String(255))]] *)
Definition str_255 : string -> result string := VARCHAR 255.

(** [int_pk = Annotated[int, mapped_column(INTEGER, primary_key=True)]] *)
Definition int_pk : Z -> result Z := INTEGER.

(** [Optional[...]]: NULL is stored as it is. *)
Definition Optional {A} (ty : A -> result A) (v : option A) : result (option A) :=
  match v with
  | None => Ok None
  | Some a => try a' := ty a in Ok (Some a')
  end.

(** A column that is not [Optional] rejects NULL. *)
Definition NOT_NULL {A} (ty : A -> result A) (v : option A) : result A :=
  match v with
  | None => Raise NotNullViolation
  | Some a => ty a
  end.

(* ===================================================================== *)
(** ** Statements *)
(* ===================================================================== *)

(** A statement transforms the database and returns rows, or raises.  A
    statement that raises leaves every table as it found it. *)
Definition Stmt (R : Type) : Type := SE DB R.

Definition atomically {R} (f : DB -> result (DB * R)) : Stmt R :=
  fun db =>
    match f db with
    | Ok (db', r) => (db', Ok r)
    | Raise e => (db, Raise e)
    end.

Definition mem (z : Z) (l : list Z) : bool := existsb (Z.eqb z) l.

Definition user_exists (tid : Z) (us : list User.t) : bool :=
  existsb (fun u => User.telegram_id u =? tid) us.

Definition order_exists (oid : Z) (os : list Order.t) : bool :=
  existsb (fun o => Order.order_id o =? oid) os.

Definition product_exists (pid : Z) (ps : list Product.t) : bool :=
  existsb (fun p => Product.product_id p =? pid) ps.

Definition orderproducts_exists (oid pid : Z) (ops : list OrderProducts.t) : bool :=
  existsb (fun op => (OrderProducts.order_id op =? oid) &&
                     (OrderProducts.product_id op =? pid))%bool ops.

(** The referrer link resolves: it is NULL or the key of a row of [us]. *)
Definition referrer_resolves (us : list User.t) (rid : option Z) : bool :=
  match rid with
  | None => true
  | Some r => user_exists r us
  end.

(** The values of an INSERT into users, converted to the column types. *)
Definition users_values (sch : Schema) (now : timestamp)
    (telegram_id : Z) (full_name : string) (language_code : string)
    (user_name : option string) (referrer_id : option Z) : result User.t :=
  try tid := BIGINT telegram_id in
  try fn := str_255 full_name in
  try un := Optional str_255 user_name in
  try lc := VARCHAR (language_code_length sch) language_code in
  try rid := Optional BIGINT referrer_id in
  Ok {| User.telegram_id := tid; User.full_name := fn; User.user_name := un;
        User.language_code := lc; User.referrer_id := rid;
        User.created_at := now; User.updated_at := now |}.

(** [insert(User).values(...).returning(User)] *)
Definition insert_users (sch : Schema) (now : timestamp)
    (telegram_id : Z) (full_name : string) (language_code : string)
    (user_name : option string) (referrer_id : option Z) : Stmt (list User.t) :=
  atomically (fun db =>
    try row := users_values sch now telegram_id full_name language_code
                 user_name referrer_id in
    if user_exists (User.telegram_id row) (users db) then Raise UniqueViolation
    else
      let us := users db ++ [row] in
      if referrer_resolves us (User.referrer_id row)
      then Ok (set_users us db, [row])
      else Raise ForeignKeyViolation).

(** [SET user_name = ..., full_name = ...] of the conflicting row. *)
Definition set_user_name_full_name (un : option string) (fn : string)
    (u : User.t) : User.t :=
  {| User.telegram_id := User.telegram_id u;
     User.full_name := fn;
     User.user_name := un;
     User.language_code := User.language_code u;
     User.referrer_id := User.referrer_id u;
     User.created_at := User.created_at u;
     User.updated_at := User.updated_at u |}.

(** [insert(User).values(...).on_conflict_do_update(
       index_elements=[User.telegram_id],
       set_=dict(user_name=user_name, full_name=full_name)).returning(User)] *)
Definition insert_users_on_conflict_do_update (sch : Schema) (now : timestamp)
    (telegram_id : Z) (full_name : string) (language_code : string)
    (user_name : option string) (referrer_id : option Z) : Stmt (list User.t) :=
  atomically (fun db =>
    try row := users_values sch now telegram_id full_name language_code
                 user_name referrer_id in
    let conflicts u := User.telegram_id u =? User.telegram_id row in
    if existsb conflicts (users db) then
      let us := map (fun u =>
                  if conflicts u
                  then set_user_name_full_name (User.user_name row)
                         (User.full_name row) u
                  else u) (users db) in
      Ok (set_users us db, filter conflicts us)
    else
      let us := users db ++ [row] in
      if referrer_resolves us (User.referrer_id row)
      then Ok (set_users us db, [row])
      else Raise ForeignKeyViolation).

(** [SET referrer_id = ..., updated_at = now()]; the second assignment is
    the column's [onupdate=func.now()]. *)
Definition set_referrer_id (rid : Z) (now : timestamp) (u : User.t) : User.t :=
  {| User.telegram_id := User.telegram_id u;
     User.full_name := User.full_name u;
     User.user_name := User.user_name u;
     User.language_code := User.language_code u;
     User.referrer_id := Some rid;
     User.created_at := User.created_at u;
     User.updated_at := now |}.

(** [update(User).where(User.telegram_id == user_id)
       .values(referrer_id=referrer_id).returning(User)] *)
Definition update_users_referrer_id (now : timestamp)
    (user_id : Z) (referrer_id : Z) : Stmt (list User.t) :=
  atomically (fun db =>
    try rid := BIGINT referrer_id in
    let hit u := User.telegram_id u =? user_id in
    let us := map (fun u => if hit u then set_referrer_id rid now u else u)
                  (users db) in
    if (existsb hit (users db) && negb (user_exists rid us))%bool
    then Raise ForeignKeyViolation
    else Ok (set_users us db, filter hit us)).

(** *** DELETE and the referential actions *)

Definition refers_to_order (gone : list Z) (op : OrderProducts.t) : bool :=
  mem (OrderProducts.order_id op) gone.

Definition refers_to_product (gone : list Z) (op : OrderProducts.t) : bool :=
  mem (OrderProducts.product_id op) gone.

Definition owned_by (gone : list Z) (o : Order.t) : bool :=
  mem (Order.user_id o) gone.

Definition referred_by (gone : list Z) (u : User.t) : bool :=
  match User.referrer_id u with
  | Some r => mem r gone
  | None => false
  end.

Definition null_referrer_id (u : User.t) : User.t :=
  {| User.telegram_id := User.telegram_id u;
     User.full_name := User.full_name u;
     User.user_name := User.user_name u;
     User.language_code := User.language_code u;
     User.referrer_id := None;
     User.created_at := User.created_at u;
     User.updated_at := User.updated_at u |}.

(** What happens to the rows of a child table that reference deleted
    parent keys, by the foreign key's policy.  [nullable] tells whether
    the referencing column accepts NULL; [set_null] writes it. *)
Definition referential_action {A} (policy : ondelete)
    (refers : A -> bool) (set_null : option (A -> A)) (rows : list A)
  : result (list A) :=
  match policy with
  | CASCADE => Ok (filter (fun r => negb (refers r)) rows)
  | SET_NULL =>
      match set_null with
      | Some f => Ok (map (fun r => if refers r then f r else r) rows)
      | None => if existsb refers rows then Raise NotNullViolation else Ok rows
      end
  | RESTRICT =>
      if existsb refers rows then Raise ForeignKeyViolation else Ok rows
  end.

(** DELETE FROM orders WHERE [P]: the rows go, then the action of
    [orderproductss.order_id]. *)
Definition delete_orders_where (sch : Schema) (P : Order.t -> bool)
    (db : DB) : result DB :=
  let gone := map Order.order_id (filter P (orders db)) in
  try ops := referential_action (orderproductss_order_id_fk sch)
               (refers_to_order gone) None (orderproductss db) in
  Ok (set_orderproductss ops
        (set_orders (filter (fun o => negb (P o)) (orders db)) db)).

(** DELETE FROM products WHERE [P]: the rows go, then the action of
    [orderproductss.product_id]. *)
Definition delete_products_where (sch : Schema) (P : Product.t -> bool)
    (db : DB) : result DB :=
  let gone := map Product.product_id (filter P (products db)) in
  try ops := referential_action (orderproductss_product_id_fk sch)
               (refers_to_product gone) None (orderproductss db) in
  Ok (set_orderproductss ops
        (set_products (filter (fun p => negb (P p)) (products db)) db)).

(** The keys deleted through a cascading self-reference: the referrals of
    deleted users, their referrals, and so on. *)
Fixpoint cascade_users (fuel : nat) (us : list User.t) (gone : list Z) : list Z :=
  match fuel with
  | O => gone
  | S k =>
      cascade_users k us
        (gone ++ map User.telegram_id
                  (filter (fun u => referred_by gone u &&
                                    negb (mem (User.telegram_id u) gone))%bool us))
  end.

(** DELETE FROM users WHERE [P]: the rows go, then the action of
    [users.referrer_id] on the remaining users, then the action of
    [orders.user_id] (which deletes through [delete_orders_where] when it
    cascades). *)
Definition delete_users_where (sch : Schema) (P : User.t -> bool)
    (db : DB) : result DB :=
  let direct := map User.telegram_id (filter P (users db)) in
  let rest := filter (fun u => negb (P u)) (users db) in
  let gone :=
    match users_referrer_id_fk sch with
    | CASCADE => cascade_users (List.length rest) rest direct
    | _ => direct
    end in
  let refers u :=
    match users_referrer_id_fk sch with
    | CASCADE => mem (User.telegram_id u) gone
    | _ => referred_by gone u
    end in
  try us := referential_action (users_referrer_id_fk sch) refers
              (Some null_referrer_id) rest in
  let db1 := set_users us db in
  match orders_user_id_fk sch with
  | CASCADE => delete_orders_where sch (owned_by gone) db1
  | SET_NULL =>
      if existsb (owned_by gone) (orders db) then Raise NotNullViolation
      else Ok db1
  | RESTRICT =>
      if existsb (owned_by gone) (orders db) then Raise ForeignKeyViolation
      else Ok db1
  end.

(** *** INSERT into orders, products, orderproductss *)

(** [insert(Order).values(user_id=user_id).returning(...)]: [order_id]
    comes from the serial sequence, which stays advanced when the
    statement raises. *)
Definition insert_orders (now : timestamp) (user_id : Z) : Stmt (list Order.t) :=
  fun db =>
    let oid := orders_order_id_seq db + 1 in
    atomically (fun db =>
      try oid' := int_pk oid in
      try uid := BIGINT user_id in
      let row := {| Order.order_id := oid'; Order.user_id := uid;
                    Order.created_at := now; Order.updated_at := now |} in
      if order_exists oid' (orders db) then Raise UniqueViolation
      else if user_exists uid (users db)
           then Ok (set_orders (orders db ++ [row]) db, [row])
           else Raise ForeignKeyViolation)
      (set_orders_order_id_seq oid db).

(** One parameter set of the bulk insert: a dict with the keys [title],
    [description] and [price]; a value may be [None]. *)
Module ProductParams.
Record t : Type := Build
  { title : option string;
    description : option string;
    price : option Z }.
End ProductParams.

(** [insert(Product).values(title=..., description=..., price=...)
       .returning(Product)] *)
Definition insert_products (now : timestamp) (p : ProductParams.t)
  : Stmt (list Product.t) :=
  fun db =>
    let pid := products_product_id_seq db + 1 in
    atomically (fun db =>
      try pid' := int_pk pid in
      try ti := NOT_NULL str_255 (ProductParams.title p) in
      try de := Optional (VARCHAR 3000) (ProductParams.description p) in
      try pr := NOT_NULL DECIMAL_16_4 (ProductParams.price p) in
      let row := {| Product.product_id := pid'; Product.title := ti;
                    Product.description := de; Product.price := pr;
                    Product.created_at := now; Product.updated_at := now |} in
      if product_exists pid' (products db) then Raise UniqueViolation
      else Ok (set_products (products db ++ [row]) db, [row]))
      (set_products_product_id_seq pid db).

(** [insert(OrderProducts).values(order_id=..., product_id=..., quantity=...)] *)
Definition insert_orderproductss (order_id product_id quantity : Z) : Stmt unit :=
  atomically (fun db =>
    try oid := INTEGER order_id in
    try pid := INTEGER product_id in
    try q := INTEGER quantity in
    let row := {| OrderProducts.order_id := oid;
                  OrderProducts.product_id := pid;
                  OrderProducts.quantity := q |} in
    if orderproducts_exists oid pid (orderproductss db) then Raise UniqueViolation
    else if (order_exists oid (orders db) && product_exists pid (products db))%bool
         then Ok (set_orderproductss (orderproductss db ++ [row]) db, tt)
         else Raise ForeignKeyViolation).

(** *** SELECT *)

(** A query reads the database and leaves it alone. *)
Definition query {R} (q : DB -> R) : Stmt R := fun db => (db, Ok (q db)).

(** [left JOIN right ON on]: an inner join, left rows in the outer loop. *)
Definition join {A B} (left : list A) (right : list B) (on : A -> B -> bool)
  : list (A * B) :=
  flat_map (fun a => map (pair a) (filter (on a) right)) left.

(** A row of [select(Product, Order, User.user_name, OrderProducts.quantity)]. *)
Definition user_order_row : Type := (Product.t * Order.t * option string * Z)%type.

(** [select(Product, Order, User.user_name, OrderProducts.quantity)
      .join(User.orders).join(Order.products).join(Product)
      .where(User.telegram_id == telegram_id)]:
    FROM users JOIN orders ON users.telegram_id = orders.user_id
         JOIN orderproductss ON orders.order_id = orderproductss.order_id
         JOIN products ON products.product_id = orderproductss.product_id. *)
Definition select_user_orders_relationships (telegram_id : Z) (db : DB)
  : list user_order_row :=
  let users_orders :=
    join (users db) (orders db)
      (fun u o => User.telegram_id u =? Order.user_id o) in
  let users_orders_ops :=
    join users_orders (orderproductss db)
      (fun uo op => Order.order_id (snd uo) =? OrderProducts.order_id op) in
  let from :=
    join users_orders_ops (products db)
      (fun uoo p => Product.product_id p =? OrderProducts.product_id (snd uoo)) in
  map (fun r => (snd r, snd (fst (fst r)),
                 User.user_name (fst (fst (fst r))),
                 OrderProducts.quantity (snd (fst r))))
      (filter (fun r => User.telegram_id (fst (fst (fst r))) =? telegram_id) from).

(** [select(Product, Order, User.user_name, OrderProducts.quantity)
      .join(OrderProducts).join(Order).join(User).select_from(Product)
      .where(User.telegram_id == telegram_id)]:
    FROM products
         JOIN orderproductss ON products.product_id = orderproductss.product_id
         JOIN orders ON orders.order_id = orderproductss.order_id
         JOIN users ON users.telegram_id = orders.user_id. *)
Definition select_user_orders_no_relationships (telegram_id : Z) (db : DB)
  : list user_order_row :=
  let products_ops :=
    join (products db) (orderproductss db)
      (fun p op => Product.product_id p =? OrderProducts.product_id op) in
  let products_ops_orders :=
    join products_ops (orders db)
      (fun pop o => Order.order_id o =? OrderProducts.order_id (snd pop)) in
  let from :=
    join products_ops_orders (users db)
      (fun popo u => User.telegram_id u =? Order.user_id (snd popo)) in
  map (fun r => (fst (fst (fst r)), snd (fst r),
                 User.user_name (snd r),
                 OrderProducts.quantity (snd (fst (fst r)))))
      (filter (fun r => User.telegram_id (snd r) =? telegram_id) from).

(** A row of FROM orderproductss JOIN orders JOIN users. *)
Definition line_row : Type := (OrderProducts.t * Order.t * User.t)%type.

(** FROM orderproductss
         JOIN orders ON orders.order_id = orderproductss.order_id
         JOIN users ON users.telegram_id = orders.user_id. *)
Definition orderproductss_orders_users (db : DB) : list line_row :=
  join (join (orderproductss db) (orders db)
          (fun op o => Order.order_id o =? OrderProducts.order_id op))
       (users db)
       (fun oo u => User.telegram_id u =? Order.user_id (snd oo)).

Definition line_user (r : line_row) : User.t := snd r.
Definition line_quantity (r : line_row) : Z := OrderProducts.quantity (fst (fst r)).

(** GROUP BY an integer key: one group per distinct key value, holding the
    rows with that key. *)
Definition group_by {A} (key : A -> Z) (rows : list A) : list (list A) :=
  map (fun k => filter (fun r => key r =? k) rows)
      (nodup Z.eq_dec (map key rows)).

(** [func.sum(OrderProducts.quantity)] over the rows of a group. *)
Definition sum_quantity (g : list line_row) : Z :=
  fold_right Z.add 0 (map line_quantity g).

(** The select list [sum(quantity) AS quantity, users.full_name AS name]
    of a group; [full_name] is that of the group's user. *)
Definition quantity_name (g : list line_row) : list (Z * string) :=
  match g with
  | [] => []
  | r :: _ => [(sum_quantity g, User.full_name (line_user r))]
  end.

(** [select(func.sum(OrderProducts.quantity).label('quantity'),
            User.full_name.label('name'))
      .join(Order, Order.order_id == OrderProducts.order_id).join(User)
      .group_by(User.telegram_id)] *)
Definition select_count_of_products_by_user (db : DB) : list (Z * string) :=
  flat_map quantity_name
    (group_by (fun r => User.telegram_id (line_user r))
       (orderproductss_orders_users db)).

(** The same with [.having(func.sum(OrderProducts.quantity) > greater_than)]:
    the HAVING predicate selects among the groups. *)
Definition select_count_of_products_greater_than_x_by_user
    (greater_than : Z) (db : DB) : list (Z * string) :=
  flat_map quantity_name
    (filter (fun g => greater_than <? sum_quantity g)
       (group_by (fun r => User.telegram_id (line_user r))
          (orderproductss_orders_users db))).

(** For comparison only: the threshold applied to the single rows before
    grouping ([.where(OrderProducts.quantity > greater_than)]), which is
    what the query does NOT do. *)
Definition where_quantity_greater_than_x_then_group
    (greater_than : Z) (db : DB) : list (Z * string) :=
  flat_map quantity_name
    (group_by (fun r => User.telegram_id (line_user r))
       (filter (fun r => greater_than <? line_quantity r)
          (orderproductss_orders_users db))).

(* ===================================================================== *)
(** ** Sessions *)
(* ===================================================================== *)

(** A session holds the durable state of the database and the state seen
    inside its open transaction. *)
Record Session : Type :=
  { connection : DB;
    transaction : DB }.

Definition M (A : Type) : Type := SE Session A.

(** [session.execute(stmt)] *)
Definition execute {R} (stmt : Stmt R) : M R :=
  fun s =>
    let (db', r) := stmt (transaction s) in
    ({| connection := connection s; transaction := db' |}, r).

(** [session.execute(stmt, [params, ...])]: the statement once per
    parameter set, in order, inside the same transaction. *)
Fixpoint executemany {P R} (stmt : P -> Stmt (list R)) (params : list P)
  : M (list R) :=
  match params with
  | [] => ret []
  | p :: ps =>
      (rows <- execute (stmt p) ;;
       rest <- executemany stmt ps ;;
       ret (rows ++ rest))%se
  end.

(** [session.commit()] *)
Definition commit : M unit :=
  fun s => ({| connection := transaction s; transaction := transaction s |}, Ok tt).

(** Leaving the [with] block closes the session: what was not committed
    is rolled back; the sequences keep the values they reached. *)
Definition close (s : Session) : DB :=
  set_orders_order_id_seq (orders_order_id_seq (transaction s))
    (set_products_product_id_seq (products_product_id_seq (transaction s))
       (connection s)).

(** [with session_pool() as session: body], run on the database [db]:
    the database afterwards, and what the body returned or raised. *)
Definition with_session_pool {A} (body : M A) (db : DB) : DB * result A :=
  let (s, r) := body {| connection := db; transaction := db |} in
  (close s, r).

(** [.first()]: the first row, or None. *)
Definition first {A} (rows : list A) : option A := hd_error rows.

(** *** More SELECT statements of notebook 04 *)

(** [select(User).where(User.telegram_id == telegram_id)] *)
Definition select_users_where_telegram_id (telegram_id : Z) (db : DB)
  : list User.t :=
  filter (fun u => User.telegram_id u =? telegram_id) (users db).

(** [select(User.language_code).where(User.telegram_id == telegram_id)] *)
Definition select_language_code_where_telegram_id (telegram_id : Z) (db : DB)
  : list string :=
  map User.language_code
    (filter (fun u => User.telegram_id u =? telegram_id) (users db)).

(** [User.user_name.ilike('%john%')]: the value contains "john", letter
    case ignored (ASCII). *)
Definition ilike_john (s : string) : bool :=
  match index 0 "john" (Naming.lower s) with
  | Some _ => true
  | None => false
  end.

(** The WHERE clause of [get_all_users_advanced]:
    [or_(User.language_code == 'en', User.language_code == 'uk')] AND
    [User.user_name.ilike('%john%')]; a NULL [user_name] does not match. *)
Definition where_en_or_uk_and_john (u : User.t) : bool :=
  ((String.eqb (User.language_code u) "en" ||
    String.eqb (User.language_code u) "uk") &&
   match User.user_name u with
   | Some s => ilike_john s
   | None => false
   end)%bool.

(** ORDER BY created_at DESC, as an insertion sort that keeps the order of
    rows with equal timestamps. *)
Fixpoint insert_created_at_desc (u : User.t) (l : list User.t) : list User.t :=
  match l with
  | [] => [u]
  | v :: r =>
      if User.created_at v <=? User.created_at u then u :: v :: r
      else v :: insert_created_at_desc u r
  end.

Definition order_by_created_at_desc (l : list User.t) : list User.t :=
  fold_right insert_created_at_desc [] l.

(** The row a group of users stands for in [select(User) ... GROUP BY
    users.telegram_id]. *)
Definition group_row (g : list User.t) : list User.t :=
  match g with
  | [] => []
  | u :: _ => [u]
  end.

(** [select(User).where(or_(...), User.user_name.ilike('%john%'))
      .order_by(User.created_at.desc()).limit(10)
      .having(User.telegram_id > 0).group_by(User.telegram_id)]:
    WHERE, GROUP BY, HAVING, ORDER BY, LIMIT, in SQL's order of
    evaluation. *)
Definition select_users_advanced (db : DB) : list User.t :=
  firstn 10
    (order_by_created_at_desc
       (filter (fun u => 0 <? User.telegram_id u)
          (flat_map group_row
             (group_by User.telegram_id
                (filter where_en_or_uk_and_john (users db)))))).

(** [select(ParentUser.full_name.label('parent_name'),
            ReferralUser.full_name.label('referral_name'))
      .join(ReferralUser, ReferralUser.referrer_id == ParentUser.telegram_id)]:
    FROM users AS parent JOIN users AS referral
         ON referral.referrer_id = parent.telegram_id;
    a NULL [referrer_id] equals nothing. *)
Definition select_invited_users (db : DB) : list (string * string) :=
  map (fun r => (User.full_name (fst r), User.full_name (snd r)))
    (join (users db) (users db)
       (fun parent referral =>
          match User.referrer_id referral with
          | Some x => x =? User.telegram_id parent
          | None => false
          end)).

(** [select(Order, User).join(User.orders)
      .where(User.telegram_id == telegram_id)] *)
Definition select_user_orders_user_full (telegram_id : Z) (db : DB)
  : list (Order.t * User.t) :=
  map (fun r => (snd r, fst r))
    (filter (fun r => User.telegram_id (fst r) =? telegram_id)
       (join (users db) (orders db)
          (fun u o => User.telegram_id u =? Order.user_id o))).

(** [select(Order, User.user_name).join(User.orders)
      .where(User.telegram_id == telegram_id)] *)
Definition select_user_orders_user_only_user_name (telegram_id : Z) (db : DB)
  : list (Order.t * option string) :=
  map (fun r => (snd r, User.user_name (fst r)))
    (filter (fun r => User.telegram_id (fst r) =? telegram_id)
       (join (users db) (orders db)
          (fun u o => User.telegram_id u =? Order.user_id o))).

(** [select(func.count(Order.order_id)).where(Order.user_id == telegram_id)] *)
Definition select_count_orders_where_user_id (telegram_id : Z) (db : DB) : Z :=
  Z.of_nat (List.length
              (filter (fun o => Order.user_id o =? telegram_id) (orders db))).

(** FROM orders JOIN users ON users.telegram_id = orders.user_id. *)
Definition orders_users (db : DB) : list (Order.t * User.t) :=
  join (orders db) (users db)
    (fun o u => User.telegram_id u =? Order.user_id o).

(** The select list [count(orders.order_id), users.telegram_id] of a
    group. *)
Definition count_telegram_id (g : list (Order.t * User.t)) : list (Z * Z) :=
  match g with
  | [] => []
  | r :: _ => [(Z.of_nat (List.length g), User.telegram_id (snd r))]
  end.

(** [select(func.count(Order.order_id), User.telegram_id)
      .join(User).group_by(User.telegram_id)] *)
Definition select_total_number_of_orders_by_user (db : DB) : list (Z * Z) :=
  flat_map count_telegram_id
    (group_by (fun r => User.telegram_id (snd r)) (orders_users db)).

(* ===================================================================== *)
(** ** The repositories *)
(* ===================================================================== *)

(** Notebook 04, [class Repo] of the seeding cell and of the query cells. *)
Module Repo04.

Definition add_user (now : timestamp) (telegram_id : Z) (full_name : string)
    (language_code : string) (user_name : option string)
    (referrer_id : option Z) : M (option User.t) :=
  (result <- execute (insert_users_on_conflict_do_update schema_04 now
                        telegram_id full_name language_code user_name
                        referrer_id) ;;
   commit ;;;
   ret (first result))%se.

Definition add_order (now : timestamp) (user_id : Z) : M (option Order.t) :=
  (result <- execute (insert_orders now user_id) ;;
   commit ;;;
   ret (first result))%se.

Definition add_product (now : timestamp) (title : string)
    (description : option string) (price : Z) : M (option Product.t) :=
  (result <- execute (insert_products now
                        {| ProductParams.title := Some title;
                           ProductParams.description := description;
                           ProductParams.price := Some price |}) ;;
   commit ;;;
   ret (first result))%se.

Definition add_order_product (order_id product_id quantity : Z) : M unit :=
  (execute (insert_orderproductss order_id product_id quantity) ;;;
   commit)%se.

Definition get_all_user_orders_relationships (telegram_id : Z)
  : M (list user_order_row) :=
  execute (query (select_user_orders_relationships telegram_id)).

Definition get_all_user_orders_no_relationships (telegram_id : Z)
  : M (list user_order_row) :=
  execute (query (select_user_orders_no_relationships telegram_id)).

Definition get_count_of_products_by_user : M (list (Z * string)) :=
  execute (query select_count_of_products_by_user).

Definition get_count_of_products_greater_than_x_by_user (greater_than : Z)
  : M (list (Z * string)) :=
  execute (query (select_count_of_products_greater_than_x_by_user greater_than)).

Definition get_user_by_id (telegram_id : Z) : M (option User.t) :=
  (result <- execute (query (select_users_where_telegram_id telegram_id)) ;;
   ret (first result))%se.

Definition get_all_users_simple : M (list User.t) :=
  execute (query users).

Definition get_all_users_advanced : M (list User.t) :=
  execute (query select_users_advanced).

Definition get_user_language (telegram_id : Z) : M (option string) :=
  (result <- execute (query (select_language_code_where_telegram_id telegram_id)) ;;
   ret (first result))%se.

Definition select_all_invited_users : M (list (string * string)) :=
  execute (query select_invited_users).

Definition get_all_user_orders_user_full (telegram_id : Z)
  : M (list (Order.t * User.t)) :=
  execute (query (select_user_orders_user_full telegram_id)).

Definition get_all_user_orders_user_only_user_name (telegram_id : Z)
  : M (list (Order.t * option string)) :=
  execute (query (select_user_orders_user_only_user_name telegram_id)).

Definition get_user_total_number_of_orders (telegram_id : Z) : M Z :=
  execute (query (select_count_orders_where_user_id telegram_id)).

Definition get_total_number_of_orders_by_user : M (list (Z * Z)) :=
  execute (query select_total_number_of_orders_by_user).

End Repo04.

(** Notebook 05, the last [class Repo]. *)
Module Repo05.

Definition add_user (now : timestamp) (telegram_id : Z) (full_name : string)
    (language_code : string) (user_name : option string)
    (referrer_id : option Z) : M (option User.t) :=
  (result <- execute (insert_users schema_05 now telegram_id full_name
                        language_code user_name referrer_id) ;;
   commit ;;;
   ret (first result))%se.

Definition get_all_users : M (list User.t) :=
  execute (query users).

Definition cleanup_users : M unit :=
  (execute (atomically (fun db =>
     try db' := delete_users_where schema_05 (fun _ => true) db in
     Ok (db', tt))) ;;;
   commit)%se.

Definition set_new_referrer (now : timestamp) (user_id referrer_id : Z)
  : M (option User.t) :=
  (result <- execute (update_users_referrer_id now user_id referrer_id) ;;
   commit ;;;
   ret (first result))%se.

Definition delete_user_by_id (user_id : Z) : M unit :=
  (execute (atomically (fun db =>
     try db' := delete_users_where schema_05
                  (fun u => User.telegram_id u =? user_id) db in
     Ok (db', tt))) ;;;
   commit)%se.

Definition create_new_order_for_user (now : timestamp) (user_id : Z)
  : M (option Z) :=
  (result <- execute (insert_orders now user_id) ;;
   commit ;;;
   ret (first (map Order.order_id result)))%se.

Definition add_bulk_products (now : timestamp) (products : list ProductParams.t)
  : M (list Product.t) :=
  (result <- executemany (insert_products now) products ;;
   commit ;;;
   ret result)%se.

Definition bulk_insert_products_into_order_id (order_id : Z)
    (products : list (Z * Z)) : M unit :=
  (executemany (fun p => bind (insert_orderproductss order_id (fst p) (snd p))
                           (fun _ => ret (@nil unit))) products ;;;
   commit)%se.

End Repo05.

(** Modelled from the spec: no [Repo] method deletes an order or a
    product; "deleting an order" and "deleting a product" are taken as the
    statements [delete(Order).where(Order.order_id == order_id)] and
    [delete(Product).where(Product.product_id == product_id)], executed
    and committed like [delete_user_by_id].  What they do to orderproductss
    is decided by the [ondelete] policies the source declares. *)
Definition delete_order (order_id : Z) : M unit :=
  (execute (atomically (fun db =>
     try db' := delete_orders_where schema_05
                  (fun o => Order.order_id o =? order_id) db in
     Ok (db', tt))) ;;;
   commit)%se.

(** Modelled from the spec: see [delete_order]. *)
Definition delete_product (product_id : Z) : M unit :=
  (execute (atomically (fun db =>
     try db' := delete_products_where schema_05
                  (fun p => Product.product_id p =? product_id) db in
     Ok (db', tt))) ;;;
   commit)%se.

(* ===================================================================== *)
(** ** Integrity constraints as predicates *)
(* ===================================================================== *)

(** The primary key of users holds. *)
Definition users_pk (db : DB) : Prop :=
  NoDup (map User.telegram_id (users db)).

(** The primary key of orders holds. *)
Definition orders_pk (db : DB) : Prop :=
  NoDup (map Order.order_id (orders db)).

(** The summed line-item quantity of a user: the quantities of the line
    items of the user's orders, added up. *)
Definition summed_quantity (db : DB) (telegram_id : Z) : Z :=
  sum_quantity
    (filter (fun r => User.telegram_id (line_user r) =? telegram_id)
       (orderproductss_orders_users db)).

(** The user has at least one line item in some order. *)
Definition has_line_items (db : DB) (telegram_id : Z) : bool :=
  existsb (fun r => User.telegram_id (line_user r) =? telegram_id)
    (orderproductss_orders_users db).

(** A created product row holds the values of its parameter set, as the
    column types store them. *)
Definition product_row_of (p : ProductParams.t) (row : Product.t) : Prop :=
  NOT_NULL str_255 (ProductParams.title p) = Ok (Product.title row) /\
  Optional (VARCHAR 3000) (ProductParams.description p)
    = Ok (Product.description row) /\
  NOT_NULL DECIMAL_16_4 (ProductParams.price p) = Ok (Product.price row).

(** The values of a users row fit their columns as they are. *)
Definition fits_users_columns (sch : Schema) (full_name language_code : string)
    (user_name : option string) (referrer_id : option Z) : bool :=
  (Nat.leb (String.length full_name) 255 &&
   Nat.leb (String.length language_code) (language_code_length sch) &&
   match user_name with
   | Some s => Nat.leb (String.length s) 255
   | None => true
   end &&
   match referrer_id with
   | Some r => (- 2 ^ 63 <=? r) && (r <? 2 ^ 63)
   | None => true
   end)%bool.

(** The row [u] is the only row of [db] with its key. *)
Definition only_row_with_id (db : DB) (u : User.t) : Prop :=
  filter (fun v => User.telegram_id v =? User.telegram_id u) (users db) = [u].

(** In a list ordered by [created_at] descending, a later row is not
    newer than an earlier one. *)
Definition not_newer (a b : User.t) : Prop :=
  User.created_at b <= User.created_at a.

(** The sum of a column of integers. *)
Definition sum_Z (l : list Z) : Z := fold_right Z.add 0 l.

(** Every referrer link points to an existing user. *)
Definition users_fk (db : DB) : Prop :=
  forall u r, In u (users db) -> User.referrer_id u = Some r ->
    user_exists r (users db) = true.

(** Every order belongs to an existing user. *)
Definition orders_fk (db : DB) : Prop :=
  forall o, In o (orders db) -> user_exists (Order.user_id o) (users db) = true.

(** Every line item belongs to an existing order. *)
Definition orderproductss_order_fk (db : DB) : Prop :=
  forall op, In op (orderproductss db) ->
    order_exists (OrderProducts.order_id op) (orders db) = true.

(** The serial sequence of orders is at or past every order id. *)
Definition orders_seq_ahead (db : DB) : Prop :=
  forall o, In o (orders db) -> Order.order_id o <= orders_order_id_seq db.

(** Notebook 05, the cell "Testing the Delete method":
    [for user in users[:3]: repo.delete_user_by_id(user.telegram_id)],
    then [repo.get_all_users()]; the ids of the users to delete are a
    parameter. *)
Module Notebook05.

Fixpoint delete_each (ids : list Z) : M unit :=
  match ids with
  | [] => ret tt
  | user_id :: rest =>
      (Repo05.delete_user_by_id user_id ;;; delete_each rest)%se
  end.

Definition testing_the_delete_method (ids : list Z) : M (list User.t) :=
  (delete_each ids ;;; Repo05.get_all_users)%se.

End Notebook05.

(* ===================================================================== *)
(** ** Table names *)
(* ===================================================================== *)

Module NamingFacts.
Import Naming.

Example tablename_04_User :
  __tablename__ quering_with_sqlalchemy_orm_04 "User" = "users".
Proof. reflexivity. Qed.

Example tablename_02_Orders :
  __tablename__ working_with_databases_02 "Orders" = "orderss".
Proof. reflexivity. Qed.

Example tablename_03_Orders :
  __tablename__ alembic_for_database_management_03 "Orders" = "orders".
Proof. reflexivity. Qed.

Example tablename_05_OrderProducts :
  __tablename__ modifying_data_with_orm_05 "OrderProducts" = "orderproductss".
Proof. reflexivity. Qed.

Lemma append_s_differs (s : string) : (s ++ "s")%string <> s.
Proof.
  induction s as [|c s IH]; simpl.
  - discriminate.
  - intro H. injection H as H. exact (IH H).
Qed.

(** C10, counterexample: the alembic notebook maps its class [Users] to
    the table "users", not to the lowercased name with "s" appended. *)
Lemma tablename_suffix_not_in_every_notebook :
  ~ (forall nb cls, In cls (mapped_classes nb) ->
       __tablename__ nb cls = (lower cls ++ "s")%string).
Proof.
  intro H.
  specialize (H alembic_for_database_management_03 "Users").
  simpl in H. discriminate H. left. reflexivity.
Qed.

(** C10, as amended: in notebooks 02, 04, 05 and 06 the derived table
    name is the lowercased class name with "s" appended; in the alembic
    notebook 03 it is the lowercased class name alone.  In every
    notebook it is a function of the class name only. *)
Theorem tablename_by_notebook :
  forall cls,
    __tablename__ working_with_databases_02 cls = (lower cls ++ "s")%string /\
    __tablename__ quering_with_sqlalchemy_orm_04 cls = (lower cls ++ "s")%string /\
    __tablename__ modifying_data_with_orm_05 cls = (lower cls ++ "s")%string /\
    __tablename__ migrating_to_asynchronous_mode_06 cls = (lower cls ++ "s")%string /\
    __tablename__ alembic_for_database_management_03 cls = lower cls /\
    __tablename__ alembic_for_database_management_03 cls
      <> __tablename__ quering_with_sqlalchemy_orm_04 cls.
Proof.
  intro cls. repeat split; try reflexivity.
  simpl. intro H. symmetry in H. exact (append_s_differs _ H).
Qed.

End NamingFacts.

(* ===================================================================== *)
(** ** Sessions: one statement, then commit *)
(* ===================================================================== *)

Lemma close_committed (db : DB) :
  close {| connection := db; transaction := db |} = db.
Proof. destruct db; reflexivity. Qed.

(** What a method of the shape "execute, commit, return" leaves behind:
    the statement's effect when it succeeds, the rolled-back state when
    it raises. *)
Lemma with_session_pool_execute_commit {R A} (stmt : Stmt R) (f : R -> A) (db : DB) :
  with_session_pool (r <- execute stmt ;; commit ;;; ret (f r))%se db =
  match stmt db with
  | (db', Ok r) => (db', Ok (f r))
  | (db', Raise e) => (close {| connection := db; transaction := db' |}, Raise e)
  end.
Proof.
  unfold with_session_pool, bind, execute, commit, ret; simpl.
  destruct (stmt db) as [db' [r | e]]; simpl.
  - rewrite close_committed. reflexivity.
  - reflexivity.
Qed.

Lemma with_session_pool_execute_commit_unit (stmt : Stmt unit) (db : DB) :
  with_session_pool (execute stmt ;;; commit)%se db =
  match stmt db with
  | (db', Ok _) => (db', Ok tt)
  | (db', Raise e) => (close {| connection := db; transaction := db' |}, Raise e)
  end.
Proof.
  unfold with_session_pool, bind, execute, commit; simpl.
  destruct (stmt db) as [db' [r | e]]; simpl.
  - rewrite close_committed. reflexivity.
  - reflexivity.
Qed.

Lemma with_session_pool_query {R} (q : DB -> R) (db : DB) :
  with_session_pool (execute (query q)) db = (db, Ok (q db)).
Proof.
  unfold with_session_pool, execute, query; simpl.
  rewrite close_committed. reflexivity.
Qed.

Lemma atomically_raise {R} (f : DB -> result (DB * R)) (db db' : DB) (e : DBAPIError) :
  atomically f db = (db', Raise e) -> db' = db.
Proof.
  unfold atomically. destruct (f db) as [[d r] | e']; intro H; inversion H; reflexivity.
Qed.

(* ===================================================================== *)
(** ** Keys *)
(* ===================================================================== *)

Section Keys.
Context {A : Type} (key : A -> Z).

Lemma existsb_key_In (k : Z) (l : list A) :
  existsb (fun a => key a =? k) l = true <-> In k (map key l).
Proof.
  rewrite existsb_exists, in_map_iff. split.
  - intros [a [Ha Hk]]. exists a. apply Z.eqb_eq in Hk. auto.
  - intros [a [Hk Ha]]. exists a. split; [assumption | now apply Z.eqb_eq].
Qed.

Lemma filter_key_absent (k : Z) (l : list A) :
  ~ In k (map key l) -> filter (fun a => key a =? k) l = [].
Proof.
  induction l as [|a l IH]; simpl; intro H; [reflexivity|].
  destruct (Z.eqb_spec (key a) k) as [E | _].
  - exfalso. apply H. left. exact E.
  - apply IH. intro H'. apply H. right. exact H'.
Qed.

(** Under a primary key, selecting by key yields the row itself. *)
Lemma filter_key_unique (a : A) (l : list A) :
  NoDup (map key l) -> In a l ->
  filter (fun b => key b =? key a) l = [a].
Proof.
  induction l as [|b l IH]; simpl; intros ND Hin; [contradiction|].
  inversion ND as [|? ? Hnotin ND']; subst.
  destruct Hin as [-> | Hin].
  - rewrite Z.eqb_refl. f_equal. apply filter_key_absent. exact Hnotin.
  - destruct (Z.eqb_spec (key b) (key a)) as [E | _].
    + exfalso. apply Hnotin. rewrite E. apply in_map. exact Hin.
    + apply IH; assumption.
Qed.

(** An update of the rows with key [k] that keeps the keys. *)
Lemma map_update_keys (k : Z) (f : A -> A) (l : list A) :
  (forall a, key (f a) = key a) ->
  map key (map (fun a => if key a =? k then f a else a) l) = map key l.
Proof.
  intro Hf. induction l as [|a l IH]; simpl; [reflexivity|].
  rewrite IH. destruct (key a =? k); [rewrite Hf|]; reflexivity.
Qed.

Lemma in_map_update (k : Z) (f : A -> A) (a : A) (l : list A) :
  In a l -> key a = k ->
  In (f a) (map (fun a => if key a =? k then f a else a) l).
Proof.
  intros Hin Hk. apply in_map_iff. exists a. split; [|assumption].
  rewrite Hk, Z.eqb_refl. reflexivity.
Qed.

Lemma map_update_absent (k : Z) (f : A -> A) (l : list A) :
  ~ In k (map key l) ->
  map (fun a => if key a =? k then f a else a) l = l.
Proof.
  induction l as [|a l IH]; simpl; intro H; [reflexivity|].
  destruct (Z.eqb_spec (key a) k) as [E | _].
  - exfalso. apply H. left. exact E.
  - f_equal. apply IH. intro H'. apply H. right. exact H'.
Qed.

End Keys.

(* ===================================================================== *)
(** ** Column types accept what fits *)
(* ===================================================================== *)

Lemma VARCHAR_fits (n : nat) (s : string) :
  Nat.leb (String.length s) n = true -> VARCHAR n s = Ok s.
Proof. unfold VARCHAR. intros ->. reflexivity. Qed.

Lemma BIGINT_Ok (z z' : Z) : BIGINT z = Ok z' -> z' = z.
Proof.
  unfold BIGINT. destruct (_ && _)%bool; intro H; inversion H; reflexivity.
Qed.

Lemma users_values_fits (sch : Schema) (now : timestamp) (tid : Z)
    (fn lc : string) (un : option string) (rid : option Z) :
  BIGINT tid = Ok tid ->
  fits_users_columns sch fn lc un rid = true ->
  users_values sch now tid fn lc un rid =
  Ok {| User.telegram_id := tid; User.full_name := fn; User.user_name := un;
        User.language_code := lc; User.referrer_id := rid;
        User.created_at := now; User.updated_at := now |}.
Proof.
  intros Ht Hf. unfold fits_users_columns in Hf.
  repeat (apply andb_prop in Hf; destruct Hf as [Hf ?]).
  unfold users_values, str_255. rewrite Ht. simpl.
  rewrite (VARCHAR_fits _ _ Hf). simpl.
  assert (Hun : Optional (VARCHAR 255) un = Ok un).
  { destruct un as [s|]; simpl; [|reflexivity].
    rewrite VARCHAR_fits by assumption. reflexivity. }
  rewrite Hun. simpl.
  rewrite VARCHAR_fits by assumption. simpl.
  assert (Hr : Optional BIGINT rid = Ok rid).
  { destruct rid as [r|]; simpl; [|reflexivity].
    unfold BIGINT. rewrite H. reflexivity. }
  rewrite Hr. reflexivity.
Qed.

Lemma users_values_telegram_id (sch : Schema) (now : timestamp) (tid : Z)
    (fn lc : string) (un : option string) (rid : option Z) (row : User.t) :
  users_values sch now tid fn lc un rid = Ok row ->
  User.telegram_id row = tid /\ BIGINT tid = Ok tid.
Proof.
  unfold users_values. intro H.
  destruct (BIGINT tid) as [t|] eqn:Et; simpl in H; [|discriminate].
  pose proof (BIGINT_Ok _ _ Et) as ->.
  destruct (str_255 fn); simpl in H; [|discriminate].
  destruct (Optional str_255 un); simpl in H; [|discriminate].
  destruct (VARCHAR (language_code_length sch) lc); simpl in H; [|discriminate].
  destruct (Optional BIGINT rid); simpl in H; [|discriminate].
  inversion H; subst. simpl. split; reflexivity.
Qed.

(* ===================================================================== *)
(** ** INSERT ... ON CONFLICT DO UPDATE *)
(* ===================================================================== *)

Lemma set_user_name_full_name_id (un : option string) (fn : string) (u : User.t) :
  User.telegram_id (set_user_name_full_name un fn u) = User.telegram_id u.
Proof. reflexivity. Qed.

(** The conflict branch: the row with the key is rewritten in place and
    returned. *)
Lemma upsert_on_conflict (sch : Schema) (now : timestamp) (tid : Z)
    (fn lc : string) (un : option string) (rid : option Z)
    (row u : User.t) (db : DB) :
  users_values sch now tid fn lc un rid = Ok row ->
  users_pk db -> In u (users db) -> User.telegram_id u = tid ->
  let us := map (fun v => if User.telegram_id v =? tid
                          then set_user_name_full_name (User.user_name row)
                                 (User.full_name row) v
                          else v) (users db) in
  insert_users_on_conflict_do_update sch now tid fn lc un rid db =
    (set_users us db,
     Ok [set_user_name_full_name (User.user_name row) (User.full_name row) u])
  /\ filter (fun v => User.telegram_id v =? tid) us =
     [set_user_name_full_name (User.user_name row) (User.full_name row) u].
Proof.
  intros Hv Hpk Hin Hid us.
  destruct (users_values_telegram_id _ _ _ _ _ _ _ _ Hv) as [Hrow _].
  assert (Hf : filter (fun v => User.telegram_id v =? tid) us =
               [set_user_name_full_name (User.user_name row) (User.full_name row) u]).
  { assert (Hin' : In (set_user_name_full_name (User.user_name row)
                         (User.full_name row) u) us).
    { unfold us.
      apply (in_map_update User.telegram_id tid
               (set_user_name_full_name (User.user_name row) (User.full_name row)));
        assumption. }
    assert (Hnd : NoDup (map User.telegram_id us)).
    { unfold us. rewrite map_update_keys by (intro; reflexivity). exact Hpk. }
    pose proof (filter_key_unique User.telegram_id _ _ Hnd Hin') as F.
    rewrite set_user_name_full_name_id, Hid in F. exact F. }
  split; [|exact Hf].
  unfold insert_users_on_conflict_do_update, atomically.
  rewrite Hv. simpl. rewrite Hrow.
  assert (Hex : existsb (fun v => User.telegram_id v =? tid) (users db) = true).
  { apply existsb_key_In. rewrite <- Hid. apply in_map. exact Hin. }
  rewrite Hex. fold us. rewrite Hf. reflexivity.
Qed.

(** After a successful upsert of key [tid] the key is present, once. *)
Lemma upsert_success (sch : Schema) (now : timestamp) (tid : Z)
    (fn lc : string) (un : option string) (rid : option Z)
    (rows : list User.t) (db db1 : DB) :
  users_pk db ->
  insert_users_on_conflict_do_update sch now tid fn lc un rid db = (db1, Ok rows) ->
  users_pk db1 /\ In tid (map User.telegram_id (users db1)) /\ BIGINT tid = Ok tid.
Proof.
  intros Hpk H.
  unfold insert_users_on_conflict_do_update, atomically in H.
  destruct (users_values sch now tid fn lc un rid) as [row|e] eqn:Hv; simpl in H;
    [|inversion H].
  destruct (users_values_telegram_id _ _ _ _ _ _ _ _ Hv) as [Hrow Hb].
  rewrite Hrow in H.
  destruct (existsb (fun u => User.telegram_id u =? tid) (users db)) eqn:Hex.
  - inversion H; subst; clear H. simpl.
    unfold users_pk. simpl.
    rewrite map_update_keys by (intro; reflexivity).
    repeat split; [exact Hpk | | exact Hb].
    apply existsb_key_In. exact Hex.
  - destruct (referrer_resolves (users db ++ [row]) (User.referrer_id row));
      inversion H; subst; clear H.
    unfold users_pk. simpl. rewrite map_app. simpl.
    repeat split; [| | exact Hb].
    + apply NoDup_app; [exact Hpk | constructor; [intros [] | constructor] |].
      intros k Hk [<- | []].
      apply existsb_key_In in Hk. congruence.
    + apply in_or_app. right. left. reflexivity.
Qed.

(** C1: with the primary key of users in force, a second [add_user] with
    the key of a first, successful one does not raise when its values fit
    the columns; afterwards exactly one row has that key, its [full_name]
    and [user_name] are those of the second call, and it is the row
    returned. *)
Theorem add_user_twice_is_upsert :
  forall (db db1 : DB) (now1 now2 : timestamp) (telegram_id : Z)
         (full_name1 language_code1 : string) (user_name1 : option string)
         (referrer_id1 : option Z) (row1 : option User.t)
         (full_name2 language_code2 : string) (user_name2 : option string)
         (referrer_id2 : option Z),
    users_pk db ->
    with_session_pool
      (Repo04.add_user now1 telegram_id full_name1 language_code1 user_name1
         referrer_id1) db = (db1, Ok row1) ->
    fits_users_columns schema_04 full_name2 language_code2 user_name2
      referrer_id2 = true ->
    exists (db2 : DB) (row2 : User.t),
      with_session_pool
        (Repo04.add_user now2 telegram_id full_name2 language_code2 user_name2
           referrer_id2) db1 = (db2, Ok (Some row2)) /\
      filter (fun u => User.telegram_id u =? telegram_id) (users db2) = [row2] /\
      User.telegram_id row2 = telegram_id /\
      User.full_name row2 = full_name2 /\
      User.user_name row2 = user_name2.
Proof.
  intros db db1 now1 now2 tid fn1 lc1 un1 r1 row1 fn2 lc2 un2 r2 Hpk H1 Hfits.
  unfold Repo04.add_user in *.
  rewrite with_session_pool_execute_commit in H1.
  destruct (insert_users_on_conflict_do_update schema_04 now1 tid fn1 lc1 un1 r1 db)
    as [d [rows|e]] eqn:E1; inversion H1; subst; clear H1.
  destruct (upsert_success _ _ _ _ _ _ _ _ _ _ Hpk E1) as [Hpk1 [Hin1 Hb]].
  apply in_map_iff in Hin1. destruct Hin1 as [u [Hid Hu]].
  pose proof (users_values_fits schema_04 now2 tid fn2 lc2 un2 r2 Hb Hfits) as Hv.
  destruct (upsert_on_conflict _ _ _ _ _ _ _ _ _ _ Hv Hpk1 Hu Hid) as [Hstmt Hfilter].
  simpl in Hstmt, Hfilter.
  eexists. exists (set_user_name_full_name un2 fn2 u).
  rewrite with_session_pool_execute_commit, Hstmt. simpl.
  split; [reflexivity|].
  split; [exact Hfilter|].
  repeat split. exact Hid.
Qed.

(** C1, witness: user 1 created as "John Doe"/"johnny", then again as
    "Juan Perez"/"juanpe". *)
Lemma add_user_twice_is_upsert_witness :
  exists (db2 : DB) (row2 : User.t),
    with_session_pool
      (Repo04.add_user 8 1 "Juan Perez" "es" (Some "juanpe") (Some 99))
      (fst (with_session_pool
              (Repo04.add_user 7 1 "John Doe" "en" (Some "johnny") None)
              empty_db)) = (db2, Ok (Some row2)) /\
    filter (fun u => User.telegram_id u =? 1) (users db2) = [row2] /\
    User.telegram_id row2 = 1 /\
    User.full_name row2 = "Juan Perez" /\
    User.user_name row2 = Some "juanpe".
Proof.
  apply (add_user_twice_is_upsert empty_db _ 7 8 1 "John Doe" "en"
           (Some "johnny") None
           (Some (User.Build 1 "John Doe" (Some "johnny") "en" None 7 7))).
  - constructor.
  - reflexivity.
  - reflexivity.
Defined.

(** C9: on a primary-key conflict [add_user] either raises and changes
    nothing, or rewrites [user_name] and [full_name] of the conflicting
    row only: its [language_code], [referrer_id], [created_at] and
    [updated_at] stay, whatever was passed for them, as do all other rows
    and tables. *)
Theorem add_user_conflict_keeps_other_columns :
  forall (db db' : DB) (now : timestamp) (telegram_id : Z)
         (full_name language_code : string) (user_name : option string)
         (referrer_id : option Z) (u : User.t) (res : result (option User.t)),
    users_pk db -> In u (users db) -> User.telegram_id u = telegram_id ->
    with_session_pool
      (Repo04.add_user now telegram_id full_name language_code user_name
         referrer_id) db = (db', res) ->
    (exists e, res = Raise e /\ db' = db) \/
    (exists u' : User.t,
       res = Ok (Some u') /\
       filter (fun v => User.telegram_id v =? telegram_id) (users db') = [u'] /\
       User.telegram_id u' = telegram_id /\
       User.language_code u' = User.language_code u /\
       User.referrer_id u' = User.referrer_id u /\
       User.created_at u' = User.created_at u /\
       User.updated_at u' = User.updated_at u /\
       users db' =
         map (fun v => if User.telegram_id v =? telegram_id
                       then set_user_name_full_name (User.user_name u')
                              (User.full_name u') v
                       else v) (users db) /\
       orders db' = orders db /\ products db' = products db /\
       orderproductss db' = orderproductss db).
Proof.
  intros db db' now tid fn lc un rid u res Hpk Hin Hid H.
  unfold Repo04.add_user in H.
  rewrite with_session_pool_execute_commit in H.
  destruct (users_values schema_04 now tid fn lc un rid) as [row|e] eqn:Hv.
  - right.
    destruct (upsert_on_conflict _ _ _ _ _ _ _ _ _ _ Hv Hpk Hin Hid) as [Hstmt Hfilter].
    simpl in Hstmt, Hfilter. rewrite Hstmt in H. simpl in H.
    inversion H; subst; clear H.
    exists (set_user_name_full_name (User.user_name row) (User.full_name row) u).
    simpl. repeat split. exact Hfilter.
  - left. exists e.
    unfold insert_users_on_conflict_do_update, atomically in H.
    rewrite Hv in H. simpl in H. rewrite close_committed in H.
    inversion H; subst. split; reflexivity.
Qed.

(** C9, witness: user 2 exists with language "es" and referrer 1; a
    conflicting call passes language "de" and referrer 3. *)
Lemma add_user_conflict_keeps_other_columns_witness :
  let u := User.Build 2 "Juan Perez" (Some "juanpe") "es" (Some 1) 5 5 in
  let db := set_users [User.Build 1 "John Doe" None "en" None 4 4; u;
                       User.Build 3 "Ann" None "uk" None 6 6] empty_db in
  exists u' : User.t,
    with_session_pool (Repo04.add_user 9 2 "J. Perez" "de" None (Some 3)) db
      = (set_users [User.Build 1 "John Doe" None "en" None 4 4; u';
                    User.Build 3 "Ann" None "uk" None 6 6] empty_db,
         Ok (Some u')) /\
    User.language_code u' = "es" /\ User.referrer_id u' = Some 1 /\
    User.full_name u' = "J. Perez" /\ User.user_name u' = None.
Proof.
  intros u db.
  destruct (add_user_conflict_keeps_other_columns db
              (fst (with_session_pool
                      (Repo04.add_user 9 2 "J. Perez" "de" None (Some 3)) db))
              9 2 "J. Perez" "de" None (Some 3) u
              (snd (with_session_pool
                      (Repo04.add_user 9 2 "J. Perez" "de" None (Some 3)) db)))
    as [[e [He _]] | [u' [Hres [_ [_ [Hl [Hr _]]]]]]].
  - repeat constructor; simpl; intuition discriminate.
  - right; left; reflexivity.
  - reflexivity.
  - reflexivity.
  - discriminate He.
  - exists u'. vm_compute in Hres. inversion Hres; subst u'.
    repeat split.
Defined.

(* ===================================================================== *)
(** ** DELETE FROM users under the notebook-05 schema *)
(* ===================================================================== *)

Lemma DB_ext (a b : DB) :
  users a = users b -> orders a = orders b -> products a = products b ->
  orderproductss a = orderproductss b ->
  orders_order_id_seq a = orders_order_id_seq b ->
  products_product_id_seq a = products_product_id_seq b ->
  a = b.
Proof.
  destruct a, b; simpl; intros; subst; reflexivity.
Qed.

Lemma filter_none {A} (p : A -> bool) (l : list A) :
  (forall a, In a l -> p a = false) -> filter p l = [].
Proof.
  induction l as [|a l IH]; simpl; intro H; [reflexivity|].
  rewrite (H a (or_introl eq_refl)). apply IH. intros b Hb. apply H. right. exact Hb.
Qed.

Lemma filter_all {A} (p : A -> bool) (l : list A) :
  (forall a, In a l -> p a = true) -> filter p l = l.
Proof.
  induction l as [|a l IH]; simpl; intro H; [reflexivity|].
  rewrite (H a (or_introl eq_refl)). f_equal. apply IH. intros b Hb. apply H. right. exact Hb.
Qed.

Lemma map_unchanged {A} (f : A -> A) (l : list A) :
  (forall a, In a l -> f a = a) -> map f l = l.
Proof.
  induction l as [|a l IH]; simpl; intro H; [reflexivity|].
  rewrite (H a (or_introl eq_refl)). f_equal. apply IH. intros b Hb. apply H. right. exact Hb.
Qed.

Lemma mem_true_iff (z : Z) (l : list Z) : mem z l = true <-> In z l.
Proof.
  unfold mem. rewrite existsb_exists. split.
  - intros [y [Hy E]]. apply Z.eqb_eq in E. subst. exact Hy.
  - intro H. exists z. split; [exact H | apply Z.eqb_refl].
Qed.

(** The keys deleted by [DELETE ... WHERE telegram_id = user_id]: the key
    itself when a row has it, nothing otherwise. *)
Lemma mem_deleted_keys (k user_id : Z) (us : list User.t) :
  mem k (map User.telegram_id (filter (fun u => User.telegram_id u =? user_id) us))
  = ((k =? user_id) && user_exists user_id us)%bool.
Proof.
  apply eq_true_iff_eq. rewrite mem_true_iff, andb_true_iff, Z.eqb_eq.
  unfold user_exists. rewrite existsb_exists, in_map_iff. split.
  - intros [u [Hk Hu]]. apply filter_In in Hu. destruct Hu as [Hu E].
    apply Z.eqb_eq in E. split; [congruence|]. exists u. split; [exact Hu|].
    apply Z.eqb_eq. exact E.
  - intros [-> [u [Hu E]]]. exists u. apply Z.eqb_eq in E. split; [exact E|].
    apply filter_In. split; [exact Hu | now apply Z.eqb_eq].
Qed.

(** What [delete_user_by_id] commits: it never raises; the rows with the
    key go, the referrer links to it are nulled, the orders of the user
    and their line items go. *)
Lemma delete_user_by_id_commits (user_id : Z) (db : DB) :
  let direct :=
    map User.telegram_id
      (filter (fun u => User.telegram_id u =? user_id) (users db)) in
  exists db' : DB,
    with_session_pool (Repo05.delete_user_by_id user_id) db = (db', Ok tt) /\
    users db' =
      map (fun u => if referred_by direct u then null_referrer_id u else u)
        (filter (fun u => negb (User.telegram_id u =? user_id)) (users db)) /\
    orders db' = filter (fun o => negb (owned_by direct o)) (orders db) /\
    products db' = products db /\
    orderproductss db' =
      filter (fun op =>
                negb (refers_to_order
                        (map Order.order_id (filter (owned_by direct) (orders db)))
                        op))
        (orderproductss db) /\
    orders_order_id_seq db' = orders_order_id_seq db /\
    products_product_id_seq db' = products_product_id_seq db.
Proof.
  intro direct. eexists.
  unfold Repo05.delete_user_by_id.
  rewrite with_session_pool_execute_commit_unit.
  unfold atomically, delete_users_where, delete_orders_where; simpl.
  split; [reflexivity|]. simpl. repeat split.
Qed.

Lemma referred_by_deleted (user_id : Z) (us : list User.t) (u : User.t) :
  referred_by
    (map User.telegram_id (filter (fun v => User.telegram_id v =? user_id) us)) u
  = match User.referrer_id u with
    | Some r => ((r =? user_id) && user_exists user_id us)%bool
    | None => false
    end.
Proof.
  unfold referred_by. destruct (User.referrer_id u); [|reflexivity].
  apply mem_deleted_keys.
Qed.

Lemma owned_by_deleted (user_id : Z) (us : list User.t) (o : Order.t) :
  owned_by
    (map User.telegram_id (filter (fun v => User.telegram_id v =? user_id) us)) o
  = ((Order.user_id o =? user_id) && user_exists user_id us)%bool.
Proof. apply mem_deleted_keys. Qed.

(** Deleting a key that no row has changes nothing. *)
Lemma delete_absent_user (user_id : Z) (db : DB) :
  user_exists user_id (users db) = false ->
  with_session_pool (Repo05.delete_user_by_id user_id) db = (db, Ok tt).
Proof.
  intro Habs.
  destruct (delete_user_by_id_commits user_id db)
    as [db' [Hrun [Hu [Ho [Hp [Hop [Hs1 Hs2]]]]]]].
  rewrite Hrun. f_equal.
  assert (Hnone : filter (owned_by
                     (map User.telegram_id
                        (filter (fun u => User.telegram_id u =? user_id) (users db))))
                    (orders db) = []).
  { apply filter_none. intros o _. rewrite owned_by_deleted, Habs.
    apply andb_false_r. }
  apply DB_ext; try assumption.
  - rewrite Hu. rewrite map_unchanged.
    + apply filter_all. intros u Hin.
      destruct (Z.eqb_spec (User.telegram_id u) user_id) as [E|]; [|reflexivity].
      exfalso. unfold user_exists in Habs.
      assert (T : existsb (fun u => User.telegram_id u =? user_id) (users db) = true).
      { apply existsb_exists. exists u. split; [exact Hin | now apply Z.eqb_eq]. }
      congruence.
    + intros u _. rewrite referred_by_deleted, Habs.
      destruct (User.referrer_id u); [rewrite andb_false_r|]; reflexivity.
  - rewrite Ho. apply filter_all. intros o _.
    rewrite owned_by_deleted, Habs, andb_false_r. reflexivity.
  - rewrite Hop, Hnone. apply filter_all. intros op _. reflexivity.
Qed.

Lemma user_gone_after_delete (user_id : Z) (db db' : DB) (r : result unit) :
  with_session_pool (Repo05.delete_user_by_id user_id) db = (db', r) ->
  user_exists user_id (users db') = false.
Proof.
  intro H.
  destruct (delete_user_by_id_commits user_id db) as [d [Hrun [Hu _]]].
  rewrite Hrun in H. inversion H; subst d; clear H.
  rewrite Hu. unfold user_exists.
  apply not_true_is_false. intro T.
  apply existsb_exists in T. destruct T as [u [Hin E]].
  apply in_map_iff in Hin. destruct Hin as [v [Hv Hin]].
  apply filter_In in Hin. destruct Hin as [_ Hneq].
  assert (Hid : User.telegram_id u = User.telegram_id v).
  { subst u. destruct (referred_by _ v); reflexivity. }
  rewrite Hid in E. rewrite E in Hneq. discriminate.
Qed.

(** C8: [delete_user_by_id] never raises; when no row has the id, the
    database is left as it was; deleting the same id a second time leaves
    the state reached by the first deletion. *)
Theorem delete_user_by_id_idempotent :
  forall (db : DB) (user_id : Z),
    exists db1 : DB,
      with_session_pool (Repo05.delete_user_by_id user_id) db = (db1, Ok tt) /\
      with_session_pool (Repo05.delete_user_by_id user_id) db1 = (db1, Ok tt) /\
      (user_exists user_id (users db) = false -> db1 = db).
Proof.
  intros db user_id.
  destruct (delete_user_by_id_commits user_id db) as [db1 [Hrun _]].
  exists db1. split; [exact Hrun|]. split.
  - apply delete_absent_user. exact (user_gone_after_delete _ _ _ _ Hrun).
  - intro Habs. rewrite (delete_absent_user _ _ Habs) in Hrun.
    inversion Hrun. reflexivity.
Qed.

(** C8, witness: user 7 does not exist; deleting it leaves the database
    as it was. *)
Lemma delete_user_by_id_idempotent_witness :
  let db := set_users [User.Build 1 "A" None "en" None 4 4;
                       User.Build 2 "B" None "en" (Some 1) 5 5] empty_db in
  with_session_pool (Repo05.delete_user_by_id 7) db = (db, Ok tt).
Proof.
  intro db.
  destruct (delete_user_by_id_idempotent db 7) as [db1 [H1 [_ H3]]].
  rewrite (H3 eq_refl) in H1. exact H1.
Defined.

(* ===================================================================== *)
(** ** Referrer links and cascades *)
(* ===================================================================== *)

Lemma NoDup_map_In_inj {A} (key : A -> Z) (l : list A) (x y : A) :
  NoDup (map key l) -> In x l -> In y l -> key x = key y -> x = y.
Proof.
  induction l as [|a l IH]; simpl; intros ND Hx Hy E; [contradiction|].
  inversion ND as [|? ? Hnotin ND']; subst.
  destruct Hx as [-> | Hx], Hy as [-> | Hy].
  - reflexivity.
  - exfalso. apply Hnotin. rewrite E. apply in_map. exact Hy.
  - exfalso. apply Hnotin. rewrite <- E. apply in_map. exact Hx.
  - apply IH; assumption.
Qed.

Lemma filter_filter_implied {A} (p q : A -> bool) (l : list A) :
  (forall a, In a l -> p a = true -> q a = true) ->
  filter p (filter q l) = filter p l.
Proof.
  induction l as [|a l IH]; simpl; intro H; [reflexivity|].
  assert (IH' : filter p (filter q l) = filter p l).
  { apply IH. intros b Hb. apply H. right. exact Hb. }
  destruct (p a) eqn:Pa.
  - rewrite (H a (or_introl eq_refl) Pa). simpl. rewrite Pa, IH'. reflexivity.
  - destruct (q a); simpl; [rewrite Pa|]; exact IH'.
Qed.

Lemma NoDup_map_filter {A} (key : A -> Z) (p : A -> bool) (l : list A) :
  NoDup (map key l) -> NoDup (map key (filter p l)).
Proof.
  induction l as [|a l IH]; simpl; intro ND; [constructor|].
  inversion ND as [|? ? Hnotin ND']; subst.
  destruct (p a); simpl; [constructor|]; auto.
  intro Hin. apply Hnotin. apply in_map_iff in Hin.
  destruct Hin as [b [E Hb]]. apply filter_In in Hb.
  rewrite <- E. apply in_map. tauto.
Qed.

Lemma user_exists_In (u : User.t) (us : list User.t) :
  In u us -> user_exists (User.telegram_id u) us = true.
Proof.
  intro H. unfold user_exists. apply existsb_exists.
  exists u. split; [exact H | apply Z.eqb_refl].
Qed.

(** C2: under the notebook-05 schema, when user B's referrer link points
    to another user A, [delete_user_by_id] of A does not raise; B's row
    stays, with the link set to NULL and nothing else changed; B's orders
    and the line items of B's orders are the same as before. *)
Theorem delete_referrer_sets_link_null :
  forall (db : DB) (A B : User.t),
    users_pk db -> orders_pk db ->
    In A (users db) -> In B (users db) ->
    User.referrer_id B = Some (User.telegram_id A) ->
    User.telegram_id B <> User.telegram_id A ->
    exists db' : DB,
      with_session_pool (Repo05.delete_user_by_id (User.telegram_id A)) db
        = (db', Ok tt) /\
      filter (fun u => User.telegram_id u =? User.telegram_id B) (users db')
        = [null_referrer_id B] /\
      filter (fun o => Order.user_id o =? User.telegram_id B) (orders db')
        = filter (fun o => Order.user_id o =? User.telegram_id B) (orders db) /\
      (forall o, In o (orders db) -> Order.user_id o = User.telegram_id B ->
         filter (fun op => OrderProducts.order_id op =? Order.order_id o)
           (orderproductss db')
         = filter (fun op => OrderProducts.order_id op =? Order.order_id o)
             (orderproductss db)).
Proof.
  intros db A B Hupk Hopk HA HB Href Hneq.
  destruct (delete_user_by_id_commits (User.telegram_id A) db)
    as [db' [Hrun [Hu [Ho [_ [Hop _]]]]]].
  exists db'. split; [exact Hrun|].
  pose proof (user_exists_In A (users db) HA) as HexA.
  split; [|split].
  - assert (Hin : In (null_referrer_id B) (users db')).
    { rewrite Hu. apply in_map_iff. exists B. split.
      - rewrite referred_by_deleted, Href, Z.eqb_refl, HexA. reflexivity.
      - apply filter_In. split; [exact HB|].
        apply negb_true_iff. apply Z.eqb_neq. exact Hneq. }
    assert (Hnd : NoDup (map User.telegram_id (users db'))).
    { rewrite Hu, map_map.
      rewrite (map_ext _ User.telegram_id).
      - apply NoDup_map_filter. exact Hupk.
      - intro u. destruct (referred_by _ u); reflexivity. }
    exact (filter_key_unique User.telegram_id _ _ Hnd Hin).
  - rewrite Ho. apply filter_filter_implied.
    intros o _ E. apply Z.eqb_eq in E.
    rewrite owned_by_deleted, E.
    apply negb_true_iff. apply andb_false_iff. left.
    apply Z.eqb_neq. exact Hneq.
  - intros o Hin Huid. rewrite Hop. apply filter_filter_implied.
    intros op _ E. apply Z.eqb_eq in E.
    apply negb_true_iff. apply not_true_is_false. intro T.
    unfold refers_to_order in T. apply mem_true_iff in T.
    apply in_map_iff in T. destruct T as [o' [Eid Ho']].
    apply filter_In in Ho'. destruct Ho' as [Ho' Hown].
    rewrite owned_by_deleted in Hown. apply andb_true_iff in Hown.
    destruct Hown as [Hown _]. apply Z.eqb_eq in Hown.
    assert (o' = o).
    { apply (NoDup_map_In_inj Order.order_id (orders db)); try assumption.
      congruence. }
    subst o'. congruence.
Qed.

(** C2, witness: the scenario of the specification.  Users A (id 1) and B
    (id 2, referred by 1), an order of B with two line items; A is
    deleted. *)
Lemma delete_referrer_sets_link_null_witness :
  let A := User.Build 1 "A" None "en" None 4 4 in
  let B := User.Build 2 "B" (Some "b") "en" (Some 1) 5 5 in
  let o := Order.Build 1 2 6 6 in
  let db :=
    {| users := [A; B];
       orders := [o];
       products := [Product.Build 1 "p1" None 10000 7 7;
                    Product.Build 2 "p2" None 25000 7 7];
       orderproductss := [OrderProducts.Build 1 1 3; OrderProducts.Build 1 2 4];
       orders_order_id_seq := 1;
       products_product_id_seq := 2 |} in
  exists db' : DB,
    with_session_pool (Repo05.delete_user_by_id 1) db = (db', Ok tt) /\
    filter (fun u => User.telegram_id u =? 2) (users db')
      = [User.Build 2 "B" (Some "b") "en" None 5 5] /\
    filter (fun o => Order.user_id o =? 2) (orders db') = [o] /\
    (forall o, In o (orders db) -> Order.user_id o = 2 ->
       filter (fun op => OrderProducts.order_id op =? Order.order_id o)
         (orderproductss db')
       = filter (fun op => OrderProducts.order_id op =? Order.order_id o)
           (orderproductss db)).
Proof.
  intros A B o db.
  apply (delete_referrer_sets_link_null db A B).
  - repeat constructor; simpl; intuition discriminate.
  - repeat constructor; simpl; intuition.
  - left; reflexivity.
  - right; left; reflexivity.
  - reflexivity.
  - discriminate.
Defined.

(** The scenario computed: B keeps its row, its order and both line
    items; only its referrer link is gone. *)
Example delete_referrer_scenario :
  let db :=
    {| users := [User.Build 1 "A" None "en" None 4 4;
                 User.Build 2 "B" (Some "b") "en" (Some 1) 5 5];
       orders := [Order.Build 1 2 6 6];
       products := [Product.Build 1 "p1" None 10000 7 7;
                    Product.Build 2 "p2" None 25000 7 7];
       orderproductss := [OrderProducts.Build 1 1 3; OrderProducts.Build 1 2 4];
       orders_order_id_seq := 1;
       products_product_id_seq := 2 |} in
  with_session_pool (Repo05.delete_user_by_id 1) db
  = ({| users := [User.Build 2 "B" (Some "b") "en" None 5 5];
        orders := orders db; products := products db;
        orderproductss := orderproductss db;
        orders_order_id_seq := 1; products_product_id_seq := 2 |}, Ok tt).
Proof. reflexivity. Qed.

(** The same deletion under the schema of notebook 04, where
    [referrer_id] is a plain [user_fk] (CASCADE): the referral is deleted
    with its referrer, and so are its orders and their line items. *)
Example delete_referrer_under_schema_04 :
  let db :=
    {| users := [User.Build 1 "A" None "en" None 4 4;
                 User.Build 2 "B" (Some "b") "en" (Some 1) 5 5];
       orders := [Order.Build 1 2 6 6];
       products := [Product.Build 1 "p1" None 10000 7 7];
       orderproductss := [OrderProducts.Build 1 1 3];
       orders_order_id_seq := 1;
       products_product_id_seq := 1 |} in
  delete_users_where schema_04 (fun u => User.telegram_id u =? 1) db
  = Ok {| users := []; orders := []; products := products db;
          orderproductss := [];
          orders_order_id_seq := 1; products_product_id_seq := 1 |}.
Proof. reflexivity. Qed.

(** A user that is its own referrer is deleted like any other. *)
Example delete_self_referred_user :
  let db := set_users [User.Build 5 "E" None "en" (Some 5) 4 4] empty_db in
  with_session_pool (Repo05.delete_user_by_id 5) db = (empty_db, Ok tt).
Proof. reflexivity. Qed.

(* ===================================================================== *)
(** ** DELETE FROM orders, DELETE FROM products *)
(* ===================================================================== *)

Lemma mem_keys_of_filter {A} (key : A -> Z) (k k0 : Z) (l : list A) :
  mem k (map key (filter (fun a => key a =? k0) l))
  = ((k =? k0) && existsb (fun a => key a =? k0) l)%bool.
Proof.
  apply eq_true_iff_eq.
  rewrite mem_true_iff, andb_true_iff, Z.eqb_eq, existsb_exists, in_map_iff.
  split.
  - intros [a [Hk Ha]]. apply filter_In in Ha. destruct Ha as [Ha E].
    split; [apply Z.eqb_eq in E; congruence|]. exists a. split; assumption.
  - intros [-> [a [Ha E]]]. exists a. split; [now apply Z.eqb_eq|].
    apply filter_In. split; assumption.
Qed.

Lemma delete_order_commits (order_id : Z) (db : DB) :
  order_exists order_id (orders db) = true ->
  with_session_pool (delete_order order_id) db =
  (set_orderproductss
     (filter (fun op => negb (OrderProducts.order_id op =? order_id))
        (orderproductss db))
     (set_orders
        (filter (fun o => negb (Order.order_id o =? order_id)) (orders db)) db),
   Ok tt).
Proof.
  intro Hex. unfold delete_order.
  rewrite with_session_pool_execute_commit_unit.
  unfold atomically, delete_orders_where. simpl.
  do 2 f_equal. apply filter_ext. intro op. f_equal.
  unfold refers_to_order. rewrite mem_keys_of_filter.
  unfold order_exists in Hex. rewrite Hex. apply andb_true_r.
Qed.

Lemma delete_product_raises (product_id : Z) (db : DB) :
  product_exists product_id (products db) = true ->
  existsb (fun op => OrderProducts.product_id op =? product_id)
    (orderproductss db) = true ->
  with_session_pool (delete_product product_id) db = (db, Raise ForeignKeyViolation).
Proof.
  intros Hex Href. unfold delete_product.
  rewrite with_session_pool_execute_commit_unit.
  unfold atomically, delete_products_where. simpl.
  assert (E : existsb
                (refers_to_product
                   (map Product.product_id
                      (filter (fun p => Product.product_id p =? product_id)
                         (products db))))
                (orderproductss db) = true).
  { apply existsb_exists in Href. destruct Href as [op [Hin Hop]].
    apply existsb_exists. exists op. split; [exact Hin|].
    unfold refers_to_product. rewrite mem_keys_of_filter.
    unfold product_exists in Hex. rewrite Hex, Hop. reflexivity. }
  rewrite E. simpl. rewrite close_committed. reflexivity.
Qed.

(** C3: deleting an existing order commits a state in which the order and
    all line items of that order are gone and every other row is as
    before; deleting an existing product that a line item references
    raises a foreign-key violation and leaves the database as it was. *)
Theorem delete_order_cascades_delete_product_restricted :
  forall db : DB,
    (forall order_id,
       order_exists order_id (orders db) = true ->
       exists db' : DB,
         with_session_pool (delete_order order_id) db = (db', Ok tt) /\
         (forall op, In op (orderproductss db') ->
            OrderProducts.order_id op <> order_id) /\
         orderproductss db' =
           filter (fun op => negb (OrderProducts.order_id op =? order_id))
             (orderproductss db) /\
         orders db' =
           filter (fun o => negb (Order.order_id o =? order_id)) (orders db) /\
         users db' = users db /\ products db' = products db) /\
    (forall product_id,
       product_exists product_id (products db) = true ->
       existsb (fun op => OrderProducts.product_id op =? product_id)
         (orderproductss db) = true ->
       with_session_pool (delete_product product_id) db
         = (db, Raise ForeignKeyViolation)).
Proof.
  intro db. split.
  - intros oid Hex. eexists. split; [apply delete_order_commits; exact Hex|].
    simpl. repeat split.
    intros op Hin E. apply filter_In in Hin. destruct Hin as [_ Hin].
    rewrite E, Z.eqb_refl in Hin. discriminate.
  - intros pid Hex Href. apply delete_product_raises; assumption.
Qed.

(** C3, witness: order 1 with two line items is deleted; product 1, which
    a line item references, cannot be deleted. *)
Lemma delete_order_cascades_delete_product_restricted_witness :
  let db :=
    {| users := [User.Build 2 "B" None "en" None 5 5];
       orders := [Order.Build 1 2 6 6; Order.Build 2 2 6 6];
       products := [Product.Build 1 "p1" None 10000 7 7;
                    Product.Build 2 "p2" None 25000 7 7];
       orderproductss := [OrderProducts.Build 1 1 3; OrderProducts.Build 2 1 1;
                          OrderProducts.Build 1 2 4];
       orders_order_id_seq := 2;
       products_product_id_seq := 2 |} in
  (exists db' : DB,
     with_session_pool (delete_order 1) db = (db', Ok tt) /\
     orderproductss db' = [OrderProducts.Build 2 1 1] /\
     orders db' = [Order.Build 2 2 6 6]) /\
  with_session_pool (delete_product 1) db = (db, Raise ForeignKeyViolation).
Proof.
  intro db.
  destruct (delete_order_cascades_delete_product_restricted db) as [Ho Hp].
  split.
  - destruct (Ho 1 eq_refl) as [db' [Hrun [_ [Hops [Hos _]]]]].
    exists db'. split; [exact Hrun|]. split; [exact Hops | exact Hos].
  - apply Hp; reflexivity.
Defined.

(* ===================================================================== *)
(** ** UPDATE users SET referrer_id *)
(* ===================================================================== *)

Lemma set_referrer_id_id (rid : Z) (now : timestamp) (u : User.t) :
  User.telegram_id (set_referrer_id rid now u) = User.telegram_id u.
Proof. reflexivity. Qed.

(** No row has the key: zero rows are updated, nothing is returned. *)
Lemma set_new_referrer_absent (now : timestamp) (user_id referrer_id : Z) (db : DB) :
  BIGINT referrer_id = Ok referrer_id ->
  user_exists user_id (users db) = false ->
  with_session_pool (Repo05.set_new_referrer now user_id referrer_id) db
  = (db, Ok None).
Proof.
  intros Hr Habs. unfold Repo05.set_new_referrer.
  rewrite with_session_pool_execute_commit.
  unfold update_users_referrer_id, atomically. rewrite Hr. simpl.
  unfold user_exists in Habs. rewrite Habs. simpl.
  assert (Hnot : ~ In user_id (map User.telegram_id (users db))).
  { intro H. apply (existsb_key_In User.telegram_id) in H. congruence. }
  rewrite (map_update_absent User.telegram_id user_id _ _ Hnot).
  rewrite (filter_key_absent User.telegram_id user_id _ Hnot).
  simpl. f_equal. destruct db; reflexivity.
Qed.

(** The row exists and so does the referrer: the row is updated and
    returned. *)
Lemma set_new_referrer_present (now : timestamp) (user_id referrer_id : Z)
    (u : User.t) (db : DB) :
  BIGINT referrer_id = Ok referrer_id ->
  users_pk db -> In u (users db) -> User.telegram_id u = user_id ->
  user_exists referrer_id (users db) = true ->
  let us := map (fun v => if User.telegram_id v =? user_id
                          then set_referrer_id referrer_id now v else v)
                (users db) in
  with_session_pool (Repo05.set_new_referrer now user_id referrer_id) db
    = (set_users us db, Ok (Some (set_referrer_id referrer_id now u))) /\
  filter (fun v => User.telegram_id v =? user_id) us
    = [set_referrer_id referrer_id now u].
Proof.
  intros Hr Hpk Hin Hid Href us.
  assert (Hkeys : map User.telegram_id us = map User.telegram_id (users db)).
  { unfold us. apply map_update_keys. intro; reflexivity. }
  assert (Hf : filter (fun v => User.telegram_id v =? user_id) us
               = [set_referrer_id referrer_id now u]).
  { assert (Hin' : In (set_referrer_id referrer_id now u) us).
    { unfold us.
      apply (in_map_update User.telegram_id user_id
               (set_referrer_id referrer_id now)); assumption. }
    assert (Hnd : NoDup (map User.telegram_id us)) by (rewrite Hkeys; exact Hpk).
    pose proof (filter_key_unique User.telegram_id _ _ Hnd Hin') as F.
    rewrite set_referrer_id_id, Hid in F. exact F. }
  split; [|exact Hf].
  unfold Repo05.set_new_referrer.
  rewrite with_session_pool_execute_commit.
  unfold update_users_referrer_id, atomically. rewrite Hr. simpl.
  fold us.
  assert (Href' : user_exists referrer_id us = true).
  { unfold user_exists. apply existsb_key_In. rewrite Hkeys.
    apply existsb_key_In. exact Href. }
  rewrite Href'. rewrite andb_false_r. rewrite Hf. reflexivity.
Qed.

(** C6: when no user has [user_id], [set_new_referrer] updates zero rows:
    it returns None and leaves the database as it was; when the user and
    the referrer exist, it returns the updated row, whose [referrer_id]
    is the new one.  The two outcomes differ. *)
Theorem set_new_referrer_zero_rows_or_updated_row :
  forall (db : DB) (now : timestamp) (user_id referrer_id : Z),
    BIGINT referrer_id = Ok referrer_id ->
    (user_exists user_id (users db) = false ->
     with_session_pool (Repo05.set_new_referrer now user_id referrer_id) db
       = (db, Ok None)) /\
    (forall u : User.t,
       users_pk db -> In u (users db) -> User.telegram_id u = user_id ->
       user_exists referrer_id (users db) = true ->
       exists (db' : DB) (u' : User.t),
         with_session_pool (Repo05.set_new_referrer now user_id referrer_id) db
           = (db', Ok (Some u')) /\
         filter (fun v => User.telegram_id v =? user_id) (users db') = [u'] /\
         User.referrer_id u' = Some referrer_id /\
         User.telegram_id u' = user_id /\
         User.full_name u' = User.full_name u /\
         User.user_name u' = User.user_name u /\
         User.language_code u' = User.language_code u /\
         User.created_at u' = User.created_at u /\
         orders db' = orders db /\ products db' = products db /\
         orderproductss db' = orderproductss db /\
         Ok (Some u') <> Ok (@None User.t)).
Proof.
  intros db now uid rid Hr. split.
  - apply set_new_referrer_absent. exact Hr.
  - intros u Hpk Hin Hid Href.
    destruct (set_new_referrer_present now uid rid u db Hr Hpk Hin Hid Href)
      as [Hrun Hf].
    eexists. exists (set_referrer_id rid now u).
    split; [exact Hrun|]. split; [exact Hf|].
    simpl. repeat split; try assumption. discriminate.
Qed.

(** C6, witness: users 1 and 2 exist, user 7 does not. *)
Lemma set_new_referrer_zero_rows_or_updated_row_witness :
  let u1 := User.Build 1 "A" None "en" None 4 4 in
  let db := set_users [u1; User.Build 2 "B" None "en" None 5 5] empty_db in
  with_session_pool (Repo05.set_new_referrer 9 7 2) db = (db, Ok None) /\
  exists (db' : DB) (u' : User.t),
    with_session_pool (Repo05.set_new_referrer 9 1 2) db = (db', Ok (Some u')) /\
    User.referrer_id u' = Some 2 /\ User.full_name u' = "A".
Proof.
  intros u1 db.
  destruct (set_new_referrer_zero_rows_or_updated_row db 9 7 2 eq_refl) as [H7 _].
  destruct (set_new_referrer_zero_rows_or_updated_row db 9 1 2 eq_refl) as [_ H1].
  split.
  - apply H7. reflexivity.
  - destruct (H1 u1) as [db' [u' [Hrun [_ [Hr [_ [Hn _]]]]]]].
    + repeat constructor; simpl; intuition discriminate.
    + left; reflexivity.
    + reflexivity.
    + reflexivity.
    + exists db', u'. split; [exact Hrun|]. split; [exact Hr | exact Hn].
Defined.

(* ===================================================================== *)
(** ** Joins as nested loops *)
(* ===================================================================== *)

Lemma flat_map_nil_fun {A B} (l : list A) :
  flat_map (fun _ : A => @nil B) l = [].
Proof. induction l; simpl; auto. Qed.

Lemma guard_flat_map {A B} (c : bool) (f : A -> list B) (l : list A) :
  (if c then flat_map f l else []) = flat_map (fun a => if c then f a else []) l.
Proof.
  destruct c; [reflexivity|]. symmetry. apply flat_map_nil_fun.
Qed.

(** A loop over a join is the two nested loops with the ON condition as a
    guard. *)
Lemma flat_map_join {A B C} (h : A * B -> list C) (l : list A) (r : list B)
    (on : A -> B -> bool) :
  flat_map h (join l r on) =
  flat_map (fun a => flat_map (fun b => if on a b then h (a, b) else []) r) l.
Proof.
  unfold join. induction l as [|a l IH]; simpl; [reflexivity|].
  rewrite flat_map_app, IH. f_equal. clear IH.
  induction r as [|b r IHr]; simpl; [reflexivity|].
  destruct (on a b); simpl; rewrite IHr; reflexivity.
Qed.

Lemma map_filter_flat_map {A B} (f : A -> B) (p : A -> bool) (l : list A) :
  map f (filter p l) = flat_map (fun a => if p a then [f a] else []) l.
Proof.
  induction l as [|a l IH]; simpl; [reflexivity|].
  destruct (p a); simpl; rewrite IH; reflexivity.
Qed.

Lemma Permutation_flat_map_ext {A B} (f g : A -> list B) (l : list A) :
  (forall a, Permutation (f a) (g a)) ->
  Permutation (flat_map f l) (flat_map g l).
Proof.
  intro H. induction l as [|a l IH]; simpl; [constructor|].
  apply Permutation_app; auto.
Qed.

Lemma Permutation_flat_map_app {A B} (f g : A -> list B) (l : list A) :
  Permutation (flat_map (fun a => f a ++ g a) l) (flat_map f l ++ flat_map g l).
Proof.
  induction l as [|a l IH]; simpl; [constructor|].
  rewrite IH. rewrite <- !app_assoc. apply Permutation_app_head.
  rewrite !app_assoc. apply Permutation_app_tail. apply Permutation_app_comm.
Qed.

(** Two nested loops may be exchanged, up to the order of the rows. *)
Lemma Permutation_flat_map_swap {A B C} (f : A -> B -> list C)
    (la : list A) (lb : list B) :
  Permutation (flat_map (fun a => flat_map (fun b => f a b) lb) la)
              (flat_map (fun b => flat_map (fun a => f a b) la) lb).
Proof.
  induction la as [|a la IH]; simpl.
  - rewrite flat_map_nil_fun. constructor.
  - rewrite IH. symmetry. apply Permutation_flat_map_app.
Qed.

(** Four nested loops may be run in the opposite nesting order. *)
Lemma Permutation_flat_map_reverse4 {A B C D R} (f : A -> B -> C -> D -> list R)
    (la : list A) (lb : list B) (lc : list C) (ld : list D) :
  Permutation
    (flat_map (fun a => flat_map (fun b => flat_map (fun c =>
       flat_map (fun d => f a b c d) ld) lc) lb) la)
    (flat_map (fun d => flat_map (fun c => flat_map (fun b =>
       flat_map (fun a => f a b c d) la) lb) lc) ld).
Proof.
  (* a b c d  ~  a b d c *)
  etransitivity.
  { apply Permutation_flat_map_ext; intro a.
    apply Permutation_flat_map_ext; intro b.
    apply Permutation_flat_map_swap. }
  (* a b d c  ~  a d b c *)
  etransitivity.
  { apply Permutation_flat_map_ext; intro a.
    apply (Permutation_flat_map_swap
             (fun b d => flat_map (fun c => f a b c d) lc)). }
  (* a d b c  ~  d a b c *)
  etransitivity.
  { apply (Permutation_flat_map_swap
             (fun a d => flat_map (fun b => flat_map (fun c => f a b c d) lc) lb)). }
  apply Permutation_flat_map_ext; intro d.
  (* a b c  ~  a c b *)
  etransitivity.
  { apply Permutation_flat_map_ext; intro a.
    apply Permutation_flat_map_swap. }
  (* a c b  ~  c a b *)
  etransitivity.
  { apply (Permutation_flat_map_swap
             (fun a c => flat_map (fun b => f a b c d) lb)). }
  apply Permutation_flat_map_ext; intro c.
  apply Permutation_flat_map_swap.
Qed.

(** The row both queries produce for a user, an order, a line item and a
    product, when the three ON conditions and the WHERE condition hold. *)
Lemma select_user_orders_relationships_loops (telegram_id : Z) (db : DB) :
  select_user_orders_relationships telegram_id db =
  flat_map (fun u => flat_map (fun o => flat_map (fun op => flat_map (fun p =>
    if User.telegram_id u =? Order.user_id o then
      if Order.order_id o =? OrderProducts.order_id op then
        if Product.product_id p =? OrderProducts.product_id op then
          if User.telegram_id u =? telegram_id then
            [(p, o, User.user_name u, OrderProducts.quantity op)]
          else []
        else []
      else []
    else [])
    (products db)) (orderproductss db)) (orders db)) (users db).
Proof.
  unfold select_user_orders_relationships.
  rewrite map_filter_flat_map, !flat_map_join. cbn [fst snd].
  apply flat_map_ext; intro u.
  apply flat_map_ext; intro o.
  rewrite guard_flat_map.
  apply flat_map_ext; intro op.
  destruct (User.telegram_id u =? Order.user_id o); [|symmetry; apply flat_map_nil_fun].
  rewrite guard_flat_map. reflexivity.
Qed.

Lemma select_user_orders_no_relationships_loops (telegram_id : Z) (db : DB) :
  select_user_orders_no_relationships telegram_id db =
  flat_map (fun p => flat_map (fun op => flat_map (fun o => flat_map (fun u =>
    if User.telegram_id u =? Order.user_id o then
      if Order.order_id o =? OrderProducts.order_id op then
        if Product.product_id p =? OrderProducts.product_id op then
          if User.telegram_id u =? telegram_id then
            [(p, o, User.user_name u, OrderProducts.quantity op)]
          else []
        else []
      else []
    else [])
    (users db)) (orders db)) (orderproductss db)) (products db).
Proof.
  unfold select_user_orders_no_relationships.
  rewrite map_filter_flat_map, !flat_map_join. cbn [fst snd].
  apply flat_map_ext; intro p.
  apply flat_map_ext; intro op.
  rewrite guard_flat_map.
  apply flat_map_ext; intro o.
  rewrite guard_flat_map, guard_flat_map.
  apply flat_map_ext; intro u.
  destruct (Product.product_id p =? OrderProducts.product_id op),
           (Order.order_id o =? OrderProducts.order_id op),
           (User.telegram_id u =? Order.user_id o); reflexivity.
Qed.

Lemma select_user_orders_permutation (telegram_id : Z) (db : DB) :
  Permutation (select_user_orders_relationships telegram_id db)
              (select_user_orders_no_relationships telegram_id db).
Proof.
  rewrite select_user_orders_relationships_loops,
          select_user_orders_no_relationships_loops.
  apply (Permutation_flat_map_reverse4
           (fun u o op p =>
              if User.telegram_id u =? Order.user_id o then
                if Order.order_id o =? OrderProducts.order_id op then
                  if Product.product_id p =? OrderProducts.product_id op then
                    if User.telegram_id u =? telegram_id then
                      [(p, o, User.user_name u, OrderProducts.quantity op)]
                    else []
                  else []
                else []
              else [])).
Qed.

(** C4: for every user id and every database state, both join queries
    return without changing the database, and their results hold the same
    (product, order, user_name, quantity) rows with the same
    multiplicities. *)
Theorem joined_reads_return_same_rows :
  forall (db : DB) (telegram_id : Z),
    exists rows1 rows2 : list user_order_row,
      with_session_pool (Repo04.get_all_user_orders_relationships telegram_id) db
        = (db, Ok rows1) /\
      with_session_pool (Repo04.get_all_user_orders_no_relationships telegram_id) db
        = (db, Ok rows2) /\
      Permutation rows1 rows2.
Proof.
  intros db tid.
  exists (select_user_orders_relationships tid db),
         (select_user_orders_no_relationships tid db).
  unfold Repo04.get_all_user_orders_relationships,
         Repo04.get_all_user_orders_no_relationships.
  rewrite !with_session_pool_query.
  repeat split. apply select_user_orders_permutation.
Qed.

(* ===================================================================== *)
(** ** GROUP BY and HAVING *)
(* ===================================================================== *)

Lemma in_join {A B} (l : list A) (r : list B) (on : A -> B -> bool) (a : A) (b : B) :
  In (a, b) (join l r on) <-> In a l /\ In b r /\ on a b = true.
Proof.
  unfold join. rewrite in_flat_map. split.
  - intros [a' [Ha Hin]]. apply in_map_iff in Hin.
    destruct Hin as [b' [E Hb]]. inversion E; subst.
    apply filter_In in Hb. tauto.
  - intros [Ha [Hb Hon]]. exists a. split; [exact Ha|].
    apply in_map. apply filter_In. tauto.
Qed.

Lemma line_user_in_users (db : DB) (r : line_row) :
  In r (orderproductss_orders_users db) -> In (line_user r) (users db).
Proof.
  destruct r as [oo u]. unfold orderproductss_orders_users. intro H.
  apply in_join in H. simpl. tauto.
Qed.

(** HAVING on the groups is the same as filtering the grouped result on
    its sum column. *)
Lemma having_is_filter_after_grouping (x : Z) (groups : list (list line_row)) :
  flat_map quantity_name (filter (fun g => x <? sum_quantity g) groups)
  = filter (fun r => x <? fst r) (flat_map quantity_name groups).
Proof.
  induction groups as [|g groups IH]; simpl; [reflexivity|].
  rewrite filter_app, <- IH.
  destruct (x <? sum_quantity g) eqn:E; simpl.
  - f_equal. destruct g as [|r g]; simpl; [reflexivity|].
    simpl in E. rewrite E. reflexivity.
  - destruct g as [|r g]; simpl; [reflexivity|].
    simpl in E. rewrite E. reflexivity.
Qed.

(** The group of a user who has line items: its sum and the user's name
    are a row of the grouped result. *)
Lemma group_of_user_in_result (db : DB) (u : User.t) :
  users_pk db -> In u (users db) ->
  has_line_items db (User.telegram_id u) = true ->
  In (summed_quantity db (User.telegram_id u), User.full_name u)
     (select_count_of_products_by_user db).
Proof.
  intros Hpk Hu Hhas.
  unfold select_count_of_products_by_user, group_by.
  apply in_flat_map.
  exists (filter (fun r => User.telegram_id (line_user r) =? User.telegram_id u)
            (orderproductss_orders_users db)).
  unfold has_line_items in Hhas. apply existsb_exists in Hhas.
  destruct Hhas as [r [Hr Hk]].
  split.
  - apply in_map_iff. exists (User.telegram_id u). split; [reflexivity|].
    apply nodup_In. apply in_map_iff. exists r.
    split; [now apply Z.eqb_eq | exact Hr].
  - unfold summed_quantity.
    destruct (filter _ (orderproductss_orders_users db)) as [|r0 g] eqn:Eg.
    + exfalso.
      assert (Hin : In r (filter (fun r => User.telegram_id (line_user r)
                                           =? User.telegram_id u)
                            (orderproductss_orders_users db))).
      { apply filter_In. split; assumption. }
      rewrite Eg in Hin. exact Hin.
    + assert (Hin0 : In r0 (r0 :: g)) by (left; reflexivity).
      rewrite <- Eg in Hin0. apply filter_In in Hin0.
      destruct Hin0 as [Hr0 Hk0]. apply Z.eqb_eq in Hk0.
      assert (line_user r0 = u).
      { apply (NoDup_map_In_inj User.telegram_id (users db)); try assumption.
        apply line_user_in_users. exact Hr0. }
      simpl. left. congruence.
Qed.

(** Every row of the grouped result is the sum and the name of a user
    who has line items. *)
Lemma result_row_is_group_of_user (db : DB) (q : Z) (n : string) :
  In (q, n) (select_count_of_products_by_user db) ->
  exists u : User.t,
    In u (users db) /\ has_line_items db (User.telegram_id u) = true /\
    q = summed_quantity db (User.telegram_id u) /\ n = User.full_name u.
Proof.
  unfold select_count_of_products_by_user, group_by. intro H.
  apply in_flat_map in H. destruct H as [g [Hg Hrow]].
  apply in_map_iff in Hg. destruct Hg as [k [Hg _]].
  destruct g as [|r0 g]; simpl in Hrow; [contradiction|].
  destruct Hrow as [Hrow | []]. inversion Hrow; subst q n; clear Hrow.
  assert (Hin0 : In r0 (r0 :: g)) by (left; reflexivity).
  rewrite <- Hg in Hin0. apply filter_In in Hin0.
  destruct Hin0 as [Hr0 Hk0]. apply Z.eqb_eq in Hk0.
  exists (line_user r0). split; [|split; [|split]].
  - apply line_user_in_users. exact Hr0.
  - unfold has_line_items. apply existsb_exists. exists r0.
    split; [exact Hr0 | apply Z.eqb_refl].
  - unfold summed_quantity. rewrite Hk0, Hg. reflexivity.
  - reflexivity.
Qed.

(** C5: [get_count_of_products_greater_than_x_by_user] returns the grouped
    per-user sums filtered on the sum (after grouping); every returned row
    is the summed quantity and the name of a user with line items, and the
    sum is strictly greater than the threshold; and a user with line items
    is returned, with the summed quantity, exactly when that sum is
    strictly greater than the threshold, so a sum equal to it is left
    out. *)
Theorem having_sum_strictly_greater :
  forall (db : DB) (greater_than : Z),
    exists rows : list (Z * string),
      with_session_pool
        (Repo04.get_count_of_products_greater_than_x_by_user greater_than) db
        = (db, Ok rows) /\
      rows = filter (fun r => greater_than <? fst r)
               (select_count_of_products_by_user db) /\
      (forall q n, In (q, n) rows ->
         greater_than < q /\
         exists u : User.t,
           In u (users db) /\ has_line_items db (User.telegram_id u) = true /\
           q = summed_quantity db (User.telegram_id u) /\
           n = User.full_name u) /\
      (forall u : User.t,
         users_pk db -> In u (users db) ->
         has_line_items db (User.telegram_id u) = true ->
         (In (summed_quantity db (User.telegram_id u), User.full_name u) rows
          <-> greater_than < summed_quantity db (User.telegram_id u))).
Proof.
  intros db x.
  exists (select_count_of_products_greater_than_x_by_user x db).
  unfold Repo04.get_count_of_products_greater_than_x_by_user.
  rewrite with_session_pool_query.
  assert (E : select_count_of_products_greater_than_x_by_user x db
              = filter (fun r => x <? fst r) (select_count_of_products_by_user db)).
  { apply having_is_filter_after_grouping. }
  split; [reflexivity|]. split; [exact E|].
  rewrite E. split.
  - intros q n Hin. apply filter_In in Hin. destruct Hin as [Hin H].
    simpl in H. split; [apply Z.ltb_lt; exact H|].
    apply result_row_is_group_of_user. exact Hin.
  - intros u Hpk Hu Hhas. split.
    + intro Hin. apply filter_In in Hin. destruct Hin as [_ H].
      simpl in H. apply Z.ltb_lt. exact H.
    + intro Hlt. apply filter_In. split.
      * apply group_of_user_in_result; assumption.
      * simpl. apply Z.ltb_lt. exact Hlt.
Qed.

(** C5, witness: user 2 has line items of 3 and 4; with threshold 6 the
    sum 7 is returned, with threshold 7 (equal to the sum) it is not. *)
Lemma having_sum_strictly_greater_witness :
  let B := User.Build 2 "B" None "en" None 5 5 in
  let db :=
    {| users := [User.Build 1 "A" None "en" None 4 4; B];
       orders := [Order.Build 1 2 6 6];
       products := [Product.Build 1 "p1" None 10000 7 7;
                    Product.Build 2 "p2" None 25000 7 7];
       orderproductss := [OrderProducts.Build 1 1 3; OrderProducts.Build 1 2 4];
       orders_order_id_seq := 1;
       products_product_id_seq := 2 |} in
  (exists rows,
     with_session_pool (Repo04.get_count_of_products_greater_than_x_by_user 6) db
       = (db, Ok rows) /\ In (7, "B") rows) /\
  (exists rows,
     with_session_pool (Repo04.get_count_of_products_greater_than_x_by_user 7) db
       = (db, Ok rows) /\ ~ In (7, "B") rows).
Proof.
  intros B db.
  assert (Hpk : users_pk db).
  { repeat constructor; simpl; intuition discriminate. }
  assert (HB : In B (users db)) by (right; left; reflexivity).
  split.
  - destruct (having_sum_strictly_greater db 6) as [rows [Hrun [_ [_ H]]]].
    exists rows. split; [exact Hrun|].
    apply (H B Hpk HB eq_refl). reflexivity.
  - destruct (having_sum_strictly_greater db 7) as [rows [Hrun [_ [_ H]]]].
    exists rows. split; [exact Hrun|].
    intro Hin. apply (H B Hpk HB eq_refl) in Hin. discriminate Hin.
Defined.

(** The threshold is not a filter on the single line items: with line
    items of 3 and 4 and threshold 3, HAVING keeps the user with the sum
    7, while a WHERE on the rows would add up the item 4 alone. *)
Example having_differs_from_where :
  let db :=
    {| users := [User.Build 2 "B" None "en" None 5 5];
       orders := [Order.Build 1 2 6 6];
       products := [Product.Build 1 "p1" None 10000 7 7;
                    Product.Build 2 "p2" None 25000 7 7];
       orderproductss := [OrderProducts.Build 1 1 3; OrderProducts.Build 1 2 4];
       orders_order_id_seq := 1;
       products_product_id_seq := 2 |} in
  select_count_of_products_greater_than_x_by_user 3 db = [(7, "B")] /\
  where_quantity_greater_than_x_then_group 3 db = [(4, "B")] /\
  select_count_of_products_greater_than_x_by_user 5 db = [(7, "B")] /\
  where_quantity_greater_than_x_then_group 5 db = [].
Proof. repeat split. Qed.

(* ===================================================================== *)
(** ** Bulk insert inside one transaction *)
(* ===================================================================== *)

(** One INSERT into products touches the products table and its sequence
    only; it appends the created row, or raises and appends nothing. *)
Lemma insert_products_effect (now : timestamp) (p : ProductParams.t) (db : DB) :
  users (fst (insert_products now p db)) = users db /\
  orders (fst (insert_products now p db)) = orders db /\
  orderproductss (fst (insert_products now p db)) = orderproductss db /\
  match snd (insert_products now p db) with
  | Ok rows =>
      exists row, rows = [row] /\ product_row_of p row /\
        products (fst (insert_products now p db)) = products db ++ [row]
  | Raise _ => products (fst (insert_products now p db)) = products db
  end.
Proof.
  unfold insert_products, atomically.
  destruct (int_pk (products_product_id_seq db + 1)) as [pid|]; simpl;
    [|repeat split].
  destruct (NOT_NULL str_255 (ProductParams.title p)) as [ti|] eqn:Eti;
    simpl; [|repeat split].
  destruct (Optional (VARCHAR 3000) (ProductParams.description p)) as [de|] eqn:Ede;
    simpl; [|repeat split].
  destruct (NOT_NULL DECIMAL_16_4 (ProductParams.price p)) as [pr|] eqn:Epr;
    simpl; [|repeat split].
  destruct (product_exists pid (products db)); simpl; [repeat split|].
  repeat split. eexists. split; [reflexivity|].
  split; [|reflexivity]. unfold product_row_of. simpl. auto.
Qed.

(** The bulk insert, before the commit: the durable state is untouched;
    in the open transaction only products changed, by the rows created so
    far. *)
Lemma executemany_insert_products (now : timestamp) (ps : list ProductParams.t) :
  forall s : Session,
    connection (fst (executemany (insert_products now) ps s)) = connection s /\
    users (transaction (fst (executemany (insert_products now) ps s)))
      = users (transaction s) /\
    orders (transaction (fst (executemany (insert_products now) ps s)))
      = orders (transaction s) /\
    orderproductss (transaction (fst (executemany (insert_products now) ps s)))
      = orderproductss (transaction s) /\
    match snd (executemany (insert_products now) ps s) with
    | Ok created =>
        Forall2 product_row_of ps created /\
        products (transaction (fst (executemany (insert_products now) ps s)))
          = products (transaction s) ++ created
    | Raise _ => True
    end.
Proof.
  induction ps as [|p ps IH]; intro s; simpl.
  - repeat split; [constructor | symmetry; apply app_nil_r].
  - unfold bind, execute.
    pose proof (insert_products_effect now p (transaction s)) as Hp.
    destruct (insert_products now p (transaction s)) as [db1 [rows|e]];
      simpl in Hp; destruct Hp as [Hu [Ho [Hop Hpr]]].
    + destruct Hpr as [row [-> [Hrow Hprod]]].
      specialize (IH {| connection := connection s; transaction := db1 |}).
      destruct (executemany (insert_products now) ps
                  {| connection := connection s; transaction := db1 |})
        as [s2 [created|e]]; simpl in IH |- *;
        destruct IH as [Hc [Hu2 [Ho2 [Hop2 Hrest]]]];
        (split; [exact Hc|]); (split; [congruence|]); (split; [congruence|]);
        (split; [congruence|]); [|exact I].
      destruct Hrest as [Hall Hprods]. split.
      * constructor; assumption.
      * rewrite Hprods, Hprod, <- app_assoc. reflexivity.
    + simpl. repeat split; assumption.
Qed.

(** C7: [add_bulk_products], run in a session, either returns the created
    products, one per parameter set and in their order, and the products
    table is the old one followed by exactly these rows; or it raises and
    no row of any table has changed.  No other table changes either way. *)
Theorem add_bulk_products_all_or_nothing :
  forall (db : DB) (now : timestamp) (products_ : list ProductParams.t),
    match with_session_pool (Repo05.add_bulk_products now products_) db with
    | (db', Ok created) =>
        products db' = products db ++ created /\
        Forall2 product_row_of products_ created /\
        users db' = users db /\ orders db' = orders db /\
        orderproductss db' = orderproductss db
    | (db', Raise _) => same_rows db' db
    end.
Proof.
  intros db now ps.
  unfold with_session_pool, Repo05.add_bulk_products, bind.
  pose proof (executemany_insert_products now ps
                {| connection := db; transaction := db |}) as H.
  destruct (executemany (insert_products now) ps
              {| connection := db; transaction := db |}) as [s [created|e]];
    simpl in H; destruct H as [Hc [Hu [Ho [Hop Hrest]]]].
  - destruct Hrest as [Hall Hprods]. unfold commit, ret. simpl.
    repeat split; assumption.
  - unfold same_rows, close. simpl. rewrite Hc. repeat split.
Qed.

(** A parameter set with a missing title in second place: the first row
    is in the open transaction when the statement raises, and is gone
    after the rollback; the sequence keeps the two values it handed out. *)
Example add_bulk_products_rolls_back :
  let ps := [ProductParams.Build (Some "p1") None (Some 10000);
             ProductParams.Build None (Some "d") (Some 25000);
             ProductParams.Build (Some "p3") None (Some 5)] in
  products (transaction
              (fst (executemany (insert_products 7) ps
                      {| connection := empty_db; transaction := empty_db |})))
    = [Product.Build 1 "p1" None 10000 7 7] /\
  with_session_pool (Repo05.add_bulk_products 7 ps) empty_db
    = (set_products_product_id_seq 2 empty_db, Raise NotNullViolation).
Proof. split; reflexivity. Qed.

Example add_bulk_products_inserts_all :
  let ps := [ProductParams.Build (Some "p1") None (Some 10000);
             ProductParams.Build (Some "p2") (Some "d") (Some 25000)] in
  with_session_pool (Repo05.add_bulk_products 7 ps) empty_db
    = (set_products_product_id_seq 2
         (set_products [Product.Build 1 "p1" None 10000 7 7;
                        Product.Build 2 "p2" (Some "d") 25000 7 7] empty_db),
       Ok [Product.Build 1 "p1" None 10000 7 7;
           Product.Build 2 "p2" (Some "d") 25000 7 7]).
Proof. reflexivity. Qed.

(* ===================================================================== *)
(** ** The primary keys are kept by the repository *)
(* ===================================================================== *)

Lemma users_pk_empty_db : users_pk empty_db.
Proof. constructor. Qed.

Lemma orders_pk_empty_db : orders_pk empty_db.
Proof. constructor. Qed.

Lemma NoDup_map_snoc {A} (key : A -> Z) (l : list A) (a : A) :
  NoDup (map key l) -> existsb (fun b => key b =? key a) l = false ->
  NoDup (map key (l ++ [a])).
Proof.
  intros ND Hfresh. rewrite map_app. simpl.
  apply NoDup_app; [exact ND | constructor; [intros [] | constructor] |].
  intros k Hk [<- | []].
  apply (existsb_key_In key) in Hk. congruence.
Qed.

Lemma close_users (db db' : DB) :
  users (close {| connection := db; transaction := db' |}) = users db.
Proof. reflexivity. Qed.

Lemma close_orders (db db' : DB) :
  orders (close {| connection := db; transaction := db' |}) = orders db.
Proof. reflexivity. Qed.

Lemma Repo04_add_user_keeps_users_pk (db : DB) (now : timestamp) (tid : Z)
    (fn lc : string) (un : option string) (rid : option Z) :
  users_pk db ->
  users_pk (fst (with_session_pool (Repo04.add_user now tid fn lc un rid) db)).
Proof.
  intro Hpk. unfold Repo04.add_user.
  rewrite with_session_pool_execute_commit.
  destruct (insert_users_on_conflict_do_update schema_04 now tid fn lc un rid db)
    as [db' [rows|e]] eqn:E; simpl.
  - exact (proj1 (upsert_success _ _ _ _ _ _ _ _ _ _ Hpk E)).
  - unfold users_pk. rewrite close_users. exact Hpk.
Qed.

Lemma Repo05_add_user_keeps_users_pk (db : DB) (now : timestamp) (tid : Z)
    (fn lc : string) (un : option string) (rid : option Z) :
  users_pk db ->
  users_pk (fst (with_session_pool (Repo05.add_user now tid fn lc un rid) db)).
Proof.
  intro Hpk. unfold Repo05.add_user.
  rewrite with_session_pool_execute_commit.
  destruct (insert_users schema_05 now tid fn lc un rid db)
    as [db' [rows|e]] eqn:E; simpl.
  - unfold insert_users, atomically in E.
    destruct (users_values schema_05 now tid fn lc un rid) as [row|]; simpl in E;
      [|discriminate].
    destruct (user_exists (User.telegram_id row) (users db)) eqn:Hex;
      [discriminate|].
    destruct (referrer_resolves (users db ++ [row]) (User.referrer_id row));
      inversion E; subst.
    unfold users_pk. simpl.
    apply NoDup_map_snoc; assumption.
  - unfold users_pk. rewrite close_users. exact Hpk.
Qed.

Lemma set_new_referrer_keeps_users_pk (db : DB) (now : timestamp)
    (user_id referrer_id : Z) :
  users_pk db ->
  users_pk (fst (with_session_pool
                   (Repo05.set_new_referrer now user_id referrer_id) db)).
Proof.
  intro Hpk. unfold Repo05.set_new_referrer.
  rewrite with_session_pool_execute_commit.
  destruct (update_users_referrer_id now user_id referrer_id db)
    as [db' [rows|e]] eqn:E; simpl.
  - unfold update_users_referrer_id, atomically in E.
    destruct (BIGINT referrer_id) as [rid|]; simpl in E; [|discriminate].
    destruct (_ && _)%bool in E; inversion E; subst.
    unfold users_pk. simpl.
    rewrite map_update_keys by (intro; reflexivity). exact Hpk.
  - unfold users_pk. rewrite close_users. exact Hpk.
Qed.

Lemma delete_user_by_id_keeps_pks (db : DB) (user_id : Z) :
  users_pk db -> orders_pk db ->
  users_pk (fst (with_session_pool (Repo05.delete_user_by_id user_id) db)) /\
  orders_pk (fst (with_session_pool (Repo05.delete_user_by_id user_id) db)).
Proof.
  intros Hu Ho.
  destruct (delete_user_by_id_commits user_id db)
    as [db' [Hrun [Hus [Hos _]]]].
  rewrite Hrun. simpl. unfold users_pk, orders_pk. rewrite Hus, Hos. split.
  - rewrite map_map. rewrite (map_ext _ User.telegram_id).
    + apply NoDup_map_filter. exact Hu.
    + intro u. destruct (referred_by _ u); reflexivity.
  - apply NoDup_map_filter. exact Ho.
Qed.

Lemma create_new_order_for_user_keeps_orders_pk (db : DB) (now : timestamp)
    (user_id : Z) :
  orders_pk db ->
  orders_pk (fst (with_session_pool
                    (Repo05.create_new_order_for_user now user_id) db)).
Proof.
  intro Hpk. unfold Repo05.create_new_order_for_user.
  rewrite with_session_pool_execute_commit.
  destruct (insert_orders now user_id db) as [db' [rows|e]] eqn:E; simpl.
  - unfold insert_orders, atomically in E.
    destruct (int_pk (orders_order_id_seq db + 1)) as [oid|]; simpl in E;
      [|discriminate].
    destruct (BIGINT user_id) as [uid|]; simpl in E; [|discriminate].
    destruct (order_exists oid (orders db)) eqn:Hex; [discriminate|].
    destruct (user_exists uid (users db)); inversion E; subst.
    unfold orders_pk. simpl.
    apply NoDup_map_snoc; assumption.
  - unfold orders_pk. rewrite close_orders. exact Hpk.
Qed.

(* ===================================================================== *)
(** ** Point lookups *)
(* ===================================================================== *)

Lemma with_session_pool_query_ret {R A} (q : DB -> R) (f : R -> A) (db : DB) :
  with_session_pool (r <- execute (query q) ;; ret (f r))%se db = (db, Ok (f (q db))).
Proof.
  unfold with_session_pool, bind, execute, query, ret; simpl.
  rewrite close_committed. reflexivity.
Qed.

Lemma first_None_iff {A} (l : list A) : first l = None <-> l = [].
Proof. destruct l; simpl; split; intro H; try reflexivity; discriminate. Qed.

Lemma first_In {A} (l : list A) (a : A) : first l = Some a -> In a l.
Proof. destruct l; simpl; intro H; inversion H. left. reflexivity. Qed.

Lemma first_map {A B} (f : A -> B) (l : list A) :
  first (map f l) = option_map f (first l).
Proof. destruct l; reflexivity. Qed.

Lemma filter_key_nil_iff {A} (key : A -> Z) (k : Z) (l : list A) :
  filter (fun a => key a =? k) l = [] <-> existsb (fun a => key a =? k) l = false.
Proof.
  induction l as [|a l IH]; simpl; [tauto|].
  destruct (key a =? k); simpl; [split; discriminate | exact IH].
Qed.

(** X1: [get_user_by_id] never raises and leaves the database alone; it
    returns None exactly when no user has the id, and otherwise a row of
    users with that id. *)
Theorem get_user_by_id_found_or_none :
  forall (db : DB) (telegram_id : Z),
    exists res : option User.t,
      with_session_pool (Repo04.get_user_by_id telegram_id) db = (db, Ok res) /\
      (res = None <-> user_exists telegram_id (users db) = false) /\
      (forall u, res = Some u ->
         In u (users db) /\ User.telegram_id u = telegram_id).
Proof.
  intros db tid. eexists. unfold Repo04.get_user_by_id.
  rewrite with_session_pool_query_ret. split; [reflexivity|].
  unfold select_users_where_telegram_id. split.
  - rewrite first_None_iff. apply filter_key_nil_iff.
  - intros u H. apply first_In in H. apply filter_In in H.
    destruct H as [Hin E]. apply Z.eqb_eq in E. split; assumption.
Qed.

(** X2: what a successful [add_user] returns is what [get_user_by_id]
    then finds under the same id, and it is a row, not None. *)
Theorem add_user_then_get_user_by_id :
  forall (db db1 : DB) (now : timestamp) (telegram_id : Z)
         (full_name language_code : string) (user_name : option string)
         (referrer_id : option Z) (row : option User.t),
    with_session_pool
      (Repo04.add_user now telegram_id full_name language_code user_name
         referrer_id) db = (db1, Ok row) ->
    with_session_pool (Repo04.get_user_by_id telegram_id) db1 = (db1, Ok row) /\
    row <> None.
Proof.
  intros db db1 now tid fn lc un rid row H.
  unfold Repo04.add_user in H. rewrite with_session_pool_execute_commit in H.
  unfold Repo04.get_user_by_id. rewrite with_session_pool_query_ret.
  unfold select_users_where_telegram_id.
  unfold insert_users_on_conflict_do_update, atomically in H.
  destruct (users_values schema_04 now tid fn lc un rid) as [r|e] eqn:Hv;
    simpl in H; [|inversion H].
  destruct (users_values_telegram_id _ _ _ _ _ _ _ _ Hv) as [Hid _].
  rewrite Hid in H.
  destruct (existsb (fun u => User.telegram_id u =? tid) (users db)) eqn:Hex.
  - inversion H; subst; clear H. simpl. split; [reflexivity|].
    intro Hnone. apply first_None_iff in Hnone.
    apply (filter_key_nil_iff User.telegram_id) in Hnone.
    apply not_true_iff_false in Hnone. apply Hnone.
    apply existsb_key_In. rewrite map_update_keys by (intro; reflexivity).
    apply existsb_key_In. exact Hex.
  - destruct (referrer_resolves (users db ++ [r]) (User.referrer_id r));
      inversion H; subst; clear H. simpl. split; [|discriminate].
    rewrite filter_app. simpl. rewrite Z.eqb_refl.
    apply (filter_key_nil_iff User.telegram_id) in Hex. rewrite Hex.
    reflexivity.
Qed.

(** X2, witness. *)
Lemma add_user_then_get_user_by_id_witness :
  with_session_pool (Repo04.get_user_by_id 2)
    (set_users [User.Build 2 "Juan Perez" (Some "juanpe") "es" None 7 7] empty_db)
  = (set_users [User.Build 2 "Juan Perez" (Some "juanpe") "es" None 7 7] empty_db,
     Ok (Some (User.Build 2 "Juan Perez" (Some "juanpe") "es" None 7 7))).
Proof.
  apply (add_user_then_get_user_by_id empty_db _ 7 2 "Juan Perez" "es"
           (Some "juanpe") None _ eq_refl).
Defined.

(** X3: [get_user_language] returns the [language_code] of the row
    [get_user_by_id] returns, and None when that returns None. *)
Theorem get_user_language_of_get_user_by_id :
  forall (db : DB) (telegram_id : Z),
    exists res : option User.t,
      with_session_pool (Repo04.get_user_by_id telegram_id) db = (db, Ok res) /\
      with_session_pool (Repo04.get_user_language telegram_id) db
        = (db, Ok (option_map User.language_code res)).
Proof.
  intros db tid. eexists.
  unfold Repo04.get_user_by_id, Repo04.get_user_language.
  rewrite !with_session_pool_query_ret. split; [reflexivity|].
  unfold select_language_code_where_telegram_id, select_users_where_telegram_id.
  rewrite first_map. reflexivity.
Qed.

(* ===================================================================== *)
(** ** Constraint violations of the user operations *)
(* ===================================================================== *)

(** X4: the plain INSERT of notebook 05's [add_user] does not upsert: when
    a user with the id exists, the call raises and the database is left
    as it was; with values that fit the columns the error is the unique
    violation. *)
Theorem add_user_duplicate_key_raises :
  forall (db : DB) (now : timestamp) (telegram_id : Z)
         (full_name language_code : string) (user_name : option string)
         (referrer_id : option Z),
    user_exists telegram_id (users db) = true ->
    exists e : DBAPIError,
      with_session_pool
        (Repo05.add_user now telegram_id full_name language_code user_name
           referrer_id) db = (db, Raise e) /\
      (BIGINT telegram_id = Ok telegram_id ->
       fits_users_columns schema_05 full_name language_code user_name
         referrer_id = true ->
       e = UniqueViolation).
Proof.
  intros db now tid fn lc un rid Hex.
  unfold Repo05.add_user. rewrite with_session_pool_execute_commit.
  unfold insert_users, atomically.
  destruct (users_values schema_05 now tid fn lc un rid) as [r|e] eqn:Hv; simpl.
  - destruct (users_values_telegram_id _ _ _ _ _ _ _ _ Hv) as [Hid _].
    rewrite Hid, Hex. rewrite close_committed.
    exists UniqueViolation. split; reflexivity.
  - rewrite close_committed. exists e. split; [reflexivity|].
    intros Hb Hf. rewrite (users_values_fits _ _ _ _ _ _ _ Hb Hf) in Hv.
    discriminate Hv.
Qed.

(** X4, witness. *)
Lemma add_user_duplicate_key_raises_witness :
  let db := set_users [User.Build 1 "A" None "en" None 4 4] empty_db in
  exists e : DBAPIError,
    with_session_pool (Repo05.add_user 9 1 "B" "de" None None) db = (db, Raise e) /\
    (BIGINT 1 = Ok 1 ->
     fits_users_columns schema_05 "B" "de" None None = true ->
     e = UniqueViolation).
Proof.
  intro db.
  apply (add_user_duplicate_key_raises db 9 1 "B" "de" None None eq_refl).
Defined.

(** X5: [add_user] of notebook 04 with a new id and a referrer id that no
    user has (and that is not the new id itself) raises a foreign-key
    violation and leaves the database as it was. *)
Theorem add_user_unknown_referrer_raises :
  forall (db : DB) (now : timestamp) (telegram_id referrer : Z)
         (full_name language_code : string) (user_name : option string),
    BIGINT telegram_id = Ok telegram_id ->
    fits_users_columns schema_04 full_name language_code user_name
      (Some referrer) = true ->
    user_exists telegram_id (users db) = false ->
    user_exists referrer (users db) = false ->
    referrer <> telegram_id ->
    with_session_pool
      (Repo04.add_user now telegram_id full_name language_code user_name
         (Some referrer)) db = (db, Raise ForeignKeyViolation).
Proof.
  intros db now tid r fn lc un Hb Hf Hnew Hunk Hneq.
  unfold Repo04.add_user. rewrite with_session_pool_execute_commit.
  unfold insert_users_on_conflict_do_update, atomically.
  rewrite (users_values_fits _ _ _ _ _ _ _ Hb Hf). simpl.
  unfold user_exists in Hnew. rewrite Hnew. simpl.
  unfold user_exists. rewrite existsb_app. simpl.
  unfold user_exists in Hunk. rewrite Hunk. simpl.
  destruct (Z.eqb_spec tid r) as [E|_]; [congruence|]. simpl.
  rewrite close_committed. reflexivity.
Qed.

(** X5, witness. *)
Lemma add_user_unknown_referrer_raises_witness :
  with_session_pool (Repo04.add_user 9 2 "B" "en" None (Some 77))
    (set_users [User.Build 1 "A" None "en" None 4 4] empty_db)
  = (set_users [User.Build 1 "A" None "en" None 4 4] empty_db,
     Raise ForeignKeyViolation).
Proof.
  apply add_user_unknown_referrer_raises; try reflexivity. discriminate.
Defined.

(** The row a successful [add_user] returns is a row of users, under the
    id passed, and that id is a BIGINT. *)
Lemma add_user_returned_row (db db1 : DB) (now : timestamp) (tid : Z)
    (fn lc : string) (un : option string) (rid : option Z) (u : User.t) :
  with_session_pool (Repo04.add_user now tid fn lc un rid) db = (db1, Ok (Some u)) ->
  In u (users db1) /\ User.telegram_id u = tid /\ BIGINT tid = Ok tid.
Proof.
  intro H.
  unfold Repo04.add_user in H. rewrite with_session_pool_execute_commit in H.
  unfold insert_users_on_conflict_do_update, atomically in H.
  destruct (users_values schema_04 now tid fn lc un rid) as [r|e] eqn:Hv;
    simpl in H; [|inversion H].
  destruct (users_values_telegram_id _ _ _ _ _ _ _ _ Hv) as [Hid Hb].
  rewrite Hid in H.
  destruct (existsb (fun u => User.telegram_id u =? tid) (users db)).
  - inversion H as [[Hdb Hfirst]]; clear H. simpl.
    apply first_In in Hfirst. apply filter_In in Hfirst.
    destruct Hfirst as [Hin E]. apply Z.eqb_eq in E. auto.
  - destruct (referrer_resolves (users db ++ [r]) (User.referrer_id r));
      inversion H; subst; clear H. simpl.
    split; [apply in_or_app; right; left; reflexivity | auto].
Qed.

(** X6: the user a successful [add_user] returns can be named as referrer
    of the next [add_user]: that call does not raise, whether its id is
    new or not (the way [seed_fake_data] chains its users). *)
Theorem add_user_returned_user_is_valid_referrer :
  forall (db db1 : DB) (now1 now2 : timestamp) (telegram_id1 telegram_id2 : Z)
         (full_name1 language_code1 : string) (user_name1 : option string)
         (referrer_id1 : option Z) (u : User.t)
         (full_name2 language_code2 : string) (user_name2 : option string),
    with_session_pool
      (Repo04.add_user now1 telegram_id1 full_name1 language_code1 user_name1
         referrer_id1) db = (db1, Ok (Some u)) ->
    BIGINT telegram_id2 = Ok telegram_id2 ->
    fits_users_columns schema_04 full_name2 language_code2 user_name2 None
      = true ->
    exists (db2 : DB) (v : User.t),
      with_session_pool
        (Repo04.add_user now2 telegram_id2 full_name2 language_code2 user_name2
           (Some (User.telegram_id u))) db1 = (db2, Ok (Some v)) /\
      User.telegram_id v = telegram_id2.
Proof.
  intros db db1 now1 now2 tid1 tid2 fn1 lc1 un1 r1 u fn2 lc2 un2 H1 Hb2 Hf2.
  destruct (add_user_returned_row _ _ _ _ _ _ _ _ _ H1) as [Hin [Hid Hb1]].
  assert (Hfits : fits_users_columns schema_04 fn2 lc2 un2
                    (Some (User.telegram_id u)) = true).
  { unfold BIGINT in Hb1.
    destruct ((- 2 ^ 63 <=? tid1) && (tid1 <? 2 ^ 63))%bool eqn:Hr;
      [|discriminate].
    unfold fits_users_columns in *. rewrite Hid.
    rewrite andb_true_r in Hf2. rewrite Hf2, Hr. reflexivity. }
  pose proof (users_values_fits schema_04 now2 tid2 fn2 lc2 un2 _ Hb2 Hfits) as Hv.
  unfold Repo04.add_user. rewrite with_session_pool_execute_commit.
  unfold insert_users_on_conflict_do_update, atomically. rewrite Hv. simpl.
  destruct (existsb (fun v => User.telegram_id v =? tid2) (users db1)) eqn:Hex.
  - destruct (filter (fun v => User.telegram_id v =? tid2)
                (map (fun v => if User.telegram_id v =? tid2
                               then set_user_name_full_name un2 fn2 v else v)
                   (users db1))) as [|v vs] eqn:Hfl.
    + exfalso. apply (filter_key_nil_iff User.telegram_id) in Hfl.
      apply not_true_iff_false in Hfl. apply Hfl.
      apply existsb_key_In. rewrite map_update_keys by (intro; reflexivity).
      apply existsb_key_In. exact Hex.
    + eexists. exists v. split; [reflexivity|].
      assert (Hv' : In v (v :: vs)) by (left; reflexivity).
      rewrite <- Hfl in Hv'. apply filter_In in Hv'.
      apply Z.eqb_eq. exact (proj2 Hv').
  - unfold user_exists. rewrite existsb_app.
    pose proof (user_exists_In u (users db1) Hin) as Hu.
    unfold user_exists in Hu. rewrite Hu. simpl.
    eexists. eexists. split; reflexivity.
Qed.

(** X6, witness: user 1 is created, then user 2 with referrer 1. *)
Lemma add_user_returned_user_is_valid_referrer_witness :
  exists (db2 : DB) (v : User.t),
    with_session_pool (Repo04.add_user 8 2 "B" "en" None (Some 1))
      (set_users [User.Build 1 "A" None "en" None 7 7] empty_db)
    = (db2, Ok (Some v)) /\
    User.telegram_id v = 2.
Proof.
  apply (add_user_returned_user_is_valid_referrer empty_db _ 7 8 1 2 "A" "en"
           None None (User.Build 1 "A" None "en" None 7 7) "B" "en" None);
    reflexivity.
Defined.

(** X7: [set_new_referrer] of an existing user to a referrer id that no
    user has raises a foreign-key violation and leaves the database as it
    was. *)
Theorem set_new_referrer_unknown_referrer_raises :
  forall (db : DB) (now : timestamp) (user_id referrer_id : Z),
    BIGINT referrer_id = Ok referrer_id ->
    user_exists user_id (users db) = true ->
    user_exists referrer_id (users db) = false ->
    with_session_pool (Repo05.set_new_referrer now user_id referrer_id) db
      = (db, Raise ForeignKeyViolation).
Proof.
  intros db now uid rid Hr Hex Hunk.
  unfold Repo05.set_new_referrer. rewrite with_session_pool_execute_commit.
  unfold update_users_referrer_id, atomically. rewrite Hr. simpl.
  unfold user_exists in Hex. rewrite Hex. simpl.
  assert (Hus : user_exists rid
                  (map (fun u => if User.telegram_id u =? uid
                                 then set_referrer_id rid now u else u)
                     (users db)) = false).
  { apply not_true_iff_false. intro T. unfold user_exists in T.
    apply existsb_key_In in T.
    rewrite map_update_keys in T by (intro; reflexivity).
    apply existsb_key_In in T. unfold user_exists in Hunk. congruence. }
  rewrite Hus. simpl. rewrite close_committed. reflexivity.
Qed.

(** X7, witness. *)
Lemma set_new_referrer_unknown_referrer_raises_witness :
  with_session_pool (Repo05.set_new_referrer 9 1 77)
    (set_users [User.Build 1 "A" None "en" None 4 4] empty_db)
  = (set_users [User.Build 1 "A" None "en" None 4 4] empty_db,
     Raise ForeignKeyViolation).
Proof.
  apply set_new_referrer_unknown_referrer_raises; reflexivity.
Defined.

(* ===================================================================== *)
(** ** Upsert with the same arguments *)
(* ===================================================================== *)

Lemma users_values_now (sch : Schema) (now1 now2 : timestamp) (tid : Z)
    (fn lc : string) (un : option string) (rid : option Z) (r1 : User.t) :
  users_values sch now1 tid fn lc un rid = Ok r1 ->
  exists r2, users_values sch now2 tid fn lc un rid = Ok r2 /\
    User.telegram_id r2 = User.telegram_id r1 /\
    User.full_name r2 = User.full_name r1 /\
    User.user_name r2 = User.user_name r1.
Proof.
  unfold users_values. intro H.
  destruct (BIGINT tid); simpl in *; [|discriminate].
  destruct (str_255 fn); simpl in *; [|discriminate].
  destruct (Optional str_255 un); simpl in *; [|discriminate].
  destruct (VARCHAR (language_code_length sch) lc); simpl in *; [|discriminate].
  destruct (Optional BIGINT rid); simpl in *; [|discriminate].
  inversion H; subst. eexists. split; [reflexivity|]. simpl. auto.
Qed.

Lemma set_user_name_full_name_same (u : User.t) :
  set_user_name_full_name (User.user_name u) (User.full_name u) u = u.
Proof. destruct u; reflexivity. Qed.

Lemma set_user_name_full_name_twice (un : option string) (fn : string) (u : User.t) :
  set_user_name_full_name un fn (set_user_name_full_name un fn u)
  = set_user_name_full_name un fn u.
Proof. reflexivity. Qed.

(** X8: repeating a successful [add_user] with the same arguments changes
    nothing: the second call returns the same row and leaves the database
    the first call produced. *)
Theorem add_user_same_arguments_twice :
  forall (db db1 : DB) (now1 now2 : timestamp) (telegram_id : Z)
         (full_name language_code : string) (user_name : option string)
         (referrer_id : option Z) (row : option User.t),
    with_session_pool
      (Repo04.add_user now1 telegram_id full_name language_code user_name
         referrer_id) db = (db1, Ok row) ->
    with_session_pool
      (Repo04.add_user now2 telegram_id full_name language_code user_name
         referrer_id) db1 = (db1, Ok row).
Proof.
  intros db db1 now1 now2 tid fn lc un rid row H.
  unfold Repo04.add_user in *.
  rewrite with_session_pool_execute_commit in H.
  rewrite with_session_pool_execute_commit.
  unfold insert_users_on_conflict_do_update, atomically in *.
  destruct (users_values schema_04 now1 tid fn lc un rid) as [r1|e] eqn:Hv1;
    simpl in H; [|inversion H].
  destruct (users_values_now schema_04 now1 now2 _ _ _ _ _ _ Hv1)
    as [r2 [Hv2 [Hid [Hfn Hun]]]].
  rewrite Hv2. simpl. rewrite Hid, Hfn, Hun.
  set (upd := fun v : User.t =>
                if User.telegram_id v =? User.telegram_id r1
                then set_user_name_full_name (User.user_name r1)
                       (User.full_name r1) v
                else v) in *.
  destruct (existsb (fun u => User.telegram_id u =? User.telegram_id r1)
              (users db)) eqn:Hex.
  - inversion H; subst db1 row; clear H. simpl.
    assert (Hex' : existsb (fun u => User.telegram_id u =? User.telegram_id r1)
                     (map upd (users db)) = true).
    { apply existsb_key_In. unfold upd.
      rewrite map_update_keys by (intro; reflexivity).
      apply existsb_key_In. exact Hex. }
    rewrite Hex'.
    assert (Hmap : map upd (map upd (users db)) = map upd (users db)).
    { rewrite map_map. apply map_ext. intro v. unfold upd.
      destruct (User.telegram_id v =? User.telegram_id r1) eqn:E.
      - simpl. rewrite E. reflexivity.
      - rewrite E. reflexivity. }
    rewrite Hmap. reflexivity.
  - destruct (referrer_resolves (users db ++ [r1]) (User.referrer_id r1));
      inversion H; subst db1 row; clear H. simpl.
    rewrite existsb_app. simpl. rewrite Z.eqb_refl, orb_true_r. simpl.
    assert (Hmap : map upd (users db ++ [r1]) = users db ++ [r1]).
    { rewrite map_app. simpl. f_equal.
      - apply map_unchanged. intros v Hin. unfold upd.
        destruct (User.telegram_id v =? User.telegram_id r1) eqn:E; [|reflexivity].
        exfalso. apply not_true_iff_false in Hex. apply Hex.
        apply existsb_exists. exists v. split; assumption.
      - unfold upd. rewrite Z.eqb_refl, set_user_name_full_name_same.
        reflexivity. }
    rewrite Hmap. rewrite filter_app. simpl. rewrite Z.eqb_refl.
    apply (filter_key_nil_iff User.telegram_id) in Hex. rewrite Hex. simpl.
    reflexivity.
Qed.

(** X8, witness. *)
Lemma add_user_same_arguments_twice_witness :
  with_session_pool (Repo04.add_user 8 2 "Juan Perez" "es" (Some "juanpe") None)
    (set_users [User.Build 2 "Juan Perez" (Some "juanpe") "es" None 7 7] empty_db)
  = (set_users [User.Build 2 "Juan Perez" (Some "juanpe") "es" None 7 7] empty_db,
     Ok (Some (User.Build 2 "Juan Perez" (Some "juanpe") "es" None 7 7))).
Proof.
  apply (add_user_same_arguments_twice empty_db _ 7 8 2 "Juan Perez" "es"
           (Some "juanpe") None _ eq_refl).
Defined.

(* ===================================================================== *)
(** ** Deleting users: what is left *)
(* ===================================================================== *)

Lemma user_exists_after_delete (user_id k : Z) (db db' : DB) (r : result unit) :
  with_session_pool (Repo05.delete_user_by_id user_id) db = (db', r) ->
  user_exists k (users db') = (negb (k =? user_id) && user_exists k (users db))%bool.
Proof.
  intro H.
  destruct (delete_user_by_id_commits user_id db) as [d [Hrun [Hu _]]].
  rewrite Hrun in H. inversion H; subst d; clear H.
  rewrite Hu. clear Hu Hrun. unfold user_exists.
  generalize (map User.telegram_id
                (filter (fun u => User.telegram_id u =? user_id) (users db))).
  intro gone.
  induction (users db) as [|u us IH]; simpl.
  - rewrite andb_false_r. reflexivity.
  - destruct (Z.eqb_spec (User.telegram_id u) user_id) as [E|E]; simpl.
    + rewrite IH. destruct (Z.eqb_spec (User.telegram_id u) k) as [E'|E']; simpl.
      * assert (Hk : k = user_id) by congruence.
        apply Z.eqb_eq in Hk. rewrite Hk. reflexivity.
      * reflexivity.
    + rewrite IH.
      assert (Hid : User.telegram_id
                      (if referred_by gone u then null_referrer_id u else u)
                    = User.telegram_id u).
      { destruct (referred_by gone u); reflexivity. }
      rewrite Hid.
      destruct (Z.eqb_spec (User.telegram_id u) k) as [E'|E']; simpl.
      * subst k. destruct (Z.eqb_spec (User.telegram_id u) user_id); [contradiction|].
        reflexivity.
      * reflexivity.
Qed.

Lemma length_filter_out_key {A} (key : A -> Z) (k : Z) (l : list A) :
  NoDup (map key l) -> existsb (fun a => key a =? k) l = true ->
  S (List.length (filter (fun a => negb (key a =? k)) l)) = List.length l.
Proof.
  induction l as [|a l IH]; simpl; intros ND Hex; [discriminate|].
  inversion ND as [|? ? Hnotin ND']; subst.
  destruct (Z.eqb_spec (key a) k) as [E|E]; simpl.
  - f_equal. f_equal. apply filter_all. intros b Hb.
    apply negb_true_iff. apply Z.eqb_neq. intro Eb.
    apply Hnotin. rewrite E, <- Eb. apply in_map. exact Hb.
  - f_equal. apply IH; assumption.
Qed.

Lemma delete_existing_user_row_count (db : DB) (user_id : Z) :
  users_pk db -> user_exists user_id (users db) = true ->
  exists db' : DB,
    with_session_pool (Repo05.delete_user_by_id user_id) db = (db', Ok tt) /\
    S (List.length (users db')) = List.length (users db) /\
    (forall k, k <> user_id ->
       user_exists k (users db') = user_exists k (users db)).
Proof.
  intros Hpk Hex.
  destruct (delete_user_by_id_commits user_id db) as [db' [Hrun [Hu _]]].
  exists db'. split; [exact Hrun|]. split.
  - rewrite Hu, length_map.
    apply (length_filter_out_key User.telegram_id); assumption.
  - intros k Hk. rewrite (user_exists_after_delete _ k _ _ _ Hrun).
    destruct (Z.eqb_spec k user_id); [contradiction | reflexivity].
Qed.

(** X9: under the primary key of users, [delete_user_by_id] of an existing
    user removes exactly one row of users: the referrals of the user stay
    (the count the notebook expects). *)
Theorem delete_user_by_id_removes_one_row :
  forall (db : DB) (user_id : Z),
    users_pk db -> user_exists user_id (users db) = true ->
    exists db' : DB,
      with_session_pool (Repo05.delete_user_by_id user_id) db = (db', Ok tt) /\
      S (List.length (users db')) = List.length (users db) /\
      (forall k, k <> user_id ->
         user_exists k (users db') = user_exists k (users db)).
Proof.
  intros db uid. apply delete_existing_user_row_count.
Qed.

(** X9, witness: user 1 has two referrals; deleting it leaves both. *)
Lemma delete_user_by_id_removes_one_row_witness :
  let db := set_users [User.Build 1 "A" None "en" None 4 4;
                       User.Build 2 "B" None "en" (Some 1) 5 5;
                       User.Build 3 "C" None "en" (Some 1) 6 6] empty_db in
  exists db' : DB,
    with_session_pool (Repo05.delete_user_by_id 1) db = (db', Ok tt) /\
    S (List.length (users db')) = 3%nat /\
    (forall k, k <> 1 -> user_exists k (users db') = user_exists k (users db)).
Proof.
  intro db. apply (delete_user_by_id_removes_one_row db 1).
  - repeat constructor; simpl; intuition discriminate.
  - reflexivity.
Defined.

(** A repository method run on a session without pending changes. *)
Lemma delete_user_by_id_on_session (user_id : Z) (db : DB) :
  Repo05.delete_user_by_id user_id {| connection := db; transaction := db |}
  = ({| connection := fst (with_session_pool (Repo05.delete_user_by_id user_id) db);
        transaction := fst (with_session_pool (Repo05.delete_user_by_id user_id) db) |},
     Ok tt).
Proof.
  unfold with_session_pool, Repo05.delete_user_by_id, bind, execute, commit,
    atomically, delete_users_where, delete_orders_where. simpl. reflexivity.
Qed.

Lemma delete_each_on_session (ids : list Z) :
  forall db : DB,
    users_pk db -> NoDup ids ->
    (forall i, In i ids -> user_exists i (users db) = true) ->
    exists db' : DB,
      Notebook05.delete_each ids {| connection := db; transaction := db |}
        = ({| connection := db'; transaction := db' |}, Ok tt) /\
      (List.length (users db') + List.length ids = List.length (users db))%nat /\
      (forall k, user_exists k (users db')
                 = (negb (mem k ids) && user_exists k (users db))%bool).
Proof.
  induction ids as [|i ids IH]; intros db Hpk Hnd Hall; simpl.
  - exists db. unfold ret. split; [reflexivity|]. split; [lia|].
    intro k. reflexivity.
  - inversion Hnd as [|? ? Hnotin Hnd']; subst.
    unfold bind. rewrite delete_user_by_id_on_session.
    destruct (delete_existing_user_row_count db i Hpk
                (Hall i (or_introl eq_refl))) as [db1 [Hrun [Hlen Hothers]]].
    rewrite Hrun. simpl.
    destruct (IH db1) as [db' [Hrun' [Hlen' Hex']]].
    + pose proof (delete_user_by_id_keeps_pks db i Hpk) as K.
      unfold orders_pk in K.
      destruct (delete_user_by_id_commits i db) as [d [Hd [Hus _]]].
      rewrite Hrun in Hd. inversion Hd; subst d.
      unfold users_pk. rewrite Hus, map_map.
      rewrite (map_ext _ User.telegram_id).
      * apply NoDup_map_filter. exact Hpk.
      * intro u. destruct (referred_by _ u); reflexivity.
    + exact Hnd'.
    + intros j Hj. rewrite Hothers.
      * apply Hall. right. exact Hj.
      * intro E. subst j. contradiction.
    + exists db'. split; [exact Hrun'|]. split; [lia|].
      intro k. rewrite Hex'.
      rewrite (user_exists_after_delete _ k _ _ _ Hrun).
      unfold mem. simpl. fold (mem k ids).
      destruct (mem k ids), (k =? i); reflexivity.
Qed.

(** X10: the cell "Testing the Delete method": deleting the users of a
    list of distinct existing ids one after the other, in one session,
    never raises; the users listed afterwards are as many as before less
    the number of ids, and none of them has a deleted id. *)
Theorem testing_the_delete_method_count :
  forall (db : DB) (ids : list Z),
    users_pk db -> NoDup ids ->
    (forall i, In i ids -> user_exists i (users db) = true) ->
    exists (db' : DB) (remaining : list User.t),
      with_session_pool (Notebook05.testing_the_delete_method ids) db
        = (db', Ok remaining) /\
      remaining = users db' /\
      (List.length remaining + List.length ids = List.length (users db))%nat /\
      (forall u, In u remaining -> ~ In (User.telegram_id u) ids).
Proof.
  intros db ids Hpk Hnd Hall.
  destruct (delete_each_on_session ids db Hpk Hnd Hall)
    as [db' [Hrun [Hlen Hex]]].
  exists db', (users db').
  unfold with_session_pool, Notebook05.testing_the_delete_method, bind.
  rewrite Hrun. unfold Repo05.get_all_users, execute, query. simpl.
  rewrite close_committed. split; [reflexivity|]. split; [reflexivity|].
  split; [exact Hlen|].
  intros u Hin Hid.
  pose proof (user_exists_In u (users db') Hin) as T.
  rewrite Hex in T. apply mem_true_iff in Hid.
  rewrite Hid in T. discriminate T.
Qed.

(** X10, witness: four users, the first three are deleted; the second was
    referred by the first, the fourth by the third. *)
Lemma testing_the_delete_method_count_witness :
  let db := set_users [User.Build 1 "A" None "en" (Some 2) 4 4;
                       User.Build 2 "B" None "en" None 5 5;
                       User.Build 3 "C" None "en" (Some 4) 6 6;
                       User.Build 4 "D" None "en" (Some 3) 7 7] empty_db in
  exists (db' : DB) (remaining : list User.t),
    with_session_pool (Notebook05.testing_the_delete_method [1; 2; 3]) db
      = (db', Ok remaining) /\
    remaining = users db' /\
    (List.length remaining + 3 = 4)%nat /\
    (forall u, In u remaining -> ~ In (User.telegram_id u) [1; 2; 3]).
Proof.
  intro db. apply (testing_the_delete_method_count db [1; 2; 3]).
  - repeat constructor; simpl; intuition discriminate.
  - repeat constructor; simpl; intuition discriminate.
  - intros i [<- | [<- | [<- | []]]]; reflexivity.
Defined.

(* ===================================================================== *)
(** ** Deleting users: referential integrity *)
(* ===================================================================== *)

Lemma order_exists_filter (k : Z) (p : Order.t -> bool) (os : list Order.t) :
  order_exists k (filter p os) = true <->
  exists o, In o os /\ p o = true /\ Order.order_id o = k.
Proof.
  unfold order_exists. rewrite existsb_exists. split.
  - intros [o [Hin E]]. apply filter_In in Hin. apply Z.eqb_eq in E.
    exists o. tauto.
  - intros [o [Hin [Hp E]]]. exists o. split; [apply filter_In; tauto|].
    apply Z.eqb_eq. exact E.
Qed.

(** X11: [delete_user_by_id] keeps the foreign keys: if every referrer
    link, every order's user and every line item's order resolved before,
    they still do afterwards; no order of the deleted id is left. *)
Theorem delete_user_by_id_keeps_foreign_keys :
  forall (db : DB) (user_id : Z),
    exists db' : DB,
      with_session_pool (Repo05.delete_user_by_id user_id) db = (db', Ok tt) /\
      (users_fk db -> users_fk db') /\
      (orders_fk db -> orders_fk db') /\
      (orderproductss_order_fk db -> orderproductss_order_fk db') /\
      (user_exists user_id (users db) = true ->
       forall o, In o (orders db') -> Order.user_id o <> user_id).
Proof.
  intros db uid.
  destruct (delete_user_by_id_commits uid db)
    as [db' [Hrun [Hu [Ho [_ [Hop _]]]]]].
  exists db'. split; [exact Hrun|].
  assert (Hex : forall k, user_exists k (users db')
                          = (negb (k =? uid) && user_exists k (users db))%bool).
  { intro k. exact (user_exists_after_delete uid k db db' (Ok tt) Hrun). }
  split; [|split; [|split]].
  - intros Hfk u r Hin Href. rewrite Hu in Hin.
    apply in_map_iff in Hin. destruct Hin as [v [Hv Hin]].
    apply filter_In in Hin. destruct Hin as [Hin _].
    rewrite referred_by_deleted in Hv.
    destruct (User.referrer_id v) as [x|] eqn:Hx.
    + destruct ((x =? uid) && user_exists uid (users db))%bool eqn:Hc.
      * subst u. discriminate Href.
      * subst u. rewrite Hx in Href. inversion Href; subst x.
        pose proof (Hfk v r Hin Hx) as Hr. rewrite Hex, Hr, andb_true_r.
        apply negb_true_iff. apply andb_false_iff in Hc.
        destruct Hc as [Hc|Hc]; [exact Hc|].
        destruct (Z.eqb_spec r uid) as [E|]; [|reflexivity].
        subst r. congruence.
    + subst u. rewrite Hx in Href. discriminate Href.
  - intros Hfk o Hin. rewrite Ho in Hin. apply filter_In in Hin.
    destruct Hin as [Hin Hown]. rewrite owned_by_deleted in Hown.
    apply negb_true_iff in Hown.
    rewrite Hex, (Hfk o Hin), andb_true_r.
    apply negb_true_iff. apply andb_false_iff in Hown.
    destruct Hown as [Hc|Hc]; [exact Hc|].
    destruct (Z.eqb_spec (Order.user_id o) uid) as [E|]; [|reflexivity].
    pose proof (Hfk o Hin) as T. rewrite E in T. congruence.
  - intros Hfk op Hin. rewrite Hop in Hin. apply filter_In in Hin.
    destruct Hin as [Hin Hkeep]. apply negb_true_iff in Hkeep.
    pose proof (Hfk op Hin) as T. unfold order_exists in T.
    apply existsb_exists in T. destruct T as [o [Ho' E]].
    apply Z.eqb_eq in E.
    rewrite Ho. apply order_exists_filter. exists o.
    split; [exact Ho'|]. split; [|exact E].
    apply negb_true_iff. apply not_true_iff_false. intro Hown.
    apply not_true_iff_false in Hkeep. apply Hkeep.
    unfold refers_to_order. apply mem_true_iff. rewrite <- E.
    apply in_map. apply filter_In. split; assumption.
  - intros Hexu o Hin. rewrite Ho in Hin. apply filter_In in Hin.
    destruct Hin as [_ Hown]. rewrite owned_by_deleted, Hexu, andb_true_r in Hown.
    apply negb_true_iff in Hown. apply Z.eqb_neq. exact Hown.
Qed.

(** X11, witness: user 1 has an order with a line item and a referral. *)
Lemma delete_user_by_id_keeps_foreign_keys_witness :
  let db :=
    {| users := [User.Build 1 "A" None "en" None 4 4;
                 User.Build 2 "B" None "en" (Some 1) 5 5];
       orders := [Order.Build 1 1 6 6; Order.Build 2 2 6 6];
       products := [Product.Build 1 "p1" None 10000 7 7];
       orderproductss := [OrderProducts.Build 1 1 3; OrderProducts.Build 2 1 4];
       orders_order_id_seq := 2;
       products_product_id_seq := 1 |} in
  exists db' : DB,
    with_session_pool (Repo05.delete_user_by_id 1) db = (db', Ok tt) /\
    users_fk db' /\ orders_fk db' /\ orderproductss_order_fk db'.
Proof.
  intro db.
  destruct (delete_user_by_id_keeps_foreign_keys db 1)
    as [db' [Hrun [Hu [Ho [Hop _]]]]].
  exists db'. split; [exact Hrun|]. split; [|split].
  - apply Hu. intros u r [<- | [<- | []]] Hr; inversion Hr. reflexivity.
  - apply Ho. intros o [<- | [<- | []]]; reflexivity.
  - apply Hop. intros op [<- | [<- | []]]; reflexivity.
Defined.

(** X12: [cleanup_users] never raises and leaves no user; the products
    stay; when every order belonged to a user, no order is left, and when
    moreover every line item belonged to an order, no line item is
    left. *)
Theorem cleanup_users_empties_users :
  forall db : DB,
    exists db' : DB,
      with_session_pool Repo05.cleanup_users db = (db', Ok tt) /\
      users db' = [] /\
      products db' = products db /\
      (orders_fk db -> orders db' = []) /\
      (orders_fk db -> orderproductss_order_fk db -> orderproductss db' = []).
Proof.
  intro db. eexists. unfold Repo05.cleanup_users.
  rewrite with_session_pool_execute_commit_unit.
  unfold atomically, delete_users_where, delete_orders_where. simpl.
  split; [reflexivity|]. simpl.
  assert (Hall : filter (fun _ : User.t => true) (users db) = users db).
  { apply filter_all. reflexivity. }
  assert (Hnone : filter (fun _ : User.t => false) (users db) = []).
  { apply filter_none. reflexivity. }
  rewrite Hall, Hnone. simpl.
  assert (Hown : orders_fk db -> forall o, In o (orders db) ->
                 owned_by (map User.telegram_id (users db)) o = true).
  { intros Hfk o Hin. unfold owned_by. apply mem_true_iff.
    apply (existsb_key_In User.telegram_id). exact (Hfk o Hin). }
  split; [reflexivity|]. split; [reflexivity|]. split.
  - intro Hfk. apply filter_none. intros o Hin.
    rewrite (Hown Hfk o Hin). reflexivity.
  - intros Hfk Hfk2. apply filter_none. intros op Hin.
    apply negb_false_iff. unfold refers_to_order. apply mem_true_iff.
    rewrite (filter_all _ _ (Hown Hfk)).
    apply (existsb_key_In Order.order_id). exact (Hfk2 op Hin).
Qed.

(** X12, witness. *)
Lemma cleanup_users_empties_users_witness :
  let db :=
    {| users := [User.Build 1 "A" None "en" None 4 4;
                 User.Build 2 "B" None "en" (Some 1) 5 5];
       orders := [Order.Build 1 1 6 6; Order.Build 2 2 6 6];
       products := [Product.Build 1 "p1" None 10000 7 7];
       orderproductss := [OrderProducts.Build 1 1 3; OrderProducts.Build 2 1 4];
       orders_order_id_seq := 2;
       products_product_id_seq := 1 |} in
  exists db' : DB,
    with_session_pool Repo05.cleanup_users db = (db', Ok tt) /\
    users db' = [] /\ orders db' = [] /\ orderproductss db' = [] /\
    products db' = products db.
Proof.
  intro db.
  destruct (cleanup_users_empties_users db) as [db' [Hrun [Hu [Hp [Ho Hop]]]]].
  assert (Hfk : orders_fk db).
  { intros o [<- | [<- | []]]; reflexivity. }
  assert (Hfk2 : orderproductss_order_fk db).
  { intros op [<- | [<- | []]]; reflexivity. }
  exists db'. repeat split; auto.
Defined.

(* ===================================================================== *)
(** ** Orders: creation and counting *)
(* ===================================================================== *)

Lemma order_absent_past_sequence (db : DB) (k : Z) :
  orders_seq_ahead db -> orders_order_id_seq db < k ->
  order_exists k (orders db) = false.
Proof.
  intros Hseq Hlt. apply not_true_iff_false. intro T.
  unfold order_exists in T. apply existsb_exists in T.
  destruct T as [o [Hin E]]. apply Z.eqb_eq in E.
  pose proof (Hseq o Hin). lia.
Qed.

(** X13: [create_new_order_for_user], when the sequence is at or past
    every order id: for an existing user it returns the next value of the
    sequence as the id of the order it appends, and the sequence stays
    ahead; for an unknown user it raises a foreign-key violation, no row
    changes, and the value of the sequence is used up all the same. *)
Theorem create_new_order_for_user_next_id :
  forall (db : DB) (now : timestamp) (user_id : Z),
    BIGINT user_id = Ok user_id ->
    INTEGER (orders_order_id_seq db + 1) = Ok (orders_order_id_seq db + 1) ->
    orders_seq_ahead db ->
    exists db' : DB,
      orders_order_id_seq db' = orders_order_id_seq db + 1 /\
      users db' = users db /\ products db' = products db /\
      orderproductss db' = orderproductss db /\
      (user_exists user_id (users db) = true ->
       with_session_pool (Repo05.create_new_order_for_user now user_id) db
         = (db', Ok (Some (orders_order_id_seq db + 1))) /\
       orders db' = orders db ++
                    [Order.Build (orders_order_id_seq db + 1) user_id now now] /\
       orders_seq_ahead db') /\
      (user_exists user_id (users db) = false ->
       with_session_pool (Repo05.create_new_order_for_user now user_id) db
         = (db', Raise ForeignKeyViolation) /\
       orders db' = orders db).
Proof.
  intros db now uid Hb Hi Hseq.
  pose proof (order_absent_past_sequence db (orders_order_id_seq db + 1) Hseq
                ltac:(lia)) as Hfresh.
  unfold Repo05.create_new_order_for_user.
  rewrite with_session_pool_execute_commit.
  unfold insert_orders, atomically, int_pk. rewrite Hi, Hb. simpl.
  rewrite Hfresh.
  destruct (user_exists uid (users db)) eqn:Hex; simpl.
  - exists (set_orders
              (orders db ++
               [Order.Build (orders_order_id_seq db + 1) uid now now])
              (set_orders_order_id_seq (orders_order_id_seq db + 1) db)).
    simpl. do 4 (split; [reflexivity|]). split; [|intro; discriminate].
    intros _. split; [reflexivity|]. split; [reflexivity|].
    intros o Hin. simpl in *. apply in_app_or in Hin.
    destruct Hin as [Hin | [<- | []]]; simpl.
    + pose proof (Hseq o Hin). lia.
    + lia.
  - exists (set_orders_order_id_seq (orders_order_id_seq db + 1) db).
    simpl. do 4 (split; [reflexivity|]). split; [intro; discriminate|].
    intros _. split; reflexivity.
Qed.

(** X13, witness: user 2 exists, the sequence is at 1. *)
Lemma create_new_order_for_user_next_id_witness :
  let db :=
    {| users := [User.Build 2 "B" None "en" None 5 5];
       orders := [Order.Build 1 2 6 6];
       products := []; orderproductss := [];
       orders_order_id_seq := 1; products_product_id_seq := 0 |} in
  (exists db', with_session_pool (Repo05.create_new_order_for_user 9 2) db
               = (db', Ok (Some 2)) /\
               orders db' = [Order.Build 1 2 6 6; Order.Build 2 2 9 9]) /\
  (exists db', with_session_pool (Repo05.create_new_order_for_user 9 7) db
               = (db', Raise ForeignKeyViolation) /\
               orders db' = orders db /\ orders_order_id_seq db' = 2).
Proof.
  intro db.
  assert (Hseq : orders_seq_ahead db).
  { intros o [<- | []]. simpl. lia. }
  split.
  - destruct (create_new_order_for_user_next_id db 9 2 eq_refl eq_refl Hseq)
      as [db' [_ [_ [_ [_ [Hok _]]]]]].
    destruct (Hok eq_refl) as [Hrun [Hos _]].
    exists db'. split; [exact Hrun | exact Hos].
  - destruct (create_new_order_for_user_next_id db 9 7 eq_refl eq_refl Hseq)
      as [db' [Hs [_ [_ [_ [_ Hraise]]]]]].
    destruct (Hraise eq_refl) as [Hrun Hos].
    exists db'. split; [exact Hrun|]. split; [exact Hos | exact Hs].
Defined.

(** X14: after a successful [add_order] for a user,
    [get_user_total_number_of_orders] of that user is one more than
    before, and that of every other user is as before. *)
Theorem add_order_counts_one_more :
  forall (db db1 : DB) (now : timestamp) (user_id : Z) (o : option Order.t),
    with_session_pool (Repo04.add_order now user_id) db = (db1, Ok o) ->
    forall telegram_id : Z,
      exists n : Z,
        with_session_pool (Repo04.get_user_total_number_of_orders telegram_id) db
          = (db, Ok n) /\
        with_session_pool (Repo04.get_user_total_number_of_orders telegram_id) db1
          = (db1, Ok (if telegram_id =? user_id then n + 1 else n)).
Proof.
  intros db db1 now uid o H tid.
  unfold Repo04.get_user_total_number_of_orders.
  rewrite !with_session_pool_query. eexists. split; [reflexivity|].
  f_equal. f_equal.
  unfold Repo04.add_order in H. rewrite with_session_pool_execute_commit in H.
  unfold insert_orders, atomically in H.
  destruct (int_pk (orders_order_id_seq db + 1)) as [oid|]; simpl in H;
    [|inversion H].
  destruct (BIGINT uid) as [uid'|] eqn:Hb; simpl in H; [|inversion H].
  pose proof (BIGINT_Ok _ _ Hb) as ->.
  destruct (order_exists oid (orders db)); simpl in H; [inversion H|].
  destruct (user_exists uid (users db)); inversion H; subst; clear H.
  unfold select_count_orders_where_user_id. simpl.
  rewrite filter_app, length_app. simpl.
  rewrite (Z.eqb_sym tid uid).
  destruct (uid =? tid); simpl; lia.
Qed.

(** X14, witness. *)
Lemma add_order_counts_one_more_witness :
  let db :=
    {| users := [User.Build 2 "B" None "en" None 5 5];
       orders := [Order.Build 1 2 6 6];
       products := []; orderproductss := [];
       orders_order_id_seq := 1; products_product_id_seq := 0 |} in
  exists n : Z,
    with_session_pool (Repo04.get_user_total_number_of_orders 2) db = (db, Ok n) /\
    with_session_pool (Repo04.get_user_total_number_of_orders 2)
      (fst (with_session_pool (Repo04.add_order 9 2) db))
    = (fst (with_session_pool (Repo04.add_order 9 2) db), Ok (n + 1)).
Proof.
  intro db.
  apply (add_order_counts_one_more db _ 9 2 _ eq_refl 2).
Defined.

(* ===================================================================== *)
(** ** Joins against a primary key *)
(* ===================================================================== *)

Lemma filter_key_exists_unique {A} (key : A -> Z) (k : Z) (l : list A) :
  NoDup (map key l) -> existsb (fun a => key a =? k) l = true ->
  exists a, In a l /\ key a = k /\ filter (fun b => key b =? k) l = [a].
Proof.
  intros ND Hex. apply existsb_exists in Hex. destruct Hex as [a [Hin E]].
  apply Z.eqb_eq in E. exists a. split; [exact Hin|]. split; [exact E|].
  rewrite <- E. apply filter_key_unique; assumption.
Qed.

Lemma in_orders_users (db : DB) (o : Order.t) (u : User.t) :
  In (o, u) (orders_users db) <->
  In o (orders db) /\ In u (users db) /\ User.telegram_id u = Order.user_id o.
Proof.
  unfold orders_users. rewrite in_join, Z.eqb_eq. tauto.
Qed.

(** Under the primary key of users, the joined rows of a user are as many
    as the user's orders. *)
Lemma orders_users_count (db : DB) (k : Z) :
  users_pk db -> user_exists k (users db) = true ->
  List.length (filter (fun r => User.telegram_id (snd r) =? k) (orders_users db))
  = List.length (filter (fun o => Order.user_id o =? k) (orders db)).
Proof.
  intros Hpk Hex. unfold orders_users, join.
  induction (orders db) as [|o os IH]; simpl; [reflexivity|].
  rewrite filter_app, length_app, IH.
  destruct (Z.eqb_spec (Order.user_id o) k) as [E|E]; simpl.
  - destruct (filter_key_exists_unique User.telegram_id k (users db) Hpk Hex)
      as [u [_ [Hid Hf]]].
    rewrite E, Hf. simpl. rewrite Hid, Z.eqb_refl. reflexivity.
  - rewrite (filter_none (fun r : Order.t * User.t => User.telegram_id (snd r) =? k)).
    + reflexivity.
    + intros [o' u] Hin. apply in_map_iff in Hin.
      destruct Hin as [v [Hv Hin]]. inversion Hv; subst.
      apply filter_In in Hin. destruct Hin as [_ Hon].
      apply Z.eqb_eq in Hon. simpl. apply Z.eqb_neq. congruence.
Qed.

(** X15: under the primary key of users,
    [get_total_number_of_orders_by_user] returns, for each user with at
    least one order, the count [get_user_total_number_of_orders] returns
    for that user, and nothing for the others. *)
Theorem get_total_number_of_orders_by_user_agrees :
  forall db : DB,
    users_pk db ->
    exists rows : list (Z * Z),
      with_session_pool Repo04.get_total_number_of_orders_by_user db
        = (db, Ok rows) /\
      (forall c telegram_id,
         In (c, telegram_id) rows ->
         0 < c /\ user_exists telegram_id (users db) = true /\
         with_session_pool
           (Repo04.get_user_total_number_of_orders telegram_id) db = (db, Ok c)) /\
      (forall u c,
         In u (users db) -> 0 < c ->
         with_session_pool
           (Repo04.get_user_total_number_of_orders (User.telegram_id u)) db
           = (db, Ok c) ->
         In (c, User.telegram_id u) rows).
Proof.
  intros db Hpk. eexists.
  unfold Repo04.get_total_number_of_orders_by_user,
         Repo04.get_user_total_number_of_orders.
  rewrite with_session_pool_query. split; [reflexivity|].
  unfold select_total_number_of_orders_by_user, group_by. split.
  - intros c tid Hin. rewrite with_session_pool_query.
    apply in_flat_map in Hin. destruct Hin as [g [Hg Hrow]].
    apply in_map_iff in Hg. destruct Hg as [k [Hg _]].
    destruct g as [|r0 g]; [destruct Hrow|].
    destruct Hrow as [Hrow | []]. inversion Hrow; subst c tid; clear Hrow.
    assert (Hin0 : In r0 (r0 :: g)) by (left; reflexivity).
    rewrite <- Hg in Hin0. apply filter_In in Hin0.
    destruct Hin0 as [Hr0 Hk0]. apply Z.eqb_eq in Hk0.
    destruct r0 as [o u]. apply in_orders_users in Hr0.
    destruct Hr0 as [_ [Hu _]]. simpl in Hk0.
    assert (Hex : user_exists k (users db) = true).
    { rewrite <- Hk0. apply user_exists_In. exact Hu. }
    split; [simpl List.length; lia|]. simpl snd. rewrite Hk0.
    split; [exact Hex|].
    assert (Hlen : List.length ((o, u) :: g)
                   = List.length (filter (fun o => Order.user_id o =? k) (orders db))).
    { rewrite <- Hg. apply orders_users_count; assumption. }
    unfold select_count_orders_where_user_id. rewrite <- Hlen. reflexivity.
  - intros u c Hu Hpos Hrun. rewrite with_session_pool_query in Hrun.
    inversion Hrun as [Hc]; clear Hrun.
    unfold select_count_orders_where_user_id in Hc.
    pose proof (user_exists_In u (users db) Hu) as Hex.
    rewrite <- (orders_users_count db (User.telegram_id u) Hpk Hex) in Hc.
    apply in_flat_map.
    exists (filter (fun r => User.telegram_id (snd r) =? User.telegram_id u)
              (orders_users db)).
    destruct (filter (fun r => User.telegram_id (snd r) =? User.telegram_id u)
                (orders_users db)) as [|r0 g] eqn:Eg.
    + simpl in Hc. lia.
    + assert (Hin0 : In r0 (r0 :: g)) by (left; reflexivity).
      rewrite <- Eg in Hin0. apply filter_In in Hin0.
      destruct Hin0 as [Hr0 Hk0]. apply Z.eqb_eq in Hk0.
      split.
      * apply in_map_iff. exists (User.telegram_id u). split; [exact Eg|].
        apply nodup_In. apply in_map_iff. exists r0. split; assumption.
      * left. rewrite Hk0. f_equal.
        unfold select_count_orders_where_user_id.
        rewrite <- (orders_users_count db _ Hpk Hex), Eg. reflexivity.
Qed.

(** X15, witness: user 2 has two orders, user 1 has none. *)
Lemma get_total_number_of_orders_by_user_agrees_witness :
  let db :=
    {| users := [User.Build 1 "A" None "en" None 4 4;
                 User.Build 2 "B" None "en" None 5 5];
       orders := [Order.Build 1 2 6 6; Order.Build 2 2 7 7];
       products := []; orderproductss := [];
       orders_order_id_seq := 2; products_product_id_seq := 0 |} in
  exists rows : list (Z * Z),
    with_session_pool Repo04.get_total_number_of_orders_by_user db
      = (db, Ok rows) /\
    In (2, 2) rows /\ ~ In (0, 1) rows.
Proof.
  intro db.
  assert (Hpk : users_pk db).
  { repeat constructor; simpl; intuition discriminate. }
  destruct (get_total_number_of_orders_by_user_agrees db Hpk)
    as [rows [Hrun [Hfwd Hbwd]]].
  exists rows. split; [exact Hrun|]. split.
  - apply (Hbwd (User.Build 2 "B" None "en" None 5 5) 2).
    + right; left; reflexivity.
    + lia.
    + reflexivity.
  - intro Hin. destruct (Hfwd 0 1 Hin) as [Hpos _]. lia.
Defined.

(** X16: [get_all_user_orders_user_only_user_name] returns the rows of
    [get_all_user_orders_user_full] with the user replaced by its
    [user_name]; every row pairs an order of the user with the user; for
    an unknown id the result is empty, and under the primary key of users
    the orders returned for an existing user are exactly that user's
    orders, in table order. *)
Theorem get_all_user_orders_user_full_rows :
  forall (db : DB) (telegram_id : Z),
    exists (full : list (Order.t * User.t))
           (only_name : list (Order.t * option string)),
      with_session_pool (Repo04.get_all_user_orders_user_full telegram_id) db
        = (db, Ok full) /\
      with_session_pool
        (Repo04.get_all_user_orders_user_only_user_name telegram_id) db
        = (db, Ok only_name) /\
      only_name = map (fun r => (fst r, User.user_name (snd r))) full /\
      (forall o u, In (o, u) full ->
         In o (orders db) /\ In u (users db) /\
         Order.user_id o = telegram_id /\ User.telegram_id u = telegram_id) /\
      (user_exists telegram_id (users db) = false -> full = []) /\
      (users_pk db -> user_exists telegram_id (users db) = true ->
       map fst full
       = filter (fun o => Order.user_id o =? telegram_id) (orders db)).
Proof.
  intros db tid. eexists. eexists.
  unfold Repo04.get_all_user_orders_user_full,
         Repo04.get_all_user_orders_user_only_user_name.
  rewrite !with_session_pool_query. split; [reflexivity|]. split; [reflexivity|].
  unfold select_user_orders_user_full, select_user_orders_user_only_user_name.
  split; [rewrite map_map; reflexivity|].
  split; [|split].
  - intros o u Hin. apply in_map_iff in Hin. destruct Hin as [[u' o'] [E Hin]].
    simpl in E. inversion E; subst o' u'; clear E.
    apply filter_In in Hin. destruct Hin as [Hin Hw].
    apply in_join in Hin. destruct Hin as [Hu [Ho Hon]].
    simpl in Hw. apply Z.eqb_eq in Hw, Hon. repeat split; congruence.
  - intro Habs. rewrite filter_none; [reflexivity|].
    intros [u o] Hin. apply in_join in Hin. destruct Hin as [Hu _]. simpl.
    apply not_true_iff_false. intro T. apply Z.eqb_eq in T.
    pose proof (user_exists_In u (users db) Hu) as Hex. congruence.
  - intros Hpk Hex. unfold users_pk in Hpk. unfold user_exists in Hex.
    unfold join.
    induction (users db) as [|v vs IH]; simpl in *; [discriminate|].
    inversion Hpk as [|? ? Hnotin Hpk']; subst.
    rewrite filter_app, map_app, map_app.
    destruct (Z.eqb_spec (User.telegram_id v) tid) as [E|E].
    + rewrite (filter_all (fun r : User.t * Order.t => User.telegram_id (fst r) =? tid)).
      2:{ intros [u o] Hin. apply in_map_iff in Hin.
          destruct Hin as [o' [Eo _]]. inversion Eo; subst u o. simpl.
          apply Z.eqb_eq. exact E. }
      rewrite (filter_none (fun r : User.t * Order.t => User.telegram_id (fst r) =? tid)
                 (flat_map _ vs)).
      2:{ intros [u o] Hin. apply in_flat_map in Hin.
          destruct Hin as [u' [Hu' Hin]]. apply in_map_iff in Hin.
          destruct Hin as [o' [Eo _]]. inversion Eo; subst u o. simpl.
          apply Z.eqb_neq. intro Eu. apply Hnotin. rewrite E, <- Eu.
          apply in_map. exact Hu'. }
      simpl. rewrite app_nil_r, !map_map. simpl. rewrite map_id.
      apply filter_ext. intro o. rewrite E. apply Z.eqb_sym.
    + rewrite (filter_none (fun r : User.t * Order.t => User.telegram_id (fst r) =? tid)
                 (map _ _)).
      2:{ intros [u o] Hin. apply in_map_iff in Hin.
          destruct Hin as [o' [Eo _]]. inversion Eo; subst u o. simpl.
          apply Z.eqb_neq. exact E. }
      simpl. apply IH; assumption.
Qed.

(** X16, witness. *)
Lemma get_all_user_orders_user_full_rows_witness :
  let db :=
    {| users := [User.Build 1 "A" None "en" None 4 4;
                 User.Build 2 "B" (Some "b") "en" None 5 5];
       orders := [Order.Build 1 2 6 6; Order.Build 2 1 6 6; Order.Build 3 2 7 7];
       products := []; orderproductss := [];
       orders_order_id_seq := 3; products_product_id_seq := 0 |} in
  exists full : list (Order.t * User.t),
    with_session_pool (Repo04.get_all_user_orders_user_full 2) db = (db, Ok full) /\
    map fst full = [Order.Build 1 2 6 6; Order.Build 3 2 7 7].
Proof.
  intro db.
  destruct (get_all_user_orders_user_full_rows db 2)
    as [full [names [Hrun [_ [_ [_ [_ Hpk]]]]]]].
  exists full. split; [exact Hrun|]. apply Hpk.
  - repeat constructor; simpl; intuition discriminate.
  - reflexivity.
Defined.

(* ===================================================================== *)
(** ** The invited users *)
(* ===================================================================== *)

Lemma length_flat_map_guard {A B} (c : A -> bool) (g : A -> B) (l : list A) :
  List.length (flat_map (fun a => if c a then [g a] else []) l)
  = List.length (filter c l).
Proof.
  induction l as [|a l IH]; simpl; [reflexivity|].
  destruct (c a); simpl; rewrite IH; reflexivity.
Qed.

Lemma length_flat_map_indicator {A B} (f : A -> list B) (p : A -> bool) (l : list A) :
  (forall a, In a l -> List.length (f a) = if p a then 1%nat else 0%nat) ->
  List.length (flat_map f l) = List.length (filter p l).
Proof.
  induction l as [|a l IH]; simpl; intro H; [reflexivity|].
  rewrite length_app, (H a (or_introl eq_refl)), IH.
  - destruct (p a); reflexivity.
  - intros b Hb. apply H. right. exact Hb.
Qed.

Lemma flat_map_singleton {A} (l : list A) : flat_map (fun x => [x]) l = l.
Proof. induction l as [|x l IH]; simpl; congruence. Qed.

(** X17: [select_all_invited_users] returns a pair of names exactly for a
    user and a user it referred; when the primary key of users holds and
    every referrer link resolves, it returns one row per user with a
    referrer. *)
Theorem select_all_invited_users_rows :
  forall db : DB,
    exists rows : list (string * string),
      with_session_pool Repo04.select_all_invited_users db = (db, Ok rows) /\
      (forall parent_name referral_name,
         In (parent_name, referral_name) rows <->
         exists parent referral,
           In parent (users db) /\ In referral (users db) /\
           User.referrer_id referral = Some (User.telegram_id parent) /\
           parent_name = User.full_name parent /\
           referral_name = User.full_name referral) /\
      (users_pk db -> users_fk db ->
       List.length rows
       = List.length
           (filter (fun u => match User.referrer_id u with
                             | Some _ => true
                             | None => false
                             end) (users db))).
Proof.
  intro db. eexists. unfold Repo04.select_all_invited_users.
  rewrite with_session_pool_query. split; [reflexivity|].
  unfold select_invited_users. split.
  - intros pn rn. rewrite in_map_iff. split.
    + intros [[p r] [E Hin]]. simpl in E. inversion E; subst pn rn; clear E.
      apply in_join in Hin. destruct Hin as [Hp [Hr Hon]].
      exists p, r. repeat split; try assumption.
      destruct (User.referrer_id r) as [x|]; [|discriminate].
      apply Z.eqb_eq in Hon. congruence.
    + intros [p [r [Hp [Hr [Href [-> ->]]]]]]. exists (p, r).
      split; [reflexivity|]. apply in_join. repeat split; try assumption.
      rewrite Href. apply Z.eqb_refl.
  - intros Hpk Hfk. rewrite length_map.
    rewrite <- (flat_map_singleton
                  (join (users db) (users db)
                     (fun parent referral =>
                        match User.referrer_id referral with
                        | Some x => x =? User.telegram_id parent
                        | None => false
                        end))).
    rewrite flat_map_join.
    rewrite (Permutation_length
               (Permutation_flat_map_swap
                  (fun (a b : User.t) =>
                     if match User.referrer_id b with
                        | Some x => x =? User.telegram_id a
                        | None => false
                        end
                     then [(a, b)] else [])
                  (users db) (users db))).
    apply length_flat_map_indicator. intros r Hr.
    destruct (User.referrer_id r) as [x|] eqn:Href.
    + rewrite length_flat_map_guard.
      pose proof (Hfk r x Hr Href) as Hex.
      destruct (filter_key_exists_unique User.telegram_id x (users db) Hpk Hex)
        as [p [_ [_ Hf]]].
      rewrite (filter_ext _ (fun b => User.telegram_id b =? x)).
      * rewrite Hf. reflexivity.
      * intro a. apply Z.eqb_sym.
    + rewrite flat_map_nil_fun. reflexivity.
Qed.

(** X17, witness: user 1 referred users 2 and 3. *)
Lemma select_all_invited_users_rows_witness :
  let db := set_users [User.Build 1 "A" None "en" None 4 4;
                       User.Build 2 "B" None "en" (Some 1) 5 5;
                       User.Build 3 "C" None "en" (Some 1) 6 6] empty_db in
  exists rows : list (string * string),
    with_session_pool Repo04.select_all_invited_users db = (db, Ok rows) /\
    List.length rows = 2%nat.
Proof.
  intro db.
  destruct (select_all_invited_users_rows db) as [rows [Hrun [_ Hlen]]].
  exists rows. split; [exact Hrun|]. apply Hlen.
  - repeat constructor; simpl; intuition discriminate.
  - intros u r [<- | [<- | [<- | []]]] Hr; inversion Hr; reflexivity.
Defined.

(* ===================================================================== *)
(** ** The per-user sums account for every line item *)
(* ===================================================================== *)

Lemma join_unique_match {A B} (l : list A) (r : list B) (on : A -> B -> bool) :
  (forall a, In a l -> exists b, filter (on a) r = [b]) ->
  map fst (join l r on) = l.
Proof.
  unfold join. induction l as [|a l IH]; simpl; intro H; [reflexivity|].
  rewrite map_app, IH by (intros b Hb; apply H; right; exact Hb).
  destruct (H a (or_introl eq_refl)) as [b Hb]. rewrite Hb. reflexivity.
Qed.

Lemma sum_Z_app (l1 l2 : list Z) : sum_Z (l1 ++ l2) = sum_Z l1 + sum_Z l2.
Proof. induction l1 as [|x l1 IH]; simpl; [reflexivity | rewrite IH; lia]. Qed.

Lemma sum_Z_zero {A} (K : list A) : sum_Z (map (fun _ => 0) K) = 0.
Proof. induction K as [|k K IH]; simpl; [reflexivity | exact IH]. Qed.

Lemma sum_Z_map_add {A} (f g : A -> Z) (L : list A) :
  sum_Z (map (fun k => f k + g k) L) = sum_Z (map f L) + sum_Z (map g L).
Proof.
  induction L as [|k L IH]; simpl; [reflexivity|].
  unfold sum_Z in *. rewrite IH. lia.
Qed.

Lemma sum_indicator (x v : Z) (K : list Z) :
  NoDup K -> In x K ->
  sum_Z (map (fun k => if x =? k then v else 0) K) = v.
Proof.
  induction K as [|k K IH]; simpl; intros ND Hin; [contradiction|].
  inversion ND as [|? ? Hnotin ND']; subst.
  destruct (Z.eqb_spec x k) as [E|E].
  - subst k. rewrite (map_ext_in _ (fun _ => 0)).
    + fold (sum_Z (map (fun _ : Z => 0) K)). rewrite sum_Z_zero. lia.
    + intros k Hk. destruct (Z.eqb_spec x k); [subst; contradiction | reflexivity].
  - destruct Hin as [Hin|Hin]; [congruence|].
    fold (sum_Z (map (fun k0 => if x =? k0 then v else 0) K)).
    rewrite IH by assumption. lia.
Qed.

(** Grouping by a key splits a sum: the sums of the groups add up to the
    sum of all rows. *)
Lemma sum_of_groups (rows : list line_row) (key : line_row -> Z) (K : list Z) :
  NoDup K -> (forall r, In r rows -> In (key r) K) ->
  sum_Z (map (fun k => sum_quantity (filter (fun r => key r =? k) rows)) K)
  = sum_quantity rows.
Proof.
  intros ND. induction rows as [|r rows IH]; intro Hall.
  - simpl. apply sum_Z_zero.
  - assert (E : map (fun k => sum_quantity (filter (fun r0 => key r0 =? k) (r :: rows))) K
              = map (fun k => (if key r =? k then line_quantity r else 0)
                              + sum_quantity (filter (fun r0 => key r0 =? k) rows)) K).
    { apply map_ext. intro k. simpl. destruct (key r =? k); reflexivity. }
    rewrite E.
    rewrite sum_Z_map_add, IH by (intros r0 H0; apply Hall; right; exact H0).
    rewrite sum_indicator; [reflexivity | exact ND |].
    apply Hall. left. reflexivity.
Qed.

Lemma sum_fst_quantity_name (g : list line_row) :
  sum_Z (map fst (quantity_name g)) = sum_quantity g.
Proof.
  destruct g as [|r g]; simpl; [reflexivity|]. lia.
Qed.

Lemma sum_grouped (rows : list line_row) :
  sum_Z (map fst
           (flat_map quantity_name
              (group_by (fun r => User.telegram_id (line_user r)) rows)))
  = sum_quantity rows.
Proof.
  unfold group_by.
  rewrite <- (sum_of_groups rows (fun r => User.telegram_id (line_user r))
                (nodup Z.eq_dec
                   (map (fun r => User.telegram_id (line_user r)) rows))).
  - induction (nodup Z.eq_dec _) as [|k K IHK]; simpl; [reflexivity|].
    rewrite map_app, sum_Z_app, IHK, sum_fst_quantity_name. reflexivity.
  - apply NoDup_nodup.
  - intros r Hr. apply nodup_In.
    apply (in_map (fun r => User.telegram_id (line_user r))). exact Hr.
Qed.

(** X18: when the primary keys of orders and users hold and every line
    item's order and every order's user exist,
    [get_count_of_products_by_user] accounts for every line item exactly
    once: the sums it returns add up to the total quantity of all line
    items. *)
Theorem get_count_of_products_by_user_total :
  forall db : DB,
    users_pk db -> orders_pk db -> orders_fk db -> orderproductss_order_fk db ->
    exists rows : list (Z * string),
      with_session_pool Repo04.get_count_of_products_by_user db = (db, Ok rows) /\
      sum_Z (map fst rows)
      = sum_Z (map OrderProducts.quantity (orderproductss db)).
Proof.
  intros db Hupk Hopk Hofk Hopfk. eexists.
  unfold Repo04.get_count_of_products_by_user.
  rewrite with_session_pool_query. split; [reflexivity|].
  unfold select_count_of_products_by_user. rewrite sum_grouped.
  unfold sum_quantity, line_quantity. fold (sum_Z (map (fun r : line_row =>
    OrderProducts.quantity (fst (fst r))) (orderproductss_orders_users db))).
  f_equal.
  rewrite <- (map_map (fun r : line_row => fst (fst r)) OrderProducts.quantity).
  f_equal. unfold orderproductss_orders_users.
  rewrite <- map_map.
  transitivity
    (map fst (join (orderproductss db) (orders db)
                (fun op o => Order.order_id o =? OrderProducts.order_id op))).
  2:{ apply join_unique_match. intros op Hop.
      destruct (filter_key_exists_unique Order.order_id
                  (OrderProducts.order_id op) (orders db) Hopk (Hopfk op Hop))
        as [o [_ [_ Hf]]].
      exists o. exact Hf. }
  f_equal. apply join_unique_match.
  - intros [op o] Hin. apply in_join in Hin. destruct Hin as [_ [Ho _]].
    destruct (filter_key_exists_unique User.telegram_id
                (Order.user_id o) (users db) Hupk (Hofk o Ho))
      as [u [_ [_ Hf]]].
    exists u. exact Hf.
Qed.

(** X18, witness: two users, three line items of 3, 4 and 5. *)
Lemma get_count_of_products_by_user_total_witness :
  let db :=
    {| users := [User.Build 1 "A" None "en" None 4 4;
                 User.Build 2 "B" None "en" None 5 5];
       orders := [Order.Build 1 2 6 6; Order.Build 2 1 6 6];
       products := [Product.Build 1 "p1" None 10000 7 7;
                    Product.Build 2 "p2" None 25000 7 7];
       orderproductss := [OrderProducts.Build 1 1 3; OrderProducts.Build 1 2 4;
                          OrderProducts.Build 2 1 5];
       orders_order_id_seq := 2;
       products_product_id_seq := 2 |} in
  exists rows : list (Z * string),
    with_session_pool Repo04.get_count_of_products_by_user db = (db, Ok rows) /\
    sum_Z (map fst rows) = 12.
Proof.
  intro db. apply (get_count_of_products_by_user_total db).
  - repeat constructor; simpl; intuition discriminate.
  - repeat constructor; simpl; intuition discriminate.
  - intros o [<- | [<- | []]]; reflexivity.
  - intros op [<- | [<- | [<- | []]]]; reflexivity.
Defined.

(* ===================================================================== *)
(** ** Bulk insert of line items *)
(* ===================================================================== *)

Lemma INTEGER_Ok (z z' : Z) : INTEGER z = Ok z' -> z' = z.
Proof.
  unfold INTEGER. destruct (_ && _)%bool; intro H; inversion H; reflexivity.
Qed.

(** One INSERT into orderproductss: it appends the line item when the pair
    is new and the order and the product exist, and otherwise raises and
    changes nothing. *)
Lemma insert_orderproductss_effect (oid pid q : Z) (db : DB) :
  match insert_orderproductss oid pid q db with
  | (db', Ok _) =>
      db' = set_orderproductss
              (orderproductss db ++ [OrderProducts.Build oid pid q]) db /\
      orderproducts_exists oid pid (orderproductss db) = false /\
      order_exists oid (orders db) = true /\
      product_exists pid (products db) = true
  | (db', Raise _) => db' = db
  end.
Proof.
  unfold insert_orderproductss, atomically.
  destruct (INTEGER oid) as [oid'|] eqn:Eo; simpl; [|reflexivity].
  destruct (INTEGER pid) as [pid'|] eqn:Ep; simpl; [|reflexivity].
  destruct (INTEGER q) as [q'|] eqn:Eq; simpl; [|reflexivity].
  apply INTEGER_Ok in Eo, Ep, Eq. subst.
  destruct (orderproducts_exists oid pid (orderproductss db)); [reflexivity|].
  destruct (order_exists oid (orders db)); simpl; [|reflexivity].
  destruct (product_exists pid (products db)); simpl; [|reflexivity].
  repeat split.
Qed.

Lemma executemany_insert_orderproductss (oid : Z) (ps : list (Z * Z)) :
  forall s : Session,
    match executemany
            (fun p => bind (insert_orderproductss oid (fst p) (snd p))
                        (fun _ => ret (@nil unit))) ps s with
    | (s', Ok _) =>
        connection s' = connection s /\
        transaction s' =
          set_orderproductss
            (orderproductss (transaction s) ++
             map (fun p => OrderProducts.Build oid (fst p) (snd p)) ps)
            (transaction s) /\
        NoDup (map fst ps) /\
        (forall p, In p ps ->
           orderproducts_exists oid (fst p) (orderproductss (transaction s)) = false /\
           product_exists (fst p) (products (transaction s)) = true /\
           order_exists oid (orders (transaction s)) = true)
    | (s', Raise _) =>
        connection s' = connection s /\
        orders_order_id_seq (transaction s') = orders_order_id_seq (transaction s) /\
        products_product_id_seq (transaction s')
          = products_product_id_seq (transaction s)
    end.
Proof.
  induction ps as [|p ps IH]; intro s; simpl.
  - split; [reflexivity|]. split; [|split; [constructor | intros p []]].
    rewrite app_nil_r. destruct (transaction s); reflexivity.
  - unfold bind at 1. unfold execute at 1. unfold bind at 1.
    pose proof (insert_orderproductss_effect oid (fst p) (snd p) (transaction s)) as Hp.
    destruct (insert_orderproductss oid (fst p) (snd p) (transaction s))
      as [db1 [u|e]].
    + destruct Hp as [Hdb1 [Hnew [Hord Hprod]]]. unfold ret at 1.
      specialize (IH {| connection := connection s; transaction := db1 |}).
      unfold bind at 1.
      destruct (executemany _ ps {| connection := connection s; transaction := db1 |})
        as [s2 [rows|e]]; simpl in IH.
      * destruct IH as [Hc [Ht [Hnd Hall]]]. unfold ret. simpl.
        split; [exact Hc|]. subst db1. simpl in *.
        split; [rewrite Ht, <- app_assoc; reflexivity|].
        split.
        -- constructor; [|exact Hnd]. intro Hin.
           apply in_map_iff in Hin. destruct Hin as [p' [Efst Hp']].
           destruct (Hall p' Hp') as [Hnew' _].
           apply not_true_iff_false in Hnew'. apply Hnew'.
           unfold orderproducts_exists. rewrite existsb_app. simpl.
           rewrite Efst, !Z.eqb_refl. simpl. apply orb_true_r.
        -- intros p' [<- | Hp']; [auto|].
           destruct (Hall p' Hp') as [Hnew' [Hprod' Hord']].
           repeat split; try assumption.
           unfold orderproducts_exists in *. rewrite existsb_app in Hnew'.
           apply orb_false_iff in Hnew'. tauto.
      * destruct IH as [Hc [Hs1 Hs2]]. subst db1. simpl in *. auto.
    + simpl. subst db1. auto.
Qed.

(** X19: [bulk_insert_products_into_order_id] is all or nothing: either
    it appends one line item per entry of the list, in order, which
    requires the product ids of the list to be pairwise distinct, new to
    the order and those of existing products; or it raises and the
    database is exactly as before. *)
Theorem bulk_insert_products_into_order_id_all_or_nothing :
  forall (db : DB) (order_id : Z) (products_ : list (Z * Z)),
    match with_session_pool
            (Repo05.bulk_insert_products_into_order_id order_id products_) db with
    | (db', Ok _) =>
        db' = set_orderproductss
                (orderproductss db ++
                 map (fun p => OrderProducts.Build order_id (fst p) (snd p))
                   products_) db /\
        NoDup (map fst products_) /\
        (forall p, In p products_ ->
           orderproducts_exists order_id (fst p) (orderproductss db) = false /\
           product_exists (fst p) (products db) = true /\
           order_exists order_id (orders db) = true)
    | (db', Raise _) => db' = db
    end.
Proof.
  intros db oid ps.
  unfold with_session_pool, Repo05.bulk_insert_products_into_order_id.
  unfold bind at 1.
  pose proof (executemany_insert_orderproductss oid ps
                {| connection := db; transaction := db |}) as H.
  destruct (executemany _ ps {| connection := db; transaction := db |})
    as [s [rows|e]]; simpl in H.
  - destruct H as [_ [Ht [Hnd Hall]]]. unfold commit. simpl.
    rewrite close_committed. auto.
  - destruct H as [Hc [Hs1 Hs2]]. unfold close. simpl.
    rewrite Hc, Hs1, Hs2. destruct db; reflexivity.
Qed.

(** A list that names a product twice inserts nothing. *)
Example bulk_insert_products_into_order_id_duplicate :
  let db :=
    {| users := [User.Build 2 "B" None "en" None 5 5];
       orders := [Order.Build 1 2 6 6];
       products := [Product.Build 1 "p1" None 10000 7 7;
                    Product.Build 2 "p2" None 25000 7 7];
       orderproductss := [];
       orders_order_id_seq := 1;
       products_product_id_seq := 2 |} in
  with_session_pool
    (Repo05.bulk_insert_products_into_order_id 1 [(1, 3); (2, 4); (1, 5)]) db
  = (db, Raise UniqueViolation).
Proof. reflexivity. Qed.

(* ===================================================================== *)
(** ** WHERE, GROUP BY, HAVING, ORDER BY, LIMIT *)
(* ===================================================================== *)

Lemma insert_created_at_desc_perm (u : User.t) (l : list User.t) :
  Permutation (insert_created_at_desc u l) (u :: l).
Proof.
  induction l as [|v l IH]; simpl; [constructor; constructor|].
  destruct (User.created_at v <=? User.created_at u); [reflexivity|].
  rewrite IH. apply perm_swap.
Qed.

Lemma order_by_created_at_desc_perm (l : list User.t) :
  Permutation (order_by_created_at_desc l) l.
Proof.
  induction l as [|u l IH]; simpl; [constructor|].
  rewrite insert_created_at_desc_perm. constructor. exact IH.
Qed.

Lemma insert_created_at_desc_sorted (u : User.t) (l : list User.t) :
  StronglySorted not_newer l -> StronglySorted not_newer (insert_created_at_desc u l).
Proof.
  induction l as [|v l IH]; simpl; intro Hs.
  - constructor; constructor.
  - inversion Hs as [|? ? Hs' Hall]; subst.
    destruct (Z.leb_spec (User.created_at v) (User.created_at u)) as [Hle|Hlt].
    + constructor; [exact Hs|]. constructor; [exact Hle|].
      eapply Forall_impl; [|exact Hall].
      intros w Hw. unfold not_newer in *. lia.
    + constructor; [apply IH; exact Hs'|].
      apply (Permutation_Forall (Permutation_sym (insert_created_at_desc_perm u l))).
      constructor; [unfold not_newer; lia | exact Hall].
Qed.

Lemma order_by_created_at_desc_sorted (l : list User.t) :
  StronglySorted not_newer (order_by_created_at_desc l).
Proof.
  induction l as [|u l IH]; simpl; [constructor|].
  apply insert_created_at_desc_sorted. exact IH.
Qed.

Lemma firstn_incl {A} (n : nat) (l : list A) (a : A) :
  In a (firstn n l) -> In a l.
Proof.
  revert l. induction n as [|n IH]; intros [|x l]; simpl; try tauto.
  intros [-> | H]; [left; reflexivity | right; apply IH; exact H].
Qed.

Lemma firstn_sorted {A} (R : A -> A -> Prop) (n : nat) (l : list A) :
  StronglySorted R l -> StronglySorted R (firstn n l).
Proof.
  revert l. induction n as [|n IH]; intros [|x l] Hs; simpl; try constructor.
  - inversion Hs; subst. apply IH. assumption.
  - inversion Hs as [|? ? _ Hall]; subst.
    apply Forall_forall. intros y Hy.
    rewrite Forall_forall in Hall. apply Hall. apply (firstn_incl n). exact Hy.
Qed.

Lemma firstn_NoDup {A} (n : nat) (l : list A) : NoDup l -> NoDup (firstn n l).
Proof.
  revert l. induction n as [|n IH]; intros [|x l] Hnd; simpl; try constructor.
  - inversion Hnd; subst. intro Hin. apply (firstn_incl n) in Hin. contradiction.
  - inversion Hnd; subst. apply IH. assumption.
Qed.

Lemma firstn_short {A} (n : nat) (l : list A) :
  (List.length (firstn n l) < n)%nat -> firstn n l = l.
Proof.
  revert l. induction n as [|n IH]; intros [|x l]; simpl; intro H;
    try reflexivity; try lia.
  f_equal. apply IH. lia.
Qed.

(** GROUP BY on a key and one row per group: the keys of the rows are the
    distinct keys of the table. *)
Lemma group_rows_keys (l : list User.t) (K : list Z) :
  (forall k, In k K -> In k (map User.telegram_id l)) ->
  map User.telegram_id
    (flat_map group_row
       (map (fun k => filter (fun r => User.telegram_id r =? k) l) K)) = K.
Proof.
  induction K as [|k K IH]; simpl; intro H; [reflexivity|].
  rewrite map_app, IH by (intros k' Hk'; apply H; right; exact Hk').
  assert (Hk : In k (map User.telegram_id l)) by (apply H; left; reflexivity).
  apply in_map_iff in Hk. destruct Hk as [u [Hid Hu]].
  destruct (filter (fun r => User.telegram_id r =? k) l) as [|r0 g] eqn:Eg.
  - exfalso.
    assert (Hin : In u (filter (fun r => User.telegram_id r =? k) l)).
    { apply filter_In. split; [exact Hu | now apply Z.eqb_eq]. }
    rewrite Eg in Hin. exact Hin.
  - assert (Hin0 : In r0 (r0 :: g)) by (left; reflexivity).
    rewrite <- Eg in Hin0. apply filter_In in Hin0.
    destruct Hin0 as [_ E]. apply Z.eqb_eq in E. simpl. rewrite E. reflexivity.
Qed.

Lemma group_rows_incl (l : list User.t) (u : User.t) :
  In u (flat_map group_row (group_by User.telegram_id l)) -> In u l.
Proof.
  unfold group_by. intro H. apply in_flat_map in H. destruct H as [g [Hg Hu]].
  apply in_map_iff in Hg. destruct Hg as [k [Hg _]].
  destruct g as [|r0 g]; [destruct Hu|]. destruct Hu as [<- | []].
  assert (Hin0 : In r0 (r0 :: g)) by (left; reflexivity).
  rewrite <- Hg in Hin0. apply filter_In in Hin0. tauto.
Qed.

Lemma NoDup_map_filter_list {A} (key : A -> Z) (p : A -> bool) (l : list A) :
  NoDup (map key l) -> NoDup (map key (filter p l)).
Proof. apply NoDup_map_filter. Qed.

(** X20: [get_all_users_advanced] returns at most ten users; each is a row
    of users that satisfies the WHERE clause and has a positive id; no id
    occurs twice; the rows are ordered by [created_at], newest first; and
    when fewer than ten come back, every qualifying id is among them. *)
Theorem get_all_users_advanced_rows :
  forall db : DB,
    exists rows : list User.t,
      with_session_pool Repo04.get_all_users_advanced db = (db, Ok rows) /\
      (List.length rows <= 10)%nat /\
      (forall u, In u rows ->
         In u (users db) /\ where_en_or_uk_and_john u = true /\
         0 < User.telegram_id u) /\
      NoDup (map User.telegram_id rows) /\
      StronglySorted not_newer rows /\
      ((List.length rows < 10)%nat ->
       forall u, In u (users db) -> where_en_or_uk_and_john u = true ->
                 0 < User.telegram_id u ->
                 In (User.telegram_id u) (map User.telegram_id rows)).
Proof.
  intro db. eexists. unfold Repo04.get_all_users_advanced.
  rewrite with_session_pool_query. split; [reflexivity|].
  unfold select_users_advanced.
  set (matching := filter where_en_or_uk_and_john (users db)).
  set (grouped := flat_map group_row (group_by User.telegram_id matching)).
  set (having := filter (fun u => 0 <? User.telegram_id u) grouped).
  assert (Hkeys : map User.telegram_id grouped
                  = nodup Z.eq_dec (map User.telegram_id matching)).
  { unfold grouped, group_by. apply group_rows_keys.
    intros k Hk. apply nodup_In in Hk. exact Hk. }
  assert (Hnd : NoDup (map User.telegram_id having)).
  { unfold having. apply NoDup_map_filter. rewrite Hkeys. apply NoDup_nodup. }
  assert (Hin : forall u, In u (order_by_created_at_desc having) ->
                In u (users db) /\ where_en_or_uk_and_john u = true /\
                0 < User.telegram_id u).
  { intros u Hu.
    apply (Permutation_in _ (order_by_created_at_desc_perm having)) in Hu.
    unfold having in Hu. apply filter_In in Hu. destruct Hu as [Hu Hpos].
    apply Z.ltb_lt in Hpos. apply group_rows_incl in Hu.
    unfold matching in Hu. apply filter_In in Hu. tauto. }
  split; [apply firstn_le_length|]. split; [|split; [|split]].
  - intros u Hu. apply Hin. apply (firstn_incl 10). exact Hu.
  - rewrite <- firstn_map. apply firstn_NoDup.
    apply (Permutation_NoDup
             (Permutation_map User.telegram_id
                (Permutation_sym (order_by_created_at_desc_perm having)))).
    exact Hnd.
  - apply firstn_sorted. apply order_by_created_at_desc_sorted.
  - intros Hshort u Hu Hw Hpos.
    rewrite (firstn_short 10 _ Hshort).
    apply (Permutation_in _
             (Permutation_map User.telegram_id
                (Permutation_sym (order_by_created_at_desc_perm having)))).
    assert (Hk : In (User.telegram_id u) (map User.telegram_id grouped)).
    { rewrite Hkeys. apply nodup_In. apply in_map.
      unfold matching. apply filter_In. split; assumption. }
    apply in_map_iff in Hk. destruct Hk as [v [Ev Hv]].
    apply in_map_iff. exists v. split; [exact Ev|].
    unfold having. apply filter_In. split; [exact Hv|].
    apply Z.ltb_lt. rewrite Ev. exact Hpos.
Qed.

(** What the WHERE clause matches: the letter case of "john" does not
    matter, the language must be "en" or "uk", a missing [user_name] never
    matches. *)
Example where_en_or_uk_and_john_examples :
  where_en_or_uk_and_john (User.Build 1 "J" (Some "JohnDoe") "en" None 4 4) = true /\
  where_en_or_uk_and_john (User.Build 1 "J" (Some "xx_jOHN_1") "uk" None 4 4) = true /\
  where_en_or_uk_and_john (User.Build 1 "J" (Some "johnny") "es" None 4 4) = false /\
  where_en_or_uk_and_john (User.Build 1 "J" (Some "jon") "en" None 4 4) = false /\
  where_en_or_uk_and_john (User.Build 1 "John" None "en" None 4 4) = false.
Proof. repeat split. Qed.

(* ===================================================================== *)
(** ** Serial ids of the bulk insert *)
(* ===================================================================== *)




(* ===================================================================== *)
(** ** Keys kept by every operation *)
(* ===================================================================== *)

Lemma cleanup_users_keeps_users_pk (db : DB) :
  users_pk (fst (with_session_pool Repo05.cleanup_users db)).
Proof.
  unfold Repo05.cleanup_users. rewrite with_session_pool_execute_commit_unit.
  unfold atomically, delete_users_where, delete_orders_where. simpl.
  unfold users_pk. simpl.
  rewrite (filter_none (fun _ : User.t => false)) by reflexivity.
  constructor.
Qed.

(** X22: the primary key of users is kept by every operation on users of
    both repositories, whatever the arguments and whether the operation
    succeeds or raises. *)
Theorem users_pk_kept_by_user_operations :
  forall db : DB,
    users_pk db ->
    (forall now telegram_id full_name language_code user_name referrer_id,
       users_pk (fst (with_session_pool
                        (Repo04.add_user now telegram_id full_name
                           language_code user_name referrer_id) db))) /\
    (forall now telegram_id full_name language_code user_name referrer_id,
       users_pk (fst (with_session_pool
                        (Repo05.add_user now telegram_id full_name
                           language_code user_name referrer_id) db))) /\
    (forall now user_id referrer_id,
       users_pk (fst (with_session_pool
                        (Repo05.set_new_referrer now user_id referrer_id) db))) /\
    (forall user_id,
       users_pk (fst (with_session_pool (Repo05.delete_user_by_id user_id) db))) /\
    users_pk (fst (with_session_pool Repo05.cleanup_users db)).
Proof.
  intros db Hpk. split; [|split; [|split; [|split]]].
  - intros. apply Repo04_add_user_keeps_users_pk. exact Hpk.
  - intros. apply Repo05_add_user_keeps_users_pk. exact Hpk.
  - intros. apply set_new_referrer_keeps_users_pk. exact Hpk.
  - intro uid.
    destruct (delete_user_by_id_commits uid db) as [db' [Hrun [Hus _]]].
    rewrite Hrun. simpl. unfold users_pk. rewrite Hus, map_map.
    rewrite (map_ext _ User.telegram_id).
    + apply NoDup_map_filter. exact Hpk.
    + intro u. destruct (referred_by _ u); reflexivity.
  - apply cleanup_users_keeps_users_pk.
Qed.

(** X22, witness: a second insert of id 1 is refused, an upsert rewrites
    the row; the key stays unique either way. *)
Lemma users_pk_kept_by_user_operations_witness :
  let db := set_users [User.Build 1 "A" None "en" None 4 4] empty_db in
  users_pk (fst (with_session_pool (Repo04.add_user 9 1 "B" "en" None None) db)) /\
  users_pk (fst (with_session_pool (Repo05.add_user 9 1 "B" "en" None None) db)).
Proof.
  intro db.
  assert (Hpk : users_pk db).
  { repeat constructor; simpl; intuition. }
  destruct (users_pk_kept_by_user_operations db Hpk) as [H4 [H5 _]].
  split; [apply H4 | apply H5].
Defined.

Lemma INTEGER_Raise (z : Z) (e : DBAPIError) :
  INTEGER z = Raise e -> e = NumericValueOutOfRange.
Proof.
  unfold INTEGER. destruct (_ && _)%bool; intro H; inversion H; reflexivity.
Qed.

Lemma BIGINT_Raise (z : Z) (e : DBAPIError) :
  BIGINT z = Raise e -> e = NumericValueOutOfRange.
Proof.
  unfold BIGINT. destruct (_ && _)%bool; intro H; inversion H; reflexivity.
Qed.

(** X23: when the primary key of orders holds and the sequence is at or
    past every order id, [create_new_order_for_user] keeps both, for any
    user id and whether it succeeds or raises, and it never raises a
    unique violation. *)
Theorem create_new_order_for_user_keeps_keys :
  forall (db : DB) (now : timestamp) (user_id : Z),
    orders_pk db -> orders_seq_ahead db ->
    orders_pk (fst (with_session_pool
                      (Repo05.create_new_order_for_user now user_id) db)) /\
    orders_seq_ahead (fst (with_session_pool
                             (Repo05.create_new_order_for_user now user_id) db)) /\
    snd (with_session_pool (Repo05.create_new_order_for_user now user_id) db)
      <> Raise UniqueViolation.
Proof.
  intros db now uid Hpk Hseq.
  split; [apply create_new_order_for_user_keeps_orders_pk; exact Hpk|].
  pose proof (order_absent_past_sequence db (orders_order_id_seq db + 1) Hseq
                ltac:(lia)) as Hfresh.
  unfold Repo05.create_new_order_for_user.
  rewrite with_session_pool_execute_commit.
  unfold insert_orders, atomically, int_pk.
  destruct (INTEGER (orders_order_id_seq db + 1)) as [oid|e] eqn:Ei; simpl.
  2:{ apply INTEGER_Raise in Ei. subst e.
      split; [|simpl; discriminate]. intros o Hin. simpl in *.
      pose proof (Hseq o Hin). lia. }
  apply INTEGER_Ok in Ei. subst oid.
  destruct (BIGINT uid) as [uid'|e] eqn:Eb; simpl.
  2:{ apply BIGINT_Raise in Eb. subst e.
      split; [|simpl; discriminate]. intros o Hin. simpl in *.
      pose proof (Hseq o Hin). lia. }
  rewrite Hfresh.
  destruct (user_exists uid' (users db)); simpl.
  - split; [|simpl; discriminate]. intros o Hin. simpl in *.
    apply in_app_or in Hin. destruct Hin as [Hin | [<- | []]]; simpl.
    + pose proof (Hseq o Hin). lia.
    + lia.
  - split; [|simpl; discriminate]. intros o Hin. simpl in *.
    pose proof (Hseq o Hin). lia.
Qed.

(** X23, witness. *)
Lemma create_new_order_for_user_keeps_keys_witness :
  let db :=
    {| users := [User.Build 2 "B" None "en" None 5 5];
       orders := [Order.Build 1 2 6 6];
       products := []; orderproductss := [];
       orders_order_id_seq := 1; products_product_id_seq := 0 |} in
  orders_pk (fst (with_session_pool (Repo05.create_new_order_for_user 9 2) db)) /\
  orders_seq_ahead
    (fst (with_session_pool (Repo05.create_new_order_for_user 9 2) db)) /\
  snd (with_session_pool (Repo05.create_new_order_for_user 9 2) db)
    <> Raise UniqueViolation.
Proof.
  intro db. apply (create_new_order_for_user_keeps_keys db 9 2).
  - repeat constructor; simpl; intuition.
  - intros o [<- | []]. simpl. lia.
Defined.

(* ===================================================================== *)
(** ** From insert to read *)
(* ===================================================================== *)

(** X24: a line item added by [add_order_product] is read back by both
    join queries for the user of the order, with the product, the order,
    the user's [user_name] and the quantity. *)
Theorem add_order_product_then_joined_read :
  forall (db db1 : DB) (order_id product_id quantity : Z)
         (u : User.t) (o : Order.t) (p : Product.t),
    with_session_pool (Repo04.add_order_product order_id product_id quantity) db
      = (db1, Ok tt) ->
    In o (orders db) -> Order.order_id o = order_id ->
    In u (users db) -> User.telegram_id u = Order.user_id o ->
    In p (products db) -> Product.product_id p = product_id ->
    exists rows1 rows2 : list user_order_row,
      with_session_pool
        (Repo04.get_all_user_orders_relationships (User.telegram_id u)) db1
        = (db1, Ok rows1) /\
      with_session_pool
        (Repo04.get_all_user_orders_no_relationships (User.telegram_id u)) db1
        = (db1, Ok rows2) /\
      In (p, o, User.user_name u, quantity) rows1 /\
      In (p, o, User.user_name u, quantity) rows2.
Proof.
  intros db db1 oid pid q u o p Hrun Ho Hoid Hu Huid Hp Hpid.
  unfold Repo04.add_order_product in Hrun.
  rewrite with_session_pool_execute_commit_unit in Hrun.
  pose proof (insert_orderproductss_effect oid pid q db) as Heff.
  destruct (insert_orderproductss oid pid q db) as [d [x|e]];
    inversion Hrun; subst d; clear Hrun.
  destruct Heff as [Hdb1 _].
  set (op := OrderProducts.Build oid pid q).
  assert (Hop : In op (orderproductss db1)).
  { rewrite Hdb1. simpl. apply in_or_app. right. left. reflexivity. }
  assert (Hus : users db1 = users db) by (rewrite Hdb1; reflexivity).
  assert (Hos : orders db1 = orders db) by (rewrite Hdb1; reflexivity).
  assert (Hps : products db1 = products db) by (rewrite Hdb1; reflexivity).
  assert (Hrow1 : In (p, o, User.user_name u, q)
                    (select_user_orders_relationships (User.telegram_id u) db1)).
  { unfold select_user_orders_relationships.
    apply in_map_iff. exists (u, o, op, p). split; [reflexivity|].
    apply filter_In. split; [|simpl; apply Z.eqb_refl].
    rewrite Hus, Hos, Hps.
    apply in_join. split; [|split; [exact Hp | simpl; apply Z.eqb_eq; exact Hpid]].
    apply in_join. split; [|split; [exact Hop | simpl; apply Z.eqb_eq; exact Hoid]].
    apply in_join. split; [exact Hu|]. split; [exact Ho|].
    apply Z.eqb_eq. exact Huid. }
  exists (select_user_orders_relationships (User.telegram_id u) db1),
         (select_user_orders_no_relationships (User.telegram_id u) db1).
  unfold Repo04.get_all_user_orders_relationships,
         Repo04.get_all_user_orders_no_relationships.
  rewrite !with_session_pool_query.
  split; [reflexivity|]. split; [reflexivity|]. split; [exact Hrow1|].
  apply (Permutation_in _ (select_user_orders_permutation _ db1)). exact Hrow1.
Qed.

(** X24, witness. *)
Lemma add_order_product_then_joined_read_witness :
  let u := User.Build 2 "B" (Some "b") "en" None 5 5 in
  let o := Order.Build 1 2 6 6 in
  let p := Product.Build 1 "p1" None 10000 7 7 in
  let db :=
    {| users := [u]; orders := [o]; products := [p]; orderproductss := [];
       orders_order_id_seq := 1; products_product_id_seq := 1 |} in
  exists rows1 rows2 : list user_order_row,
    with_session_pool (Repo04.get_all_user_orders_relationships 2)
      (fst (with_session_pool (Repo04.add_order_product 1 1 3) db))
    = (fst (with_session_pool (Repo04.add_order_product 1 1 3) db), Ok rows1) /\
    with_session_pool (Repo04.get_all_user_orders_no_relationships 2)
      (fst (with_session_pool (Repo04.add_order_product 1 1 3) db))
    = (fst (with_session_pool (Repo04.add_order_product 1 1 3) db), Ok rows2) /\
    In (p, o, Some "b", 3) rows1 /\ In (p, o, Some "b", 3) rows2.
Proof.
  intros u o p db.
  apply (add_order_product_then_joined_read db _ 1 1 3 u o p eq_refl);
    try reflexivity; left; reflexivity.
Defined.

Lemma users_values_stamps (sch : Schema) (now : timestamp) (tid : Z)
    (fn lc : string) (un : option string) (rid : option Z) (row : User.t) :
  users_values sch now tid fn lc un rid = Ok row ->
  User.referrer_id row = rid /\ User.created_at row = now /\
  User.updated_at row = now.
Proof.
  unfold users_values. intro H.
  destruct (BIGINT tid); simpl in H; [|discriminate].
  destruct (str_255 fn); simpl in H; [|discriminate].
  destruct (Optional str_255 un); simpl in H; [|discriminate].
  destruct (VARCHAR (language_code_length sch) lc); simpl in H; [|discriminate].
  destruct (Optional BIGINT rid) as [rid'|] eqn:Hr; simpl in H; [|discriminate].
  inversion H; subst row; clear H. simpl.
  repeat split.
  destruct rid as [x|]; simpl in Hr.
  - destruct (BIGINT x) as [x'|] eqn:Hx; simpl in Hr; [|discriminate].
    apply BIGINT_Ok in Hx. inversion Hr. congruence.
  - inversion Hr. reflexivity.
Qed.

(** X25: the row a successful [add_user] of notebook 05 returns carries
    the id passed and the time of the call as [created_at] and
    [updated_at], its referrer link resolves, and [get_all_users] then
    lists the former users followed by that row. *)
Theorem add_user_then_get_all_users :
  forall (db db1 : DB) (now : timestamp) (telegram_id : Z)
         (full_name language_code : string) (user_name : option string)
         (referrer_id : option Z) (res : option User.t),
    with_session_pool
      (Repo05.add_user now telegram_id full_name language_code user_name
         referrer_id) db = (db1, Ok res) ->
    exists u : User.t,
      res = Some u /\
      with_session_pool Repo05.get_all_users db1 = (db1, Ok (users db ++ [u])) /\
      User.telegram_id u = telegram_id /\
      User.referrer_id u = referrer_id /\
      User.created_at u = now /\ User.updated_at u = now /\
      referrer_resolves (users db1) (User.referrer_id u) = true /\
      user_exists telegram_id (users db) = false.
Proof.
  intros db db1 now tid fn lc un rid res H.
  unfold Repo05.add_user in H. rewrite with_session_pool_execute_commit in H.
  unfold insert_users, atomically in H.
  destruct (users_values schema_05 now tid fn lc un rid) as [r|e] eqn:Hv;
    simpl in H; [|inversion H].
  destruct (users_values_telegram_id _ _ _ _ _ _ _ _ Hv) as [Hid _].
  destruct (user_exists (User.telegram_id r) (users db)) eqn:Hex; [inversion H|].
  destruct (referrer_resolves (users db ++ [r]) (User.referrer_id r)) eqn:Hres;
    inversion H; subst db1 res; clear H.
  exists r. split; [reflexivity|].
  unfold Repo05.get_all_users. rewrite with_session_pool_query. simpl.
  split; [reflexivity|]. split; [exact Hid|].
  rewrite Hid in Hex.
  destruct (users_values_stamps _ _ _ _ _ _ _ _ Hv) as [Hr [Hc Hu]].
  rewrite Hr in Hres |- *.
  repeat split; assumption.
Qed.

(** X25, witness. *)
Lemma add_user_then_get_all_users_witness :
  let db := set_users [User.Build 1 "A" None "en" None 4 4] empty_db in
  exists u : User.t,
    Some (User.Build 2 "B" None "en" (Some 1) 9 9) = Some u /\
    with_session_pool Repo05.get_all_users
      (fst (with_session_pool (Repo05.add_user 9 2 "B" "en" None (Some 1)) db))
    = (fst (with_session_pool (Repo05.add_user 9 2 "B" "en" None (Some 1)) db),
       Ok (users db ++ [u])) /\
    User.telegram_id u = 2 /\
    User.referrer_id u = Some 1 /\
    User.created_at u = 9 /\ User.updated_at u = 9 /\
    referrer_resolves
      (users (fst (with_session_pool
                     (Repo05.add_user 9 2 "B" "en" None (Some 1)) db)))
      (User.referrer_id u) = true /\
    user_exists 2 (users db) = false.
Proof.
  intro db.
  apply (add_user_then_get_all_users db _ 9 2 "B" "en" None (Some 1) _ eq_refl).
Defined.

(* ===================================================================== *)
(** ** Referrer links always resolve *)
(* ===================================================================== *)

Lemma user_exists_app (k : Z) (l1 l2 : list User.t) :
  user_exists k (l1 ++ l2) = (user_exists k l1 || user_exists k l2)%bool.
Proof. unfold user_exists. apply existsb_app. Qed.

Lemma user_exists_map_update (k uid : Z) (f : User.t -> User.t) (l : list User.t) :
  (forall u, User.telegram_id (f u) = User.telegram_id u) ->
  user_exists k (map (fun u => if User.telegram_id u =? uid then f u else u) l)
  = user_exists k l.
Proof.
  intro Hf. apply eq_true_iff_eq. unfold user_exists.
  rewrite !(existsb_key_In User.telegram_id), map_update_keys by exact Hf.
  tauto.
Qed.

(** X26: if every referrer link resolves, it still does after [add_user]
    of either notebook and after [set_new_referrer], whatever the
    arguments and whether the call succeeds or raises. *)
Theorem users_fk_kept_by_user_operations :
  forall db : DB,
    users_fk db ->
    (forall now telegram_id full_name language_code user_name referrer_id,
       users_fk (fst (with_session_pool
                        (Repo04.add_user now telegram_id full_name
                           language_code user_name referrer_id) db))) /\
    (forall now telegram_id full_name language_code user_name referrer_id,
       users_fk (fst (with_session_pool
                        (Repo05.add_user now telegram_id full_name
                           language_code user_name referrer_id) db))) /\
    (forall now user_id referrer_id,
       users_fk (fst (with_session_pool
                        (Repo05.set_new_referrer now user_id referrer_id) db))).
Proof.
  intros db Hfk.
  assert (Hins : forall row : User.t,
             referrer_resolves (users db ++ [row]) (User.referrer_id row) = true ->
             users_fk (set_users (users db ++ [row]) db)).
  { intros row Hres u r Hin Href. simpl in *. apply in_app_or in Hin.
    destruct Hin as [Hin | [<- | []]].
    - rewrite user_exists_app, (Hfk u r Hin Href). reflexivity.
    - rewrite Href in Hres. exact Hres. }
  split; [|split].
  - intros now tid fn lc un rid. unfold Repo04.add_user.
    rewrite with_session_pool_execute_commit.
    unfold insert_users_on_conflict_do_update, atomically.
    destruct (users_values schema_04 now tid fn lc un rid) as [row|e]; simpl;
      [|rewrite close_committed; exact Hfk].
    destruct (existsb _ (users db)); simpl.
    + intros u r Hin Href. simpl in *.
      rewrite user_exists_map_update by (intro; reflexivity).
      apply in_map_iff in Hin. destruct Hin as [v [Ev Hv]].
      apply (Hfk v r Hv).
      destruct (User.telegram_id v =? User.telegram_id row);
        subst u; exact Href.
    + destruct (referrer_resolves (users db ++ [row]) (User.referrer_id row))
        eqn:Hres; simpl.
      * apply Hins. exact Hres.
      * rewrite close_committed. exact Hfk.
  - intros now tid fn lc un rid. unfold Repo05.add_user.
    rewrite with_session_pool_execute_commit.
    unfold insert_users, atomically.
    destruct (users_values schema_05 now tid fn lc un rid) as [row|e]; simpl;
      [|rewrite close_committed; exact Hfk].
    destruct (user_exists (User.telegram_id row) (users db)); simpl;
      [rewrite close_committed; exact Hfk|].
    destruct (referrer_resolves (users db ++ [row]) (User.referrer_id row))
      eqn:Hres; simpl.
    + apply Hins. exact Hres.
    + rewrite close_committed. exact Hfk.
  - intros now uid rid. unfold Repo05.set_new_referrer.
    rewrite with_session_pool_execute_commit.
    unfold update_users_referrer_id, atomically.
    destruct (BIGINT rid) as [rid'|e]; simpl;
      [|rewrite close_committed; exact Hfk].
    destruct (existsb (fun u => User.telegram_id u =? uid) (users db)) eqn:Hhit;
      simpl.
    + destruct (user_exists rid' _) eqn:Hex; simpl;
        [|rewrite close_committed; exact Hfk].
      intros u r Hin Href. simpl in *.
      apply in_map_iff in Hin. destruct Hin as [v [Ev Hv]].
      destruct (User.telegram_id v =? uid); subst u.
      * simpl in Href. inversion Href; subst r. exact Hex.
      * rewrite user_exists_map_update by (intro; reflexivity).
        exact (Hfk v r Hv Href).
    + intros u r Hin Href. simpl in *.
      apply in_map_iff in Hin. destruct Hin as [v [Ev Hv]].
      rewrite user_exists_map_update by (intro; reflexivity).
      apply (Hfk v r Hv).
      destruct (User.telegram_id v =? uid) eqn:E; subst u; [|exact Href].
      exfalso. apply not_true_iff_false in Hhit. apply Hhit.
      apply existsb_exists. exists v. split; assumption.
Qed.

(** X26, witness. *)
Lemma users_fk_kept_by_user_operations_witness :
  let db := set_users [User.Build 1 "A" None "en" None 4 4;
                       User.Build 2 "B" None "en" (Some 1) 5 5] empty_db in
  users_fk (fst (with_session_pool (Repo05.set_new_referrer 9 1 2) db)) /\
  users_fk (fst (with_session_pool (Repo05.set_new_referrer 9 1 77) db)).
Proof.
  intro db.
  assert (Hfk : users_fk db).
  { intros u r [<- | [<- | []]] Hr; inversion Hr; reflexivity. }
  destruct (users_fk_kept_by_user_operations db Hfk) as [_ [_ H]].
  split; apply H.
Defined.
